(** * AIWikiQuizGeneratorBackend: article extraction and quiz pipeline

    A shallow embedding of [app/utils/scraper.py], [app/utils/quiz_generator.py]
    and of the two classes of [app/main.py] ([WikipediaScraper], which repeats
    the scraper module, and [AdvancedQuizGenerator]).

    Python [str] values are modelled as [string]; a character is a code point
    below 256.  Python objects coming out of [json.loads] are modelled by
    [pyval]; a [dict] is an association list read through [dict_get] (first
    binding of a key) and written through [dict_set] (replace in place, else
    append), which is the insertion order of a Python dict. *)

From Stdlib Require Import String Ascii List ZArith Lia Bool Arith.
Import ListNotations.
Open Scope string_scope.
Open Scope nat_scope.
Set Warnings "-register-all,-abstract-large-number".

(** ** Python strings *)

Definition code (c : ascii) : nat := nat_of_ascii c.

(** [str.isspace] and the regular expression class [\s], on code points
    below 256. *)
Definition py_isspace (c : ascii) : bool :=
  let n := code c in
  ((9 <=? n) && (n <=? 13)) || ((28 <=? n) && (n <=? 32))
  || (n =? 133) || (n =? 160).

(** The regular expression class [\d]. *)
Definition py_isdigit (c : ascii) : bool :=
  let n := code c in (48 <=? n) && (n <=? 57).

(** The regular expression class [[a-z]]. *)
Definition is_az (c : ascii) : bool :=
  let n := code c in (97 <=? n) && (n <=? 122).

(** [str.lower] on one character: A-Z, and the Latin-1 capitals. *)
Definition lower_char (c : ascii) : ascii :=
  let n := code c in
  if ((65 <=? n) && (n <=? 90))
     || ((192 <=? n) && (n <=? 222) && negb (n =? 215))
  then ascii_of_nat (n + 32) else c.

Fixpoint py_lower (s : string) : string :=
  match s with
  | EmptyString => EmptyString
  | String c s' => String (lower_char c) (py_lower s')
  end.

Fixpoint lstrip (s : string) : string :=
  match s with
  | String c s' => if py_isspace c then lstrip s' else s
  | EmptyString => EmptyString
  end.

(** Drop the trailing white space: a character is kept when something that
    is kept follows it, or when it is not white space. *)
Fixpoint rstrip (s : string) : string :=
  match s with
  | EmptyString => EmptyString
  | String c s' =>
      match rstrip s' with
      | EmptyString => if py_isspace c then EmptyString else String c EmptyString
      | r => String c r
      end
  end.

(** [s.strip()] *)
Definition py_strip (s : string) : string := rstrip (lstrip s).

(** [s[:n]] for [n >= 0] *)
Fixpoint str_take (n : nat) (s : string) : string :=
  match n, s with
  | S n', String c s' => String c (str_take n' s')
  | _, _ => EmptyString
  end.

Fixpoint str_drop (n : nat) (s : string) : string :=
  match n, s with
  | S n', String _ s' => str_drop n' s'
  | _, _ => s
  end.

Fixpoint is_prefix (p s : string) : bool :=
  match p, s with
  | EmptyString, _ => true
  | String a p', String b s' => Ascii.eqb a b && is_prefix p' s'
  | String _ _, EmptyString => false
  end.

(** [w in s] for two strings *)
Fixpoint str_contains (w s : string) : bool :=
  is_prefix w s ||
  match s with
  | EmptyString => false
  | String _ s' => str_contains w s'
  end.

(** [sep.join(l)] *)
Fixpoint py_join (sep : string) (l : list string) : string :=
  match l with
  | [] => EmptyString
  | [x] => x
  | x :: rest => x ++ sep ++ py_join sep rest
  end.

Definition str_nonempty (s : string) : bool :=
  match s with EmptyString => false | _ => true end.

(** The double quote character, and a helper that lets the JSON texts and
    the prompt templates below be written with single quotes. *)
Definition dq : ascii := "034"%char.

Fixpoint sq (s : string) : string :=
  match s with
  | EmptyString => EmptyString
  | String c s' => String (if Ascii.eqb c "'"%char then dq else c) (sq s')
  end.

Definition nl : string := String "010"%char EmptyString.

(** ** Regular expressions ([re]) *)

(** The fragment of Python's [re] syntax that the program uses. [Bol] is [^]
    and [Eol] is [$] (without [re.MULTILINE]); [Star] is the greedy star. *)
Inductive regex : Type :=
| Eps : regex
| Bol : regex
| Eol : regex
| Chr : (ascii -> bool) -> regex
| Cat : regex -> regex -> regex
| Alt : regex -> regex -> regex
| Star : regex -> regex.

Definition Plus (r : regex) : regex := Cat r (Star r).

Fixpoint lit (w : string) : regex :=
  match w with
  | EmptyString => Eps
  | String c w' => Cat (Chr (Ascii.eqb c)) (lit w')
  end.

(** [$] matches at the end of the string and just before a newline that is
    the last character. *)
Definition at_eol (s : string) : bool :=
  match s with
  | EmptyString => true
  | String c EmptyString => Ascii.eqb c "010"%char
  | _ => false
  end.

Section Matcher.
Context {A : Type}.

(** The iterations of a greedy star: one more iteration of [step] first,
    the continuation [k] when that fails. An iteration continues only
    when it consumed something; [fuel] is the length of the subject left
    when the star is entered. *)
Definition star_loop (step : nat -> string -> (nat -> string -> option A) -> option A)
           (k : nat -> string -> option A)
  : nat -> nat -> string -> option A :=
  fix loop (fuel : nat) (pos : nat) (s : string) {struct fuel} : option A :=
    match fuel with
    | O => k pos s
    | S fuel' =>
        match step pos s
                (fun pos' s' =>
                   if String.length s' <? String.length s
                   then loop fuel' pos' s' else None) with
        | Some x => Some x
        | None => k pos s
        end
    end.

(** Backtracking matcher in continuation-passing style, with the priority
    order of [re]: the left alternative first, one more iteration of a
    star before leaving it.  [pos] is the number of characters before [s]
    in the subject string; [k] receives the position and the rest after
    the match. *)
Fixpoint rmatch (r : regex) (pos : nat) (s : string)
         (k : nat -> string -> option A) {struct r} : option A :=
  match r with
  | Eps => k pos s
  | Bol => if pos =? 0 then k pos s else None
  | Eol => if at_eol s then k pos s else None
  | Chr p =>
      match s with
      | String c s' => if p c then k (S pos) s' else None
      | EmptyString => None
      end
  | Cat r1 r2 => rmatch r1 pos s (fun pos' s' => rmatch r2 pos' s' k)
  | Alt r1 r2 =>
      match rmatch r1 pos s k with
      | Some x => Some x
      | None => rmatch r2 pos s k
      end
  | Star r1 => star_loop (rmatch r1) k (String.length s) pos s
  end.
End Matcher.

(** [re.match(r, s)]: the end position of the match at the start of [s]. *)
Definition re_match (r : regex) (s : string) : option nat :=
  rmatch r 0 s (fun e _ => Some e).

(** [re.search(r, s)]: the leftmost match, as (start, end). *)
Fixpoint search_from (r : regex) (pos : nat) (s : string) : option (nat * nat) :=
  match rmatch r pos s (fun e _ => Some e) with
  | Some e => Some (pos, e)
  | None =>
      match s with
      | EmptyString => None
      | String _ s' => search_from r (S pos) s'
      end
  end.

Definition re_search (r : regex) (s : string) : option (nat * nat) :=
  search_from r 0 s.

(** [m.group()] of a search result. *)
Definition group (s : string) (m : nat * nat) : string :=
  str_take (snd m - fst m) (str_drop (fst m) s).

(** [re.sub(r, '', s)] for a pattern that matches no empty string (all the
    patterns of the program are such): scan from the left, drop every
    match, copy every other character. [fuel] bounds the number of steps by
    the length of the subject. *)
Fixpoint sub_from (r : regex) (fuel : nat) (pos : nat) (s : string) : string :=
  match fuel with
  | O => s
  | S fuel' =>
      match s with
      | EmptyString => EmptyString
      | String c s' =>
          match rmatch r pos s (fun e _ => Some e) with
          | Some e =>
              if pos <? e
              then sub_from r fuel' e (str_drop (e - pos) s)
              else String c (sub_from r fuel' (S pos) s')
          | None => String c (sub_from r fuel' (S pos) s')
          end
      end
  end.

Definition re_sub_empty (r : regex) (s : string) : string :=
  sub_from r (String.length s) 0 s.

Definition any_char : ascii -> bool := fun _ => true.
Definition is_char (c : ascii) : ascii -> bool := Ascii.eqb c.
Definition not_char (c : ascii) : ascii -> bool := fun x => negb (Ascii.eqb c x).

(** [r'\[\d+\]'] *)
Definition citation_re : regex :=
  Cat (Chr (is_char "["%char)) (Cat (Plus (Chr py_isdigit)) (Chr (is_char "]"%char))).

(** [r'^https://[a-z]{2}\.wikipedia\.org/wiki/[^/]+$'] *)
Definition wikipedia_pattern : regex :=
  Cat Bol
   (Cat (lit "https://")
    (Cat (Chr is_az)
     (Cat (Chr is_az)
      (Cat (lit ".wikipedia.org/wiki/")
       (Cat (Plus (Chr (not_char "/"%char))) Eol))))).

(** [WikipediaScraper._is_valid_wikipedia_url] (scraper.py 43-45, and the
    same text in main.py 99-101). *)
Definition _is_valid_wikipedia_url (url : string) : bool :=
  match re_match wikipedia_pattern url with
  | Some _ => true
  | None => false
  end.

(** ** The parsed document ([BeautifulSoup]) *)

(** A tag with its name, attributes and children, or a text node. *)
Inductive node : Type :=
| Text : string -> node
| Elem : string -> list (string * string) -> list node -> node.

(** The [BeautifulSoup] object: the top-level nodes of the page. *)
Definition soup : Type := list node.

(** [tag.get_text()]: the text nodes below the tag, concatenated. *)
Fixpoint get_text (n : node) : string :=
  match n with
  | Text s => s
  | Elem _ _ cs => String.concat EmptyString (map get_text cs)
  end.

(** The nodes below a tag, in document order. *)
Fixpoint descendants (n : node) : list node :=
  match n with
  | Text _ => []
  | Elem _ _ cs => flat_map (fun c => c :: descendants c) cs
  end.

Definition soup_descendants (doc : soup) : list node :=
  flat_map (fun c => c :: descendants c) doc.

Definition in_names (names : list string) (t : string) : bool :=
  existsb (String.eqb t) names.

(** A list of names given to [find_all] selects the tags whose name is one
    of them. *)
Definition is_named (names : list string) (n : node) : bool :=
  match n with
  | Elem t _ _ => in_names names t
  | Text _ => false
  end.

Definition find_all (names : list string) (nodes : list node) : list node :=
  filter (is_named names) nodes.

Fixpoint attr_get (k : string) (attrs : list (string * string)) : option string :=
  match attrs with
  | [] => None
  | (k', v) :: rest => if String.eqb k k' then Some v else attr_get k rest
  end.

(** The white-space separated words of an attribute value (the classes of
    a [class] attribute). [cur] is the word being read. *)
Fixpoint words_aux (cur : string) (s : string) : list string :=
  match s with
  | EmptyString => if str_nonempty cur then [cur] else []
  | String c s' =>
      if py_isspace c
      then (if str_nonempty cur then cur :: words_aux EmptyString s'
            else words_aux EmptyString s')
      else words_aux (cur ++ String c EmptyString) s'
  end.

Definition words (s : string) : list string := words_aux EmptyString s.

(** [{'id': v}]: the attribute is exactly [v]. *)
Definition has_id (v : string) (n : node) : bool :=
  match n with
  | Elem _ attrs _ =>
      match attr_get "id" attrs with
      | Some x => String.eqb x v
      | None => false
      end
  | Text _ => false
  end.

(** [{'class': v}]: one of the classes is [v], or the whole value is. *)
Definition has_class (v : string) (n : node) : bool :=
  match n with
  | Elem _ attrs _ =>
      match attr_get "class" attrs with
      | Some x => String.eqb x v || existsb (String.eqb v) (words x)
      | None => false
      end
  | Text _ => false
  end.

(** [soup.find(name, attrs)]: the first tag in document order, or [None]. *)
Definition find (name : string) (p : node -> bool) (nodes : list node) : option node :=
  List.find (fun n => is_named [name] n && p n) nodes.

(** [for element in content.find_all(names): element.decompose()]: every
    tag below [n] with one of the names is taken out of the tree, with all
    that is below it. *)
Fixpoint decompose_all (names : list string) (n : node) : node :=
  match n with
  | Text s => Text s
  | Elem t a cs =>
      Elem t a
        ((fix go (l : list node) : list node :=
            match l with
            | [] => []
            | c :: l' =>
                if is_named names c then go l'
                else decompose_all names c :: go l'
            end) cs)
  end.

(** ** [WikipediaScraper] (scraper.py; main.py 65-141 has the same text) *)

Definition main_content (doc : soup) : option node :=
  find "div" (has_id "mw-content-text") (soup_descendants doc).

(** [' '.join([p.get_text().strip() for p in paragraphs if p.get_text().strip()])] *)
Definition joined_text (paragraphs : list node) : string :=
  py_join " "
    (map (fun p => py_strip (get_text p))
         (filter (fun p => str_nonempty (py_strip (get_text p))) paragraphs)).

(** [_extract_title] *)
Definition _extract_title (doc : soup) : string :=
  match find "h1" (has_class "firstHeading") (soup_descendants doc) with
  | Some title_element => py_strip (get_text title_element)
  | None => "Unknown Title"
  end.

(** [_extract_summary] (scraper.py 51-59) *)
Definition _extract_summary (doc : soup) : string :=
  match main_content doc with
  | None => EmptyString
  | Some content =>
      let paragraphs := firstn 3 (find_all ["p"] (descendants content)) in
      let summary_text := joined_text paragraphs in
      let summary_text := re_sub_empty citation_re summary_text in
      str_take 1000 summary_text
  end.

(** [_extract_full_content] (scraper.py 61-72). The tags are taken out of
    the document itself; [scrape_article] calls this function last, and
    nothing reads the document after it. *)
Definition _extract_full_content (doc : soup) : string :=
  match main_content doc with
  | None => EmptyString
  | Some content =>
      let content := decompose_all ["table"; "div.navbox"; "div.reflist"] content in
      let paragraphs := find_all ["p"] (descendants content) in
      let full_text := joined_text paragraphs in
      let full_text := re_sub_empty citation_re full_text in
      str_take 8000 full_text
  end.

Definition skip_sections : list string :=
  ["contents"; "references"; "external links"; "see also"; "notes"].

(** One turn of the loop of [_extract_sections]. *)
Definition sections_step (sections : list string) (heading : node) : list string :=
  let heading_text := py_lower (py_strip (get_text heading)) in
  if negb (existsb (fun skip => str_contains skip heading_text) skip_sections)
  then (sections ++ [py_strip (get_text heading)])%list
  else sections.

(** [_extract_sections] (scraper.py 74-85) *)
Definition _extract_sections (doc : soup) : list string :=
  let heading_elements := find_all ["h2"; "h3"] (soup_descendants doc) in
  firstn 10 (fold_left sections_step heading_elements []).

Record key_entities_t : Type := {
  people : list string;
  organizations : list string;
  locations : list string
}.

Record article : Type := {
  title : string;
  summary : string;
  sections : list string;
  key_entities : key_entities_t;
  full_content : string
}.

(** What [scrape_article] raises: the [ValueError] of the URL check, or
    whatever [session.get] and [raise_for_status] raised. *)
Inductive scrape_error : Type :=
| InvalidURL : scrape_error
| FetchError : scrape_error.

(** [scrape_article] (scraper.py 16-41). [session_get url] is the page as
    [BeautifulSoup] parses it, or [None] when the request or
    [raise_for_status] raises. The [except] clause logs and raises again. *)
Definition scrape_article (session_get : string -> option soup) (url : string)
  : scrape_error + article :=
  if negb (_is_valid_wikipedia_url url) then inl InvalidURL
  else
    match session_get url with
    | None => inl FetchError
    | Some doc =>
        let title := _extract_title doc in
        let summary := _extract_summary doc in
        let sections := _extract_sections doc in
        let full_content := _extract_full_content doc in
        inr {| title := title;
               summary := summary;
               sections := sections;
               key_entities := {| people := []; organizations := []; locations := [] |};
               full_content := full_content |}
    end.

(** ** Python objects and exceptions *)

(** The exceptions that the modelled code can raise; all of them are
    subclasses of [Exception]. [ModelError] stands for whatever the call to
    the external model raises. [NotImplementedError] marks the parts of
    [str.format] that are outside the fragment modelled below. *)
Inductive exn : Type :=
| TypeError | AttributeError | KeyError | IndexError | ValueError
| JSONDecodeError | ModelError | NotImplementedError.

(** A computation that returns a value or raises. *)
Definition result (A : Type) : Type := exn + A.

Definition ret {A : Type} (a : A) : result A := inr a.
Definition raise {A : Type} (e : exn) : result A := inl e.

Definition bind {A B : Type} (c : result A) (k : A -> result B) : result B :=
  match c with
  | inl e => inl e
  | inr a => k a
  end.

Notation "x <- c ;; k" := (bind c (fun x => k))
  (at level 61, c at next level, right associativity).

(** [try: body / except Exception as e: handler] *)
Definition try_except {A : Type} (body : result A) (handler : exn -> result A)
  : result A :=
  match body with
  | inl e => handler e
  | inr a => inr a
  end.

(** The values that [json.loads] builds, which are also the values of the
    quiz dictionaries. A float is kept as the 64 bits of its representation. *)
Inductive pyval : Type :=
| PNone : pyval
| PBool : bool -> pyval
| PInt : Z -> pyval
| PFloat : Z -> pyval
| PStr : string -> pyval
| PList : list pyval -> pyval
| PDict : list (string * pyval) -> pyval.

Definition pydict : Type := list (string * pyval).

Fixpoint dict_get (k : string) (d : pydict) : option pyval :=
  match d with
  | [] => None
  | (k', v) :: rest => if String.eqb k k' then Some v else dict_get k rest
  end.

(** [d[k] = v]: the value of an existing key is replaced where it stands, a
    new key goes to the end. *)
Fixpoint dict_set (k : string) (v : pyval) (d : pydict) : pydict :=
  match d with
  | [] => [(k, v)]
  | (k', v') :: rest =>
      if String.eqb k k' then (k', v) :: rest else (k', v') :: dict_set k v rest
  end.

(** The keys of a dict, each once, in insertion order. *)
Fixpoint dict_keys (d : pydict) : list string :=
  match d with
  | [] => []
  | (k, _) :: rest =>
      k :: filter (fun k' => negb (String.eqb k k')) (dict_keys rest)
  end.

Fixpoint chars (s : string) : list string :=
  match s with
  | EmptyString => []
  | String c s' => String c EmptyString :: chars s'
  end.

(** [bool(v)] *)
Definition py_truthy (v : pyval) : bool :=
  match v with
  | PNone => false
  | PBool b => b
  | PInt z => negb (Z.eqb z 0)
  | PFloat bits => negb (Z.eqb (Z.land bits (Z.ones 63)) 0)
  | PStr s => str_nonempty s
  | PList l => match l with [] => false | _ => true end
  | PDict d => match d with [] => false | _ => true end
  end.

(** [len(v)] *)
Definition py_len (v : pyval) : result nat :=
  match v with
  | PStr s => ret (String.length s)
  | PList l => ret (List.length l)
  | PDict d => ret (List.length (dict_keys d))
  | _ => raise TypeError
  end.

(** [v == s] for a string [s] *)
Definition py_eq_str (v : pyval) (s : string) : bool :=
  match v with
  | PStr s' => String.eqb s' s
  | _ => false
  end.

(** [k in v] for a string [k]: key of a dict, element of a list, substring
    of a string. *)
Definition py_in (k : string) (v : pyval) : result bool :=
  match v with
  | PDict d => ret (match dict_get k d with Some _ => true | None => false end)
  | PList l => ret (existsb (fun x => py_eq_str x k) l)
  | PStr s => ret (str_contains k s)
  | _ => raise TypeError
  end.

(** [v in l] for a list [l] of string literals *)
Definition py_among (v : pyval) (l : list string) : bool :=
  existsb (py_eq_str v) l.

(** [v[k]] for a string [k] *)
Definition py_getitem (v : pyval) (k : string) : result pyval :=
  match v with
  | PDict d => match dict_get k d with Some x => ret x | None => raise KeyError end
  | _ => raise TypeError
  end.

(** [v[k] = x] for a string [k] *)
Definition py_setitem (v : pyval) (k : string) (x : pyval) : result pyval :=
  match v with
  | PDict d => ret (PDict (dict_set k x d))
  | _ => raise TypeError
  end.

(** [v.strip()] *)
Definition py_strip_method (v : pyval) : result string :=
  match v with
  | PStr s => ret (py_strip s)
  | _ => raise AttributeError
  end.

(** [v.extend(items)] *)
Definition py_extend (v : pyval) (items : list pyval) : result pyval :=
  match v with
  | PList l => ret (PList (l ++ items)%list)
  | _ => raise AttributeError
  end.

(** [v.get(k, default)] *)
Definition py_get_method (v : pyval) (k : string) (default : pyval) : result pyval :=
  match v with
  | PDict d => ret (match dict_get k d with Some x => x | None => default end)
  | _ => raise AttributeError
  end.

(** [iter(v)]: the elements of a list, the characters of a string, the keys
    of a dict. *)
Definition py_iter (v : pyval) : result (list pyval) :=
  match v with
  | PList l => ret l
  | PStr s => ret (map PStr (chars s))
  | PDict d => ret (map PStr (dict_keys d))
  | _ => raise TypeError
  end.

(** [for i, x in enumerate(items): x = body i x], the elements being
    changed in place; it stops at the first exception. *)
Fixpoint for_enumerate (body : nat -> pyval -> result pyval) (i : nat)
         (items : list pyval) : result (list pyval) :=
  match items with
  | [] => ret []
  | x :: rest =>
      x' <- body i x ;;
      rest' <- for_enumerate body (S i) rest ;;
      ret (x' :: rest')
  end.

(** After a loop over [v] that changes its elements in place: the elements
    of a list are the changed ones; the characters of a string and the keys
    of a dict are new objects at each iteration, and [v] stays as it is. *)
Definition store_back (v : pyval) (items : list pyval) : pyval :=
  match v with
  | PList _ => PList items
  | _ => v
  end.

(** [key not in question or bad(question[key])], with the short circuit
    of [or]. *)
Definition absent_or (question : pyval) (key : string)
           (bad : pyval -> result bool) : result bool :=
  present <- py_in key question ;;
  if negb present then ret true
  else x <- py_getitem question key ;; bad x.

Definition not_truthy (x : pyval) : result bool := ret (negb (py_truthy x)).

(** [len(x) != 4] *)
Definition len_not_4 (x : pyval) : result bool :=
  n <- py_len x ;; ret (negb (n =? 4)).

Definition not_among (l : list string) (x : pyval) : result bool :=
  ret (negb (py_among x l)).

(** [not x.strip()] *)
Definition blank (x : pyval) : result bool :=
  s <- py_strip_method x ;; ret (negb (str_nonempty s)).

Definition letters : list string := ["A"; "B"; "C"; "D"].
Definition difficulties : list string := ["easy"; "medium"; "hard"].

(** The literal of a question dictionary, in the key order of the source. *)
Definition mk_question (question a b c d correct_answer explanation difficulty : string)
  : pyval :=
  PDict [("question", PStr question);
         ("options", PDict [("A", PStr a); ("B", PStr b); ("C", PStr c); ("D", PStr d)]);
         ("correct_answer", PStr correct_answer);
         ("explanation", PStr explanation);
         ("difficulty", PStr difficulty)].

Definition mk_quiz (questions : list pyval) (related_topics : list string) : pyval :=
  PDict [("questions", PList questions);
         ("related_topics", PList (map PStr related_topics))].

(** ** [str.format] *)

(** The field name of a replacement field, read up to its ['}'], [':'] or
    ['!']; a ['['] skips to the next [']']. The result is the name, the
    character that ended it and the rest of the template. *)
Fixpoint scan_name (in_bracket : bool) (acc : string) (s : string)
  : result (string * ascii * string) :=
  match s with
  | EmptyString => raise ValueError
  | String c s' =>
      let acc' := acc ++ String c EmptyString in
      if in_bracket then scan_name (negb (Ascii.eqb c "]"%char)) acc' s'
      else if Ascii.eqb c "{"%char then raise ValueError
      else if Ascii.eqb c "["%char then scan_name true acc' s'
      else if Ascii.eqb c "}"%char || Ascii.eqb c ":"%char || Ascii.eqb c "!"%char
           then ret (acc, c, s')
      else scan_name false acc' s'
  end.

(** The format specification, up to the ['}'] that closes the field;
    [count] is the number of open braces. *)
Fixpoint scan_spec (count : nat) (acc : string) (s : string)
  : result (string * string) :=
  match s with
  | EmptyString => raise ValueError
  | String c s' =>
      if Ascii.eqb c "{"%char then scan_spec (S count) (acc ++ String c EmptyString) s'
      else if Ascii.eqb c "}"%char then
        match count with
        | 1 => ret (acc, s')
        | _ => scan_spec (count - 1) (acc ++ String c EmptyString) s'
        end
      else scan_spec count (acc ++ String c EmptyString) s'
  end.

(** The first part of a field name: up to a ['.'] or a ['[']. *)
Fixpoint first_part (s : string) : string :=
  match s with
  | EmptyString => EmptyString
  | String c s' =>
      if Ascii.eqb c "."%char || Ascii.eqb c "["%char then EmptyString
      else String c (first_part s')
  end.

Fixpoint all_digits (s : string) : bool :=
  match s with
  | EmptyString => true
  | String c s' => py_isdigit c && all_digits s'
  end.

(** The value of a replacement field, for a call with keyword arguments
    only, all of them strings. An empty or numeric name asks for a
    positional argument, and there is none; another name is looked up in
    the keyword arguments. Attribute and index lookups and non-empty
    format specifications are outside the fragment. *)
Definition field_value (kwargs : list (string * string)) (name : string)
           (plain : bool) : result string :=
  let key := first_part name in
  if all_digits key then raise IndexError
  else
    match List.find (fun kv => String.eqb (fst kv) key) kwargs with
    | None => raise KeyError
    | Some (_, v) =>
        if String.eqb key name && plain then ret v else raise NotImplementedError
    end.

(** [tmpl.format] with keyword arguments: literal text with [{{] and [}}] for braces,
    and replacement fields; a conversion ([!r], [!s]) is outside the
    fragment. [fuel] bounds the number of steps by the length
    of the template. *)
Fixpoint format_from (fuel : nat) (kwargs : list (string * string))
         (out : string) (s : string) : result string :=
  match fuel with
  | O => ret out
  | S fuel' =>
      match s with
      | EmptyString => ret out
      | String c s' =>
          if Ascii.eqb c "}"%char then
            match s' with
            | String c2 s'' =>
                if Ascii.eqb c2 "}"%char
                then format_from fuel' kwargs (out ++ "}") s''
                else raise ValueError
            | EmptyString => raise ValueError
            end
          else if Ascii.eqb c "{"%char then
            match s' with
            | EmptyString => raise ValueError
            | String c2 s'' =>
                if Ascii.eqb c2 "{"%char
                then format_from fuel' kwargs (out ++ "{") s''
                else
                  f <- scan_name false EmptyString s' ;;
                  let '(name, stop, rest) := f in
                  if Ascii.eqb stop "}"%char then
                    v <- field_value kwargs name true ;;
                    format_from fuel' kwargs (out ++ v) rest
                  else if Ascii.eqb stop ":"%char then
                    sp <- scan_spec 1 EmptyString rest ;;
                    v <- field_value kwargs name
                           (negb (str_nonempty (fst sp))) ;;
                    format_from fuel' kwargs (out ++ v) (snd sp)
                  else raise NotImplementedError
            end
          else format_from fuel' kwargs (out ++ String c EmptyString) s'
      end
  end.

Definition py_format (tmpl : string) (kwargs : list (string * string))
  : result string :=
  format_from (S (String.length tmpl)) kwargs EmptyString tmpl.

(** ** [QuizGenerator] (app/utils/quiz_generator.py) *)

(** [r'```json\s*'] *)
Definition fence_json_re : regex := Cat (lit "```json") (Star (Chr py_isspace)).

(** [r'```\s*'] *)
Definition fence_re : regex := Cat (lit "```") (Star (Chr py_isspace)).

(** [r'\{.*\}'] with [re.DOTALL] *)
Definition braces_re : regex :=
  Cat (Chr (is_char "{"%char)) (Cat (Star (Chr any_char)) (Chr (is_char "}"%char))).

(** [if key not in v or bad(v[key]): v[key] = x] *)
Definition ensure (v : pyval) (key : string) (bad : pyval -> result bool)
           (x : pyval) : result pyval :=
  b <- absent_or v key bad ;;
  if b then py_setitem v key x else ret v.

Definition never (x : pyval) : result bool := ret false.

Module QuizGenerator.

(** [self.prompt_template] (lines 19-55), with ['] written for the double
    quote. *)
Definition prompt_template : string := sq
"You are an expert quiz creator. Using ONLY the Wikipedia article text below, generate 5-7 high-quality multiple-choice questions.

ARTICLE CONTENT:
{article_text}

INSTRUCTIONS:
1. Create 5-7 multiple-choice questions based strictly on the provided article
2. Each question must include:
   - Clear, well-formulated question
   - 4 answer options labeled A, B, C, D
   - Correct answer (just the letter)
   - Concise explanation (1-2 lines)
   - Difficulty level: easy, medium, or hard
3. Include 3 related Wikipedia topics mentioned in the text
4. All answers must be factual and based ONLY on the provided text
5. Questions should test comprehension of key concepts and facts

OUTPUT FORMAT (JSON only):
{
  'questions': [
    {
      'question': 'Question text?',
      'options': {
        'A': 'Option A text',
        'B': 'Option B text', 
        'C': 'Option C text',
        'D': 'Option D text'
      },
      'correct_answer': 'A',
      'explanation': 'Brief explanation of why this is correct',
      'difficulty': 'medium'
    }
  ],
  'related_topics': ['Topic1', 'Topic2', 'Topic3']
}

Generate the quiz now:".

(** The questions of [_create_enhanced_fallback_quiz] (lines 149-215). *)
Definition fallback_questions : list pyval :=
  [
    mk_question
      "What is the primary subject or topic covered in this Wikipedia article?"
      "The main subject described in the article"
      "A completely unrelated scientific field"
      "Historical events from a different era"
      "Fictional characters and stories"
      "A"
      "Wikipedia articles are organized around specific subjects and provide detailed information about them."
      "easy";
    mk_question
      "What characteristic makes Wikipedia a unique online resource?"
      "It is collaboratively edited by volunteers worldwide"
      "It requires expensive subscriptions to access"
      "It contains only government-approved content"
      "It is written by a single expert author"
      "A"
      "Wikipedia's collaborative editing model allows continuous improvement by contributors globally."
      "medium";
    mk_question
      "How does Wikipedia ensure the reliability of its content?"
      "Through citation requirements and community review"
      "By having government certification"
      "Through paid professional editors only"
      "By limiting edits to academic experts"
      "A"
      "Wikipedia uses citations and community monitoring to maintain content quality and accuracy."
      "medium";
    mk_question
      "What is a key advantage of Wikipedia's open editing model?"
      "Rapid updates and corrections to information"
      "Limited access to prevent errors"
      "Strict government oversight"
      "Paid content creation only"
      "A"
      "The open editing allows quick updates when new information becomes available or errors are found."
      "hard";
    mk_question
      "Why is Wikipedia considered a valuable starting point for research?"
      "It provides overviews and references to primary sources"
      "It contains all original research needed"
      "It is the final authority on all topics"
      "It replaces the need for other sources"
      "A"
      "Wikipedia offers comprehensive overviews and citations that can lead to more specialized sources."
      "easy"
  ].

Definition _create_enhanced_fallback_quiz : pyval :=
  mk_quiz fallback_questions ["Online Encyclopedia"; "Collaborative Knowledge"; "Digital Education"].

(** [_clean_response] (lines 99-110) *)
Definition _clean_response (text : string) : string :=
  let text := re_sub_empty fence_json_re text in
  let text := re_sub_empty fence_re text in
  match re_search braces_re text with
  | Some json_match => group text json_match
  | None => py_strip text
  end.

(** The body of the loop of [_validate_quiz_data] (lines 123-142). *)
Definition validate_question (i : nat) (question : pyval) : result pyval :=
  question <- ensure question "question" not_truthy
                (PStr "Question about the article content?") ;;
  question <- ensure question "options" len_not_4
                (PDict [("A", PStr "First option based on article");
                        ("B", PStr "Second option based on article");
                        ("C", PStr "Third option based on article");
                        ("D", PStr "Fourth option based on article")]) ;;
  question <- ensure question "correct_answer" (not_among letters)
                (PStr "A") ;;
  question <- ensure question "explanation" not_truthy
                (PStr "This answer is correct based on the article content.") ;;
  ensure question "difficulty" (not_among difficulties)
                (PStr "medium").

(** [_validate_quiz_data] (lines 112-147) *)
Definition _validate_quiz_data (quiz_data : pyval) : result pyval :=
  quiz_data <- ensure quiz_data "questions" not_truthy
                (PList fallback_questions) ;;
  questions <- py_getitem quiz_data "questions" ;;
  n <- py_len questions ;;
  quiz_data <-
    (if n <? 3 then
       let additional_questions := fallback_questions in
       questions <- py_getitem quiz_data "questions" ;;
       n <- py_len questions ;;
       questions <- py_extend questions (firstn (3 - n) additional_questions) ;;
       py_setitem quiz_data "questions" questions
     else ret quiz_data) ;;
  questions <- py_getitem quiz_data "questions" ;;
  items <- py_iter questions ;;
  items <- for_enumerate validate_question 0 items ;;
  quiz_data <- py_setitem quiz_data "questions" (store_back questions items) ;;
  ensure quiz_data "related_topics" not_truthy
                (PList [PStr "Knowledge"; PStr "Education"; PStr "Research"]).

Section Generate.
(** [json.loads]; [None] is [json.JSONDecodeError]. *)
Variable json_loads : string -> option pyval.
(** [self.api_key], the value of [os.getenv]. *)
Variable api_key : option string.
(** [self.model.generate_content(prompt).text], or the exception of the
    call. *)
Variable generate_content : string -> result string.

Definition has_key : bool :=
  match api_key with
  | Some k => str_nonempty k
  | None => false
  end.

(** The [try] block of [generate_quiz] (lines 60-93). *)
Definition generate_quiz_body (article_content : string) : result pyval :=
  if negb has_key then ret _create_enhanced_fallback_quiz
  else if negb (str_nonempty article_content)
          || (String.length (py_strip article_content) <? 100)
  then raise ValueError
  else
    let limited_content := str_take 6000 article_content in
    prompt <- py_format prompt_template [("article_text", limited_content)] ;;
    quiz_text <- generate_content prompt ;;
    let quiz_text := _clean_response quiz_text in
    quiz_data <-
      match json_loads quiz_text with
      | Some quiz_data =>
          (* the log line: len(quiz_data.get('questions', [])) *)
          questions <- py_get_method quiz_data "questions" (PList []) ;;
          _ <- py_len questions ;;
          ret quiz_data
      | None => ret _create_enhanced_fallback_quiz
      end ;;
    _validate_quiz_data quiz_data.

(** [generate_quiz] (lines 57-97) *)
Definition generate_quiz (article_content : string) : result pyval :=
  try_except (generate_quiz_body article_content)
             (fun _ => ret _create_enhanced_fallback_quiz).
End Generate.

End QuizGenerator.

(** ** [AdvancedQuizGenerator] (app/main.py 143-362) *)

(** [r'\{[^{}]*\{[^{}]*\}[^{}]*\}'] *)
Definition not_brace : ascii -> bool :=
  fun c => negb (Ascii.eqb c "{"%char || Ascii.eqb c "}"%char).

Definition nested_re : regex :=
  Cat (Chr (is_char "{"%char))
   (Cat (Star (Chr not_brace))
    (Cat (Chr (is_char "{"%char))
     (Cat (Star (Chr not_brace))
      (Cat (Chr (is_char "}"%char))
       (Cat (Star (Chr not_brace)) (Chr (is_char "}"%char))))))).

Module AdvancedQuizGenerator.

(** [_create_smart_prompt] (lines 187-222), an f-string; ['] is written for
    the double quote. *)
Definition _create_smart_prompt (content title : string) : string :=
  (sq "You are an expert quiz creator and educator. Create 5-7 high-quality multiple-choice questions based EXCLUSIVELY on this Wikipedia article.

ARTICLE TITLE: " ++ title ++ sq "
ARTICLE CONTENT:
" ++ str_take 4000 content ++ sq "

CRITICAL INSTRUCTIONS:
1. Generate 5-7 UNIQUE questions that test REAL understanding of the article
2. Each question MUST be directly based on specific facts from the article
3. Questions should cover different aspects: definitions, facts, relationships, applications
4. Make options plausible but only ONE correct based on the article
5. Include varied difficulty levels

REQUIRED FORMAT (JSON only):
{
  'questions': [
    {
      'question': 'Specific question based on article facts?',
      'options': {
        'A': 'Correct answer from article',
        'B': 'Plausible but incorrect alternative',
        'C': 'Another incorrect alternative', 
        'D': 'Final incorrect alternative'
      },
      'correct_answer': 'A',
      'explanation': 'Specific reference to article content explaining why this is correct',
      'difficulty': 'easy/medium/hard'
    }
  ],
  'related_topics': ['SpecificTopic1', 'SpecificTopic2', 'SpecificTopic3']
}

IMPORTANT: Questions MUST be specific to this article, not generic. Focus on unique facts about " ++ title ++ sq ".
").

(** The questions of [_generate_smart_fallback_quiz] (lines 294-362). *)
Definition base_questions (article_title : string) : list pyval :=
  [
    mk_question
      ("What is the primary focus or subject of the Wikipedia article about " ++ article_title ++ "?")
      ("The main topic: " ++ article_title ++ " and its significance")
      "A completely unrelated scientific concept"
      "Historical events from a different time period"
      "Fictional stories and characters"
      "A"
      ("The article specifically focuses on " ++ article_title ++ " and provides detailed information about it.")
      "easy";
    mk_question
      ("What type of information would you expect to find in this Wikipedia article about " ++ article_title ++ "?")
      "Comprehensive facts, history, and context about the subject"
      "Personal opinions and anecdotes"
      "Advertising and promotional content"
      "Fictional narratives and stories"
      "A"
      "Wikipedia articles provide factual, well-researched information with proper citations."
      "easy";
    mk_question
      ("How does Wikipedia ensure the accuracy of information about topics like " ++ article_title ++ "?")
      "Through community editing, citations, and reliable sources"
      "Government verification and approval"
      "Paid expert reviews only"
      "Automatic computer generation"
      "A"
      "Wikipedia uses collaborative editing and requires reliable sources to maintain accuracy."
      "medium";
    mk_question
      ("Why might " ++ article_title ++ " be considered an important topic for a Wikipedia article?")
      "It represents significant knowledge worth documenting and sharing"
      "It is trending on social media"
      "It was randomly selected"
      "It supports commercial interests"
      "A"
      "Wikipedia documents notable topics that have verifiable significance and reliable sources."
      "medium";
    mk_question
      ("What makes Wikipedia's coverage of " ++ article_title ++ " valuable for learners and researchers?")
      "It provides a comprehensive starting point with references for deeper exploration"
      "It contains all possible information on the topic"
      "It replaces the need for other information sources"
      "It offers personalized learning paths"
      "A"
      "Wikipedia offers overviews with citations that help guide further research and learning."
      "hard"
  ].

Definition _generate_smart_fallback_quiz (article_title : string) : pyval :=
  mk_quiz (base_questions article_title) [article_title; "Online Encyclopedia"; "Knowledge Base"].

(** [_clean_ai_response] (lines 224-236) *)
Definition _clean_ai_response (text : string) : string :=
  let text := re_sub_empty fence_json_re text in
  let text := re_sub_empty fence_re text in
  let text := py_strip text in
  let json_match :=
    match re_search nested_re text with
    | Some m => Some m
    | None => re_search braces_re text
    end in
  match json_match with
  | Some m => group text m
  | None => text
  end.

(** The body of the loop of [_validate_quiz_structure] (lines 266-286). *)
Definition validate_question (article_title : string) (i : nat) (question : pyval)
  : result pyval :=
  question <- ensure question "question" blank
                (PStr ("What is a key fact about " ++ article_title ++ "?")) ;;
  question <- ensure question "options" len_not_4
                (PDict [("A", PStr ("A key fact about " ++ article_title));
                        ("B", PStr "An incorrect alternative");
                        ("C", PStr "Another incorrect option");
                        ("D", PStr "Final incorrect option")]) ;;
  question <- ensure question "correct_answer" (not_among letters)
                (PStr "A") ;;
  question <- ensure question "explanation" blank
                (PStr ("This is correct based on the Wikipedia article about "
                       ++ article_title ++ ".")) ;;
  ensure question "difficulty" (not_among difficulties)
                (PStr (if i mod 2 =? 0 then "medium" else "easy")).

(** [_validate_quiz_structure] (lines 259-292) *)
Definition _validate_quiz_structure (quiz_data : pyval) (article_title : string)
  : result pyval :=
  quiz_data <- ensure quiz_data "questions" never (PList []) ;;
  questions <- py_getitem quiz_data "questions" ;;
  items <- py_iter questions ;;
  items <- for_enumerate (validate_question article_title) 0 items ;;
  quiz_data <- py_setitem quiz_data "questions" (store_back questions items) ;;
  ensure quiz_data "related_topics" not_truthy
                (PList [PStr article_title; PStr "Knowledge"; PStr "Research"]).

Section Generate.
(** [json.loads]; [None] is [json.JSONDecodeError]. *)
Variable json_loads : string -> option pyval.
(** [self.api_key], the value of [os.getenv]; [self.model] is a model
    object exactly when the key is a non-empty string. *)
Variable api_key : option string.
(** [self.model.generate_content(prompt).text], or the exception of the
    call. *)
Variable generate_content : string -> result string.

Definition has_key : bool :=
  match api_key with
  | Some k => str_nonempty k
  | None => false
  end.

(** The [try] block of [_parse_quiz_data] (lines 241-253). *)
Definition parse_quiz_data_body (text article_title : string) : result pyval :=
  quiz_data <- match json_loads text with
               | Some v => ret v
               | None => raise JSONDecodeError
               end ;;
  b <- absent_or quiz_data "questions" not_truthy ;;
  _ <- (if b then raise ValueError else ret tt) ;;
  questions <- py_getitem quiz_data "questions" ;;
  n <- py_len questions ;;
  quiz_data <-
    (if n <? 3 then
       let fallback := base_questions article_title in
       questions <- py_getitem quiz_data "questions" ;;
       n <- py_len questions ;;
       questions <- py_extend questions (firstn (5 - n) fallback) ;;
       py_setitem quiz_data "questions" questions
     else ret quiz_data) ;;
  _validate_quiz_structure quiz_data article_title.

(** [_parse_quiz_data] (lines 238-257) *)
Definition _parse_quiz_data (text article_title : string) : result pyval :=
  try_except (parse_quiz_data_body text article_title)
             (fun _ => ret (_generate_smart_fallback_quiz article_title)).

(** The [try] block of [generate_quiz] (lines 156-181). *)
Definition generate_quiz_body (article_content article_title : string)
  : result pyval :=
  if negb has_key then ret (_generate_smart_fallback_quiz article_title)
  else if negb (str_nonempty article_content)
          || (String.length (py_strip article_content) <? 100)
  then raise ValueError
  else
    let limited_content := str_take 5000 article_content in
    let prompt := _create_smart_prompt limited_content article_title in
    quiz_text <- generate_content prompt ;;
    let cleaned_text := _clean_ai_response quiz_text in
    quiz_data <- _parse_quiz_data cleaned_text article_title ;;
    (* the log line: len(quiz_data['questions']) *)
    questions <- py_getitem quiz_data "questions" ;;
    _ <- py_len questions ;;
    ret quiz_data.

(** [generate_quiz] (lines 153-185) *)
Definition generate_quiz (article_content article_title : string) : result pyval :=
  try_except (generate_quiz_body article_content article_title)
             (fun _ => ret (_generate_smart_fallback_quiz article_title)).
End Generate.

End AdvancedQuizGenerator.

(** ** A JSON decoder for the examples *)

(** The theorems below hold for every [json_loads]. The examples run the
    pipelines on concrete model responses and need a decoder: this one
    reads the JSON texts that have no fraction, no exponent and no [\u]
    escape, and returns on them what [json.loads] returns (for a repeated
    key the last value, at the place of the first). *)

Definition is_json_ws (c : ascii) : bool :=
  let n := code c in (n =? 32) || (n =? 9) || (n =? 10) || (n =? 13).

Fixpoint skip_ws (s : string) : string :=
  match s with
  | String c s' => if is_json_ws c then skip_ws s' else s
  | EmptyString => EmptyString
  end.

(** The characters of a string literal after its opening quote. *)
Fixpoint json_string (acc : string) (s : string) : option (string * string) :=
  match s with
  | EmptyString => None
  | String c s' =>
      if Ascii.eqb c dq then Some (acc, s')
      else if Ascii.eqb c "\"%char then
        match s' with
        | String e s'' =>
            let put (x : ascii) := json_string (acc ++ String x EmptyString) s'' in
            if Ascii.eqb e dq then put dq
            else if Ascii.eqb e "\"%char then put "\"%char
            else if Ascii.eqb e "/"%char then put "/"%char
            else if Ascii.eqb e "b"%char then put "008"%char
            else if Ascii.eqb e "f"%char then put "012"%char
            else if Ascii.eqb e "n"%char then put "010"%char
            else if Ascii.eqb e "r"%char then put "013"%char
            else if Ascii.eqb e "t"%char then put "009"%char
            else None
        | EmptyString => None
        end
      else if code c <? 32 then None
      else json_string (acc ++ String c EmptyString) s'
  end.

Fixpoint json_digits (acc : Z) (s : string) : Z * string :=
  match s with
  | String c s' =>
      if py_isdigit c
      then json_digits (10 * acc + Z.of_nat (code c - 48))%Z s'
      else (acc, s)
  | EmptyString => (acc, s)
  end.

(** An integer literal: no leading zero, and neither a fraction nor an
    exponent after it. *)
Definition json_int (s : string) : option (Z * string) :=
  match s with
  | String c s' =>
      if py_isdigit c then
        let '(n, rest) := json_digits 0%Z s in
        let leading_zero :=
          Ascii.eqb c "0"%char &&
          match s' with String c2 _ => py_isdigit c2 | EmptyString => false end in
        let more :=
          match rest with
          | String x _ =>
              Ascii.eqb x "."%char || Ascii.eqb x "e"%char || Ascii.eqb x "E"%char
          | EmptyString => false
          end in
        if leading_zero || more then None else Some (n, rest)
      else None
  | EmptyString => None
  end.

Fixpoint json_value (fuel : nat) (s : string) {struct fuel} : option (pyval * string) :=
  match fuel with
  | O => None
  | S fuel' =>
      match skip_ws s with
      | EmptyString => None
      | String c s' =>
          if Ascii.eqb c "{"%char then
            match skip_ws s' with
            | String c2 s'' =>
                if Ascii.eqb c2 "}"%char then Some (PDict [], s'')
                else json_members fuel' [] (skip_ws s')
            | EmptyString => None
            end
          else if Ascii.eqb c "["%char then
            match skip_ws s' with
            | String c2 s'' =>
                if Ascii.eqb c2 "]"%char then Some (PList [], s'')
                else json_elements fuel' [] (skip_ws s')
            | EmptyString => None
            end
          else if Ascii.eqb c dq then
            match json_string EmptyString s' with
            | Some (x, rest) => Some (PStr x, rest)
            | None => None
            end
          else if Ascii.eqb c "-"%char then
            match json_int s' with
            | Some (n, rest) => Some (PInt (- n)%Z, rest)
            | None => None
            end
          else if is_prefix "true" (String c s') then Some (PBool true, str_drop 4 (String c s'))
          else if is_prefix "false" (String c s') then Some (PBool false, str_drop 5 (String c s'))
          else if is_prefix "null" (String c s') then Some (PNone, str_drop 4 (String c s'))
          else
            match json_int (String c s') with
            | Some (n, rest) => Some (PInt n, rest)
            | None => None
            end
      end
  end

with json_elements (fuel : nat) (acc : list pyval) (s : string) {struct fuel}
  : option (pyval * string) :=
  match fuel with
  | O => None
  | S fuel' =>
      match json_value fuel' s with
      | Some (v, rest) =>
          match skip_ws rest with
          | String c rest' =>
              if Ascii.eqb c ","%char then json_elements fuel' (acc ++ [v])%list rest'
              else if Ascii.eqb c "]"%char then Some (PList (acc ++ [v])%list, rest')
              else None
          | EmptyString => None
          end
      | None => None
      end
  end

with json_members (fuel : nat) (acc : pydict) (s : string) {struct fuel}
  : option (pyval * string) :=
  match fuel with
  | O => None
  | S fuel' =>
      match skip_ws s with
      | String c s' =>
          if Ascii.eqb c dq then
            match json_string EmptyString s' with
            | Some (k, rest) =>
                match skip_ws rest with
                | String c2 rest' =>
                    if Ascii.eqb c2 ":"%char then
                      match json_value fuel' rest' with
                      | Some (v, rest2) =>
                          match skip_ws rest2 with
                          | String c3 rest3 =>
                              if Ascii.eqb c3 ","%char
                              then json_members fuel' (dict_set k v acc) rest3
                              else if Ascii.eqb c3 "}"%char
                              then Some (PDict (dict_set k v acc), rest3)
                              else None
                          | EmptyString => None
                          end
                      | None => None
                      end
                    else None
                | EmptyString => None
                end
            | None => None
            end
          else None
      | EmptyString => None
      end
  end.

Definition json_loads_subset (s : string) : option pyval :=
  match json_value (2 * String.length s + 2) s with
  | Some (v, rest) =>
      match skip_ws rest with
      | EmptyString => Some v
      | _ => None
      end
  | None => None
  end.

(** ** Specification-level definitions *)

(** *** The language of a regular expression *)

(** [matches r pos s pos' s']: [r] matches the characters of [s] before
    [s'], from position [pos] to position [pos']. An iteration of a star
    consumes something. *)
Inductive matches : regex -> nat -> string -> nat -> string -> Prop :=
| MEps : forall pos s, matches Eps pos s pos s
| MBol : forall s, matches Bol 0 s 0 s
| MEol : forall pos s, at_eol s = true -> matches Eol pos s pos s
| MChr : forall p c pos s, p c = true -> matches (Chr p) pos (String c s) (S pos) s
| MCat : forall r1 r2 pos s pos1 s1 pos2 s2,
    matches r1 pos s pos1 s1 -> matches r2 pos1 s1 pos2 s2 ->
    matches (Cat r1 r2) pos s pos2 s2
| MAltL : forall r1 r2 pos s pos' s',
    matches r1 pos s pos' s' -> matches (Alt r1 r2) pos s pos' s'
| MAltR : forall r1 r2 pos s pos' s',
    matches r2 pos s pos' s' -> matches (Alt r1 r2) pos s pos' s'
| MStar0 : forall r pos s, matches (Star r) pos s pos s
| MStarS : forall r pos s pos1 s1 pos2 s2,
    matches r pos s pos1 s1 -> String.length s1 < String.length s ->
    matches (Star r) pos1 s1 pos2 s2 ->
    matches (Star r) pos s pos2 s2.

Fixpoint str_forall (p : ascii -> bool) (s : string) : bool :=
  match s with
  | EmptyString => true
  | String c s' => p c && str_forall p s'
  end.

(** The URLs of the contract of [extract]:
    [https://<2 lowercase letters>.wikipedia.org/wiki/<segment>], the
    segment being non-empty and without a slash. *)
Definition wikipedia_url_shape (url : string) : Prop :=
  exists (a b : ascii) (segment : string),
    url = "https://" ++ String a (String b (".wikipedia.org/wiki/" ++ segment))
    /\ is_az a = true /\ is_az b = true
    /\ segment <> EmptyString
    /\ str_forall (not_char "/"%char) segment = true.

(** *** The extraction, as the specification words it *)

Definition trimmed_text (n : node) : string := py_strip (get_text n).

(** The paragraphs below the main content container. *)
Definition paragraphs_of (content : node) : list node :=
  find_all ["p"] (descendants content).

(** Summary, read to the letter: the trimmed texts of the first 3
    paragraphs, every one of them, joined with single spaces. *)
Definition summary_as_claimed (doc : soup) : string :=
  match main_content doc with
  | None => EmptyString
  | Some content =>
      str_take 1000
        (re_sub_empty citation_re
           (py_join " " (map trimmed_text (firstn 3 (paragraphs_of content)))))
  end.

(** A heading is left out when its text, in lower case, contains one of
    the words of [skip_sections]. *)
Definition skipped (heading_text : string) : bool :=
  existsb (fun skip => str_contains skip (py_lower heading_text)) skip_sections.

(** The level-2 and level-3 headings of the whole page, in document order. *)
Definition headings_of (doc : soup) : list node :=
  find_all ["h2"; "h3"] (soup_descendants doc).

Definition par (s : string) : node := Elem "p" [] [Text s].

(** A page whose first paragraph is empty, as the pages of Wikipedia that
    start with an empty [mw-empty-elt] paragraph. *)
Definition page_empty_first_paragraph : soup :=
  [Elem "div" [("id", "mw-content-text")]
     [Elem "p" [("class", "mw-empty-elt")] []; par "Alpha."; par "Beta."]].

Definition page_with_citations : soup :=
  [Elem "div" [("id", "mw-content-text")]
     [par "Python is great.[12] It is popular.[3]"]].

(** A page with a navigation box, a reference list and a table in the
    article body. *)
Definition page_with_navbox : soup :=
  [Elem "div" [("id", "mw-content-text")]
     [par "Body.";
      Elem "table" [] [par "Cell."];
      Elem "div" [("class", "navbox")] [par "Navigation."];
      Elem "div" [("class", "reflist")] [par "Reference."]]].

(** A page without the main content container. *)
Definition page_without_container : soup :=
  [Elem "body" []
     [Elem "h2" [] [Text "Navigation menu"]; par "Some text."]].

Definition python_url : string := "https://en.wikipedia.org/wiki/Python".

(** *** The quiz result, as the specification words it *)

Definition field (key : string) (P : pyval -> bool) (d : pydict) : bool :=
  match dict_get key d with
  | Some y => P y
  | None => false
  end.

Definition is_nonempty_str (v : pyval) : bool :=
  match v with
  | PStr s => str_nonempty s
  | _ => false
  end.

Definition is_str (v : pyval) : bool :=
  match v with
  | PStr _ => true
  | _ => false
  end.

(** Exactly the four keys A, B, C and D. *)
Definition keyed_A_to_D (v : pyval) : bool :=
  match v with
  | PDict o =>
      (List.length (dict_keys o) =? 4)
      && forallb (fun k => match dict_get k o with Some _ => true | None => false end)
                 letters
  | _ => false
  end.

(** A mapping of exactly the keys A, B, C and D to non-empty strings. *)
Definition valid_options (v : pyval) : bool :=
  keyed_A_to_D v
  && match v with
     | PDict o => forallb (fun k => field k is_nonempty_str o) letters
     | _ => false
     end.

(** [Question] of the data model. *)
Definition valid_question (q : pyval) : bool :=
  match q with
  | PDict d =>
      field "question" is_nonempty_str d
      && field "options" valid_options d
      && field "correct_answer" (fun v => py_among v letters) d
      && field "explanation" is_nonempty_str d
      && field "difficulty" (fun v => py_among v difficulties) d
  | _ => false
  end.

Definition list_of (min : nat) (P : pyval -> bool) (v : pyval) : bool :=
  match v with
  | PList l => (min <=? List.length l) && forallb P l
  | _ => false
  end.

(** [QuizResult] of the data model: at least 3 questions, all of them
    valid, and at least one related topic. *)
Definition valid_quiz (v : pyval) : bool :=
  match v with
  | PDict d =>
      field "questions" (list_of 3 valid_question) d
      && field "related_topics" (list_of 1 is_str) d
  | _ => false
  end.

(** The invariants that the claim on [generate] lists: options keyed A to
    D, an answer letter, a difficulty; at least 3 questions and at least
    one related topic. *)
Definition claimed_question (q : pyval) : bool :=
  match q with
  | PDict d =>
      field "options" keyed_A_to_D d
      && field "correct_answer" (fun v => py_among v letters) d
      && field "difficulty" (fun v => py_among v difficulties) d
  | _ => false
  end.

Definition has_an_element (v : pyval) : bool :=
  match py_len v with
  | inr n => 1 <=? n
  | inl _ => false
  end.

Definition claimed_invariants (v : pyval) : bool :=
  match v with
  | PDict d =>
      field "questions" (list_of 3 claimed_question) d
      && field "related_topics" has_an_element d
  | _ => false
  end.

(** What the repair guarantees: [len(options) == 4], an answer letter, a
    difficulty; at least 3 questions; [related_topics] that is not falsy. *)
Definition has_len_4 (v : pyval) : bool :=
  match py_len v with
  | inr n => n =? 4
  | inl _ => false
  end.

Definition repaired_question (q : pyval) : bool :=
  match q with
  | PDict d =>
      field "options" has_len_4 d
      && field "correct_answer" (fun v => py_among v letters) d
      && field "difficulty" (fun v => py_among v difficulties) d
  | _ => false
  end.

Definition repaired_quiz (v : pyval) : bool :=
  match v with
  | PDict d =>
      field "questions" (list_of 3 repaired_question) d
      && field "related_topics" py_truthy d
  | _ => false
  end.

(** A text with a character that is not white space. *)
Definition is_nonblank_str (v : pyval) : bool :=
  match v with
  | PStr s => str_nonempty (py_strip s)
  | _ => false
  end.

Definition nonblank_question (q : pyval) : bool :=
  match q with
  | PDict d =>
      field "question" is_nonblank_str d && field "explanation" is_nonblank_str d
  | _ => false
  end.

Definition nonblank_quiz (v : pyval) : bool :=
  match v with
  | PDict d => field "questions" (list_of 0 nonblank_question) d
  | _ => false
  end.

(** *** Inputs of the examples *)

(** An article text of 120 characters. *)
Definition long_content : string :=
  "Python is a high-level, general-purpose programming language. Its design philosophy emphasizes code readability. "
  ++ "Guido.".

(** A model response with one question whose options are a JSON array,
    and with a number for the related topics. *)
Definition response_with_list_options : string := sq
  "{'questions': [{'question': 'Who created Python?', 'options': ['Guido', 'Linus', 'Dennis', 'Bjarne'], 'correct_answer': 'A', 'explanation': 'Guido van Rossum created it.', 'difficulty': 'easy'}], 'related_topics': 3}".

Definition model_question_1 : string := sq
  "{'question': 'Who created Python?', 'options': {'A': 'Guido', 'B': 'Linus', 'C': 'Dennis', 'D': 'Bjarne'}, 'correct_answer': 'A', 'explanation': 'Guido van Rossum created it.', 'difficulty': 'easy'}".

Definition model_question_2 : string := sq
  "{'question': 'When was Python released?', 'options': {'A': '1989', 'B': '1991', 'C': '2000', 'D': '2008'}, 'correct_answer': 'B', 'explanation': 'The first release was in 1991.', 'difficulty': 'medium'}".

(** Valid JSON with exactly 2 questions. *)
Definition two_question_json : string :=
  sq "{'questions': [" ++ model_question_1 ++ ", " ++ model_question_2
  ++ sq "], 'related_topics': ['Programming']}".

(** The same, as the model wraps it: a fence [```json], the JSON text, a
    closing fence. *)
Definition two_question_response : string :=
  "```json" ++ nl ++ two_question_json ++ nl ++ "```".

Definition parsed_question_1 : pyval :=
  mk_question "Who created Python?" "Guido" "Linus" "Dennis" "Bjarne" "A"
    "Guido van Rossum created it." "easy".

Definition parsed_question_2 : pyval :=
  mk_question "When was Python released?" "1989" "1991" "2000" "2008" "B"
    "The first release was in 1991." "medium".

(** A quiz that satisfies the data model and whose first question text is
    a single space. *)
Definition quiz_with_blank_question : pyval :=
  mk_quiz
    [mk_question " " "Guido" "Linus" "Dennis" "Bjarne" "A"
       "Guido van Rossum created it." "easy";
     parsed_question_1; parsed_question_2]
    ["Programming"].

(** ** Further specification-level definitions *)

Definition starts_with_space (s : string) : bool :=
  match s with
  | String c _ => py_isspace c
  | EmptyString => false
  end.

Fixpoint ends_with_space (s : string) : bool :=
  match s with
  | EmptyString => false
  | String c EmptyString => py_isspace c
  | String _ s' => ends_with_space s'
  end.

(** A text with no white space in front and none at the end. *)
Definition is_trimmed (s : string) : bool :=
  negb (starts_with_space s) && negb (ends_with_space s).

(** Induction on a document tree: a property of a tag follows from the
    property of its children. *)
Fixpoint node_tree_ind (P : node -> Prop)
         (HT : forall s, P (Text s))
         (HE : forall t a cs, Forall P cs -> P (Elem t a cs))
         (n : node) {struct n} : P n :=
  match n with
  | Text s => HT s
  | Elem t a cs =>
      HE t a cs
        ((fix go (l : list node) : Forall P l :=
            match l with
            | [] => Forall_nil P
            | c :: l' => Forall_cons c (node_tree_ind P HT HE c) (go l')
            end) cs)
  end.

(** The children of a tag after [decompose_all]. *)
Fixpoint decompose_children (names : list string) (l : list node) : list node :=
  match l with
  | [] => []
  | c :: l' =>
      if is_named names c then decompose_children names l'
      else decompose_all names c :: decompose_children names l'
  end.

(** No tag of the list is one of the [names]. *)
Definition none_named (names : list string) (l : list node) : Prop :=
  forall x, In x l -> is_named names x = false.

(** A regular expression without [^]. *)
Fixpoint no_bol (r : regex) : bool :=
  match r with
  | Bol => false
  | Cat r1 r2 | Alt r1 r2 => no_bol r1 && no_bol r2
  | Star r1 => no_bol r1
  | _ => true
  end.

(** The first character of [s] is in the class [p]. *)
Definition head_is (p : ascii -> bool) (s : string) : bool :=
  match s with
  | String c _ => p c
  | EmptyString => false
  end.

Definition backtick : ascii := "096"%char.

(** The text of an object that has one object inside: [{b{c}d}]. *)
Definition inner_object (b c d : string) : string :=
  String "{"%char (b ++ String "{"%char (c ++ String "}"%char (d ++ "}"))).

Definition question_fields : list string :=
  ["question"; "options"; "correct_answer"; "explanation"; "difficulty"].

(** A question on which the validation of quiz_generator.py has nothing
    to do. *)
Definition settled_question (q : pyval) : bool :=
  match q with
  | PDict d =>
      field "question" py_truthy d
      && field "options" has_len_4 d
      && field "correct_answer" (fun v => py_among v letters) d
      && field "explanation" py_truthy d
      && field "difficulty" (fun v => py_among v difficulties) d
  | _ => false
  end.

(** A question on which the validation of main.py has nothing to do. *)
Definition advanced_settled_question (q : pyval) : bool :=
  match q with
  | PDict d =>
      field "question" is_nonblank_str d
      && field "options" has_len_4 d
      && field "correct_answer" (fun v => py_among v letters) d
      && field "explanation" is_nonblank_str d
      && field "difficulty" (fun v => py_among v difficulties) d
  | _ => false
  end.

(** A model question with a key of its own, an answer, and nothing else. *)
Definition partial_question : pydict :=
  [("question", PStr "Who created Python?");
   ("hint", PStr "A Dutch programmer");
   ("correct_answer", PStr "C")].

Definition partial_question_repaired : pyval :=
  Eval vm_compute in
    match AdvancedQuizGenerator.validate_question "Python" 1 (PDict partial_question) with
    | inr q => q
    | inl _ => PNone
    end.

Definition partial_quiz_repaired : pyval :=
  Eval vm_compute in
    match AdvancedQuizGenerator._validate_quiz_structure
            (PDict [("questions", PList [parsed_question_1; PDict partial_question])])
            "Python" with
    | inr v => v
    | inl _ => PNone
    end.

(** * Proofs *)

(** ** Strings *)

Lemma str_app_nil_r : forall u, u ++ EmptyString = u.
Proof.
  induction u as [|c u IH]; simpl; [reflexivity | rewrite IH; reflexivity].
Qed.

Lemma str_take_length : forall n s, String.length (str_take n s) <= n.
Proof.
  induction n as [|n IH]; intros s; simpl; [lia|].
  destruct s as [|c s]; simpl; [lia|]. specialize (IH s). lia.
Qed.


(** ** The matcher and the language of a regular expression *)

Section MatcherCorrect.
Context {A : Type}.

Lemma star_loop_sound (r : regex)
  (IH : forall pos s (k : nat -> string -> option A) x,
      rmatch r pos s k = Some x ->
      exists pos' s', matches r pos s pos' s' /\ k pos' s' = Some x) :
  forall fuel pos s (k : nat -> string -> option A) x,
    star_loop (rmatch r) k fuel pos s = Some x ->
    exists pos' s', matches (Star r) pos s pos' s' /\ k pos' s' = Some x.
Proof.
  induction fuel as [|fuel IHf]; intros pos s k x H; simpl in H.
  - exists pos, s. split; [constructor | exact H].
  - destruct (rmatch r pos s _) as [y|] eqn:E.
    + inversion H; subst y; clear H.
      apply IH in E. destruct E as (pos1 & s1 & M1 & K1).
      destruct (String.length s1 <? String.length s) eqn:L; [|discriminate].
      apply Nat.ltb_lt in L.
      apply IHf in K1. destruct K1 as (pos2 & s2 & M2 & K2).
      exists pos2, s2. split; [|exact K2].
      eapply MStarS; eauto.
    + exists pos, s. split; [constructor | exact H].
Qed.

Lemma rmatch_sound : forall r pos s (k : nat -> string -> option A) x,
  rmatch r pos s k = Some x ->
  exists pos' s', matches r pos s pos' s' /\ k pos' s' = Some x.
Proof.
  induction r as [| | |p|r1 IH1 r2 IH2|r1 IH1 r2 IH2|r IH];
    intros pos s k x H; simpl in H.
  - exists pos, s. split; [constructor | exact H].
  - destruct (pos =? 0) eqn:E; [|discriminate].
    apply Nat.eqb_eq in E; subst pos.
    exists 0, s. split; [constructor | exact H].
  - destruct (at_eol s) eqn:E; [|discriminate].
    exists pos, s. split; [constructor; exact E | exact H].
  - destruct s as [|c s]; [discriminate|].
    destruct (p c) eqn:E; [|discriminate].
    exists (S pos), s. split; [constructor; exact E | exact H].
  - apply IH1 in H. destruct H as (pos1 & s1 & M1 & H).
    apply IH2 in H. destruct H as (pos2 & s2 & M2 & H).
    exists pos2, s2. split; [econstructor; eauto | exact H].
  - destruct (rmatch r1 pos s k) as [y|] eqn:E.
    + inversion H; subst y. apply IH1 in E.
      destruct E as (pos' & s' & M & K).
      exists pos', s'. split; [apply MAltL; exact M | exact K].
    + apply IH2 in H. destruct H as (pos' & s' & M & K).
      exists pos', s'. split; [apply MAltR; exact M | exact K].
  - eapply star_loop_sound; eauto.
Qed.

Definition succeeds (o : option A) : Prop := exists x, o = Some x.

Lemma star_loop_complete (r : regex)
  (IH : forall pos s pos' s', matches r pos s pos' s' ->
      forall k : nat -> string -> option A,
        succeeds (k pos' s') -> succeeds (rmatch r pos s k)) :
  forall r0 pos s pos' s', matches r0 pos s pos' s' -> r0 = Star r ->
    forall (k : nat -> string -> option A) fuel,
      String.length s <= fuel ->
      succeeds (k pos' s') -> succeeds (star_loop (rmatch r) k fuel pos s).
Proof.
  induction 1; intros Heq k fuel Hf Hk; try discriminate.
  - destruct fuel; simpl; [exact Hk|].
    destruct (rmatch r pos s _) as [y|]; [exists y; reflexivity | exact Hk].
  - inversion Heq; subst r0. clear IHmatches1.
    destruct fuel as [|fuel]; [lia|]. simpl.
    assert (S1 : succeeds (rmatch r pos s
              (fun pos' s' => if String.length s' <? String.length s
                              then star_loop (rmatch r) k fuel pos' s'
                              else None))).
    { eapply IH; [eassumption|].
      apply Nat.ltb_lt in H0 as L. rewrite L.
      apply IHmatches2; auto. lia. }
    destruct S1 as [y Hy]. rewrite Hy. exists y; reflexivity.
Qed.

Lemma rmatch_complete : forall r pos s pos' s',
  matches r pos s pos' s' ->
  forall k : nat -> string -> option A,
    succeeds (k pos' s') -> succeeds (rmatch r pos s k).
Proof.
  induction r as [| | |p|r1 IH1 r2 IH2|r1 IH1 r2 IH2|r IH];
    intros pos s pos' s' M k Hk.
  - inversion M; subst. exact Hk.
  - inversion M; subst. exact Hk.
  - inversion M; subst. simpl.
    match goal with E : at_eol _ = true |- _ => rewrite E end. exact Hk.
  - inversion M; subst. simpl.
    match goal with E : p _ = true |- _ => rewrite E end. exact Hk.
  - inversion M; subst. simpl.
    eapply IH1; [eassumption|]. eapply IH2; eassumption.
  - simpl. inversion M; subst.
    + match goal with M1 : matches r1 _ _ _ _ |- _ =>
        destruct (IH1 _ _ _ _ M1 k Hk) as [y Hy] end.
      rewrite Hy. exists y; reflexivity.
    + destruct (rmatch r1 pos s k) as [y|]; [exists y; reflexivity|].
      eapply IH2; eassumption.
  - simpl. eapply star_loop_complete; eauto.
Qed.
End MatcherCorrect.

(** [re.match] finds a match exactly when the language has one. *)
Lemma re_match_iff : forall r s,
  (exists e, re_match r s = Some e) <-> (exists e s', matches r 0 s e s').
Proof.
  intros r s. unfold re_match. split.
  - intros [e H]. apply rmatch_sound in H.
    destruct H as (pos' & s' & M & _). eauto.
  - intros (e & s' & M).
    eapply (rmatch_complete r 0 s e s' M (fun e _ => Some e)).
    exists e; reflexivity.
Qed.

(** ** The URL pattern *)

Lemma matches_lit_inv : forall w pos s pos' s',
  matches (lit w) pos s pos' s' -> s = w ++ s' /\ pos' = pos + String.length w.
Proof.
  induction w as [|c w IH]; intros pos s pos' s' M; simpl in *.
  - inversion M; subst. split; [reflexivity | lia].
  - inversion M; subst.
    match goal with M1 : matches (Chr _) _ _ _ _ |- _ => inversion M1; subst end.
    match goal with E : Ascii.eqb _ _ = true |- _ => apply Ascii.eqb_eq in E; subst end.
    match goal with M2 : matches (lit w) _ _ _ _ |- _ =>
      apply IH in M2; destruct M2 as [-> ->] end.
    split; [reflexivity | lia].
Qed.

Lemma matches_lit : forall w pos s',
  matches (lit w) pos (w ++ s') (pos + String.length w) s'.
Proof.
  induction w as [|c w IH]; intros pos s'; simpl.
  - rewrite Nat.add_0_r. constructor.
  - econstructor.
    + constructor. apply Ascii.eqb_refl.
    + replace (pos + S (String.length w)) with (S pos + String.length w) by lia.
      apply IH.
Qed.

Lemma str_forall_app : forall p u v,
  str_forall p (u ++ v) = str_forall p u && str_forall p v.
Proof.
  induction u as [|c u IH]; intros v; simpl; [reflexivity|].
  rewrite IH. apply andb_assoc.
Qed.

Lemma matches_star_chr_inv : forall r pos s pos' s',
  matches r pos s pos' s' -> forall p, r = Star (Chr p) ->
  exists u, s = u ++ s' /\ str_forall p u = true.
Proof.
  induction 1; intros q Heq; try discriminate.
  - exists EmptyString. split; reflexivity.
  - inversion Heq; subst r.
    match goal with M1 : matches (Chr _) _ _ _ _ |- _ => inversion M1; subst end.
    destruct (IHmatches2 q eq_refl) as (u & -> & Hu).
    exists (String c u). simpl. split; [reflexivity|].
    match goal with E : q c = true |- _ => rewrite E end. exact Hu.
Qed.

Lemma matches_star_chr : forall p u pos s',
  str_forall p u = true ->
  matches (Star (Chr p)) pos (u ++ s') (pos + String.length u) s'.
Proof.
  induction u as [|c u IH]; intros pos s' H; simpl in *.
  - rewrite Nat.add_0_r. constructor.
  - apply andb_prop in H. destruct H as [Hc Hu].
    eapply MStarS.
    + constructor. exact Hc.
    + simpl. lia.
    + replace (pos + S (String.length u)) with (S pos + String.length u) by lia.
      apply IH. exact Hu.
Qed.

Lemma at_eol_no_slash : forall s,
  at_eol s = true -> str_forall (not_char "/"%char) s = true.
Proof.
  intros [|c [|c' s]] H; simpl in *; try reflexivity; try discriminate.
  apply Ascii.eqb_eq in H; subst c. reflexivity.
Qed.

Lemma wikipedia_pattern_language : forall url,
  (exists e s', matches wikipedia_pattern 0 url e s') <-> wikipedia_url_shape url.
Proof.
  intros url. unfold wikipedia_pattern, wikipedia_url_shape, Plus. split.
  - intros (e & s' & M).
    inversion M as [| | | |? ? ? ? ? ? ? ? Mb M1| | | |]; subst; clear M.
    inversion Mb; subst; clear Mb.
    inversion M1 as [| | | |? ? ? ? ? ? ? ? Ml M2| | | |]; subst; clear M1.
    apply (matches_lit_inv "https://") in Ml. destruct Ml as [-> ->].
    inversion M2 as [| | | |? ? ? ? ? ? ? ? Ma M3| | | |]; subst; clear M2.
    inversion Ma; subst; clear Ma.
    inversion M3 as [| | | |? ? ? ? ? ? ? ? Mb M4| | | |]; subst; clear M3.
    inversion Mb; subst; clear Mb.
    inversion M4 as [| | | |? ? ? ? ? ? ? ? Ml M5| | | |]; subst; clear M4.
    apply (matches_lit_inv ".wikipedia.org/wiki/") in Ml. destruct Ml as [-> ->].
    inversion M5 as [| | | |? ? ? ? ? ? ? ? Mp Me| | | |]; subst; clear M5.
    inversion Mp as [| | | |? ? ? ? ? ? ? ? Mc Ms| | | |]; subst; clear Mp.
    inversion Mc; subst; clear Mc.
    destruct (matches_star_chr_inv _ _ _ _ _ Ms _ eq_refl) as (u & -> & Hu).
    inversion Me; subst; clear Me.
    do 3 eexists. split; [reflexivity|].
    repeat split; try assumption; try discriminate.
    simpl.
    match goal with E : not_char _ _ = true |- _ => rewrite E end.
    rewrite str_forall_app, Hu. simpl.
    apply at_eol_no_slash. assumption.
  - intros (a & b & seg & -> & Ha & Hb & Hne & Hs).
    destruct seg as [|c seg]; [congruence|].
    simpl in Hs. apply andb_prop in Hs. destruct Hs as [Hc Hs].
    exists (0 + 8 + 1 + 1 + 20 + 1 + String.length seg), EmptyString.
    econstructor; [constructor|].
    econstructor; [apply (matches_lit "https://" 0)|].
    econstructor; [constructor; exact Ha|].
    econstructor; [constructor; exact Hb|].
    econstructor; [apply (matches_lit ".wikipedia.org/wiki/")|].
    econstructor; [|constructor; reflexivity].
    econstructor; [constructor; exact Hc|].
    rewrite <- (str_app_nil_r seg) at 1.
    apply (matches_star_chr (not_char "/"%char) seg _ EmptyString Hs).
Qed.

Lemma is_valid_wikipedia_url_iff : forall url,
  _is_valid_wikipedia_url url = true <-> wikipedia_url_shape url.
Proof.
  intros url. rewrite <- wikipedia_pattern_language, <- re_match_iff.
  unfold _is_valid_wikipedia_url.
  destruct (re_match wikipedia_pattern url) as [e|]; split.
  - intros _. exists e; reflexivity.
  - reflexivity.
  - discriminate.
  - intros [e H]; discriminate.
Qed.

(** C3. For every URL, [scrape_article] raises the invalid-URL error
    exactly when the URL is not of the form
    [https://<2 lowercase letters>.wikipedia.org/wiki/<segment>] with a
    non-empty segment without a slash, nothing before and nothing after;
    and the check made by the code is the match of the regular expression
    [^https://[a-z]{2}\.wikipedia\.org/wiki/[^/]+$] in its language. *)
Theorem invalid_url_iff_not_wikipedia_shape :
  forall (session_get : string -> option soup) (url : string),
    (scrape_article session_get url = inl InvalidURL <-> ~ wikipedia_url_shape url)
    /\ (_is_valid_wikipedia_url url = true <->
        exists e s', matches wikipedia_pattern 0 url e s').
Proof.
  intros session_get url. split.
  - unfold scrape_article.
    destruct (_is_valid_wikipedia_url url) eqn:V; simpl.
    + apply is_valid_wikipedia_url_iff in V. split.
      * destruct (session_get url); discriminate.
      * intros N. contradiction.
    + split; [|reflexivity].
      intros _ S. apply is_valid_wikipedia_url_iff in S. congruence.
  - rewrite wikipedia_pattern_language. apply is_valid_wikipedia_url_iff.
Qed.

(** ** The scraper *)

Lemma map_filter_comm {A B : Type} (f : A -> B) (g : B -> bool) (l : list A) :
  map f (filter (fun x => g (f x)) l) = filter g (map f l).
Proof.
  induction l as [|a l IH]; simpl; [reflexivity|].
  destruct (g (f a)); simpl; rewrite IH; reflexivity.
Qed.

Lemma joined_text_eq : forall ps,
  joined_text ps = py_join " " (filter str_nonempty (map trimmed_text ps)).
Proof.
  intros ps. unfold joined_text, trimmed_text.
  rewrite (map_filter_comm (fun p => py_strip (get_text p)) str_nonempty).
  reflexivity.
Qed.

(** C5 (amended). Inside the main content container, the summary is made of
    the first 3 paragraph elements: their trimmed texts, those that are
    empty left out, joined with single spaces, the citation markers
    [\[\d+\]] removed by one [re.sub], cut at 1000 characters. It has at
    most 1000 characters, and the paragraph
    "Python is great.[12] It is popular.[3]" gives
    "Python is great. It is popular.". *)
Theorem summary_of_first_three_paragraphs :
  (forall (doc : soup) (content : node),
      main_content doc = Some content ->
      _extract_summary doc =
      str_take 1000
        (re_sub_empty citation_re
           (py_join " "
              (filter str_nonempty
                 (map trimmed_text (firstn 3 (paragraphs_of content)))))))
  /\ (forall doc : soup, String.length (_extract_summary doc) <= 1000)
  /\ _extract_summary page_with_citations = "Python is great. It is popular.".
Proof.
  split; [|split].
  - intros doc content H. unfold _extract_summary. rewrite H.
    rewrite joined_text_eq. reflexivity.
  - intros doc. unfold _extract_summary.
    destruct (main_content doc); [apply str_take_length | simpl; lia].
  - vm_compute. reflexivity.
Qed.

Lemma summary_of_first_three_paragraphs_witness :
  _extract_summary page_empty_first_paragraph = "Alpha. Beta.".
Proof.
  rewrite (proj1 summary_of_first_three_paragraphs page_empty_first_paragraph
             (Elem "div" [("id", "mw-content-text")]
                [Elem "p" [("class", "mw-empty-elt")] []; par "Alpha."; par "Beta."])
             eq_refl).
  vm_compute. reflexivity.
Defined.

(** C5, counterexample. On a page whose first paragraph is empty the code
    returns "Alpha. Beta.", and the join of the trimmed texts of the first
    3 paragraphs is " Alpha. Beta.", with a space in front. *)
Lemma summary_skips_empty_paragraphs :
  _extract_summary page_empty_first_paragraph = "Alpha. Beta."
  /\ summary_as_claimed page_empty_first_paragraph = " Alpha. Beta."
  /\ _extract_summary page_empty_first_paragraph
     <> summary_as_claimed page_empty_first_paragraph.
Proof.
  split; [vm_compute; reflexivity|].
  split; [vm_compute; reflexivity|].
  vm_compute. discriminate.
Qed.

(** C4, at the failing input. The table is taken out, but on a page whose
    navigation box and reference list are [div] elements of class [navbox]
    and [reflist] their paragraphs stay in [full_content]: the names
    ['div.navbox'] and ['div.reflist'] given to [find_all] are tag names,
    and no [div] has such a name. *)
Theorem full_content_keeps_navbox :
  _extract_full_content page_with_navbox = "Body. Navigation. Reference."
  /\ find_all ["table"; "div.navbox"; "div.reflist"]
       [Elem "div" [("class", "navbox")] [par "Navigation."];
        Elem "table" [] [par "Cell."]]
     = [Elem "table" [] [par "Cell."]].
Proof.
  split; vm_compute; reflexivity.
Qed.

Lemma fold_sections_step : forall hs acc,
  fold_left sections_step hs acc =
  (acc ++ filter (fun t => negb (skipped t)) (map trimmed_text hs))%list.
Proof.
  induction hs as [|h hs IH]; intros acc; simpl.
  - rewrite app_nil_r. reflexivity.
  - rewrite IH. unfold sections_step, skipped, trimmed_text.
    destruct (negb (existsb _ skip_sections)); simpl.
    + rewrite <- app_assoc. reflexivity.
    + reflexivity.
Qed.

Lemma extract_sections_eq : forall doc,
  _extract_sections doc =
  firstn 10 (filter (fun t => negb (skipped t)) (map trimmed_text (headings_of doc))).
Proof.
  intros doc. unfold _extract_sections. rewrite fold_sections_step. reflexivity.
Qed.

Lemma In_firstn {A : Type} : forall n (l : list A) x, In x (firstn n l) -> In x l.
Proof.
  induction n as [|n IH]; intros l x H; simpl in H; [contradiction|].
  destruct l as [|a l]; [contradiction|].
  destruct H as [H|H]; [left; exact H | right; apply IH; exact H].
Qed.



(** C10. When the page has no element with the identifier of the main
    content container, [scrape_article] (for a valid URL whose page is
    fetched) returns a record with an empty summary and an empty
    full_content, and sections collected from the whole page; and there is
    such a page whose sections are not empty. *)
Theorem no_container_empty_text_but_sections :
  (forall (session_get : string -> option soup) (url : string) (doc : soup),
      _is_valid_wikipedia_url url = true ->
      session_get url = Some doc ->
      main_content doc = None ->
      exists a : article,
        scrape_article session_get url = inr a
        /\ summary a = EmptyString
        /\ full_content a = EmptyString
        /\ sections a = _extract_sections doc
        /\ sections a =
           firstn 10 (filter (fun t => negb (skipped t))
                             (map trimmed_text (headings_of doc))))
  /\ (main_content page_without_container = None
      /\ _extract_sections page_without_container = ["Navigation menu"]).
Proof.
  split.
  - intros session_get url doc V F C.
    unfold scrape_article. rewrite V, F. simpl.
    eexists. split; [reflexivity|]. simpl.
    unfold _extract_summary, _extract_full_content. rewrite C.
    repeat split; try reflexivity. apply extract_sections_eq.
  - split; vm_compute; reflexivity.
Qed.

Lemma no_container_empty_text_but_sections_witness :
  exists a : article,
    scrape_article (fun _ => Some page_without_container) python_url = inr a
    /\ summary a = EmptyString
    /\ full_content a = EmptyString
    /\ sections a = _extract_sections page_without_container
    /\ sections a =
       firstn 10 (filter (fun t => negb (skipped t))
                         (map trimmed_text (headings_of page_without_container))).
Proof.
  apply (proj1 no_container_empty_text_but_sections
           (fun _ => Some page_without_container) python_url page_without_container).
  - vm_compute. reflexivity.
  - reflexivity.
  - vm_compute. reflexivity.
Defined.

(** ** Dictionaries and the conditional assignment *)

Lemma dict_get_set_same : forall k v d, dict_get k (dict_set k v d) = Some v.
Proof.
  induction d as [|[k' v'] d IH]; simpl.
  - rewrite String.eqb_refl. reflexivity.
  - destruct (String.eqb k k') eqn:E; simpl; rewrite E; [reflexivity | exact IH].
Qed.

Lemma dict_get_set_other : forall k k' v d,
  k <> k' -> dict_get k (dict_set k' v d) = dict_get k d.
Proof.
  intros k k' v d N. induction d as [|[k0 v0] d IH]; simpl.
  - destruct (String.eqb k k') eqn:E; [apply String.eqb_eq in E; congruence | reflexivity].
  - destruct (String.eqb k' k0) eqn:E; simpl.
    + apply String.eqb_eq in E; subst k0.
      destruct (String.eqb k k') eqn:E'; [apply String.eqb_eq in E'; congruence | reflexivity].
    + destruct (String.eqb k k0); [reflexivity | exact IH].
Qed.

Lemma dict_set_same_value : forall k v d,
  dict_get k d = Some v -> dict_set k v d = d.
Proof.
  induction d as [|[k' v'] d IH]; simpl; intros H; [discriminate|].
  destruct (String.eqb k k') eqn:E.
  - inversion H; subst. reflexivity.
  - rewrite (IH H). reflexivity.
Qed.

Lemma bind_inr {A B : Type} (c : result A) (k : A -> result B) (r : B) :
  bind c k = inr r -> exists a, c = inr a /\ k a = inr r.
Proof.
  destruct c as [e|a]; simpl; intros H; [discriminate | eauto].
Qed.

(** A successful conditional assignment was made on a dict, which is
    either left as it is, the field being there and in order, or gets the
    new value. *)
Lemma ensure_inv : forall v key bad x v',
  ensure v key bad x = inr v' ->
  exists d, v = PDict d /\
    ((v' = v /\ exists y, dict_get key d = Some y /\ bad y = inr false)
     \/ v' = PDict (dict_set key x d)).
Proof.
  intros v key bad x v' H. unfold ensure, absent_or in H.
  destruct v as [| | | |s|l|d]; simpl in H; try discriminate.
  - destruct (str_contains key s); simpl in H; discriminate.
  - destruct (existsb _ l); simpl in H; discriminate.
  - exists d. split; [reflexivity|].
    destruct (dict_get key d) as [y|] eqn:G; simpl in H.
    + destruct (bad y) as [e|[|]] eqn:B; simpl in H; try discriminate.
      * right. inversion H. reflexivity.
      * left. inversion H. split; [reflexivity|]. exists y. auto.
    + right. inversion H. reflexivity.
Qed.

Lemma ensure_keep : forall d key bad x y,
  dict_get key d = Some y -> bad y = inr false ->
  ensure (PDict d) key bad x = inr (PDict d).
Proof.
  intros d key bad x y G B. unfold ensure, absent_or. simpl.
  rewrite G. simpl. rewrite B. reflexivity.
Qed.

(** After a successful conditional assignment the field satisfies every
    property that holds of the new value and of the values that the test
    accepts; the other fields are as before. *)
Lemma ensure_field : forall (P : pyval -> bool) v key bad x v',
  ensure v key bad x = inr v' ->
  (forall y, bad y = inr false -> P y = true) ->
  P x = true ->
  exists d d', v = PDict d /\ v' = PDict d'
    /\ field key P d' = true
    /\ (forall k, k <> key -> dict_get k d' = dict_get k d).
Proof.
  intros P v key bad x v' H Hbad Hx.
  apply ensure_inv in H. destruct H as (d & -> & [(-> & y & G & B) | ->]).
  - exists d, d. repeat split; auto.
    unfold field. rewrite G. apply Hbad. exact B.
  - exists d, (dict_set key x d). repeat split; auto.
    + unfold field. rewrite dict_get_set_same. exact Hx.
    + intros k N. apply dict_get_set_other. exact N.
Qed.

Lemma field_preserved : forall key P d d',
  dict_get key d' = dict_get key d -> field key P d = true -> field key P d' = true.
Proof.
  intros key P d d' E H. unfold field in *. rewrite E. exact H.
Qed.

Lemma len_not_4_ok : forall y, len_not_4 y = inr false -> has_len_4 y = true.
Proof.
  intros y H. unfold len_not_4, has_len_4 in *.
  destruct (py_len y) as [e|n]; simpl in H; [discriminate|].
  inversion H. destruct (n =? 4); [reflexivity | discriminate].
Qed.

Lemma not_among_ok : forall l y, not_among l y = inr false -> py_among y l = true.
Proof.
  intros l y H. unfold not_among, ret in H. inversion H.
  destruct (py_among y l); [reflexivity | discriminate].
Qed.

Lemma not_truthy_ok : forall y, not_truthy y = inr false -> py_truthy y = true.
Proof.
  intros y H. unfold not_truthy, ret in H. inversion H.
  destruct (py_truthy y); [reflexivity | discriminate].
Qed.

(** The loop: when it ends without an exception, every element is the
    result of the body on the element that was there. *)
Lemma for_enumerate_inv : forall (body : nat -> pyval -> result pyval) (Q : pyval -> bool),
  (forall i x x', body i x = inr x' -> Q x' = true) ->
  forall items i items',
    for_enumerate body i items = inr items' ->
    forallb Q items' = true /\ List.length items' = List.length items.
Proof.
  intros body Q HQ. induction items as [|x items IH]; intros i items' H; simpl in H.
  - inversion H. split; reflexivity.
  - apply bind_inr in H. destruct H as (x' & Hx & H).
    apply bind_inr in H. destruct H as (rest' & Hr & H).
    inversion H; subst items'. apply IH in Hr. destruct Hr as [Hall Hlen].
    simpl. rewrite (HQ _ _ _ Hx), Hall, Hlen. split; reflexivity.
Qed.

Lemma for_enumerate_id : forall (body : nat -> pyval -> result pyval) items i,
  (forall j x, In x items -> body j x = inr x) ->
  for_enumerate body i items = inr items.
Proof.
  intros body. induction items as [|x items IH]; intros i H; simpl; [reflexivity|].
  rewrite (H i x (or_introl eq_refl)). simpl.
  rewrite IH; [reflexivity|]. intros j y Hy. apply H. right. exact Hy.
Qed.

(** The loop raises when its first element is a string: a string takes no
    assignment to a key and gives no value for one. *)
Lemma ensure_str_raises : forall s key bad x, ensure (PStr s) key bad x = inl TypeError.
Proof.
  intros s key bad x. unfold ensure, absent_or. simpl.
  destruct (str_contains key s); reflexivity.
Qed.

(** ** Validation and repair *)

Lemma ensure_field_dict : forall (P : pyval -> bool) d key bad x v',
  ensure (PDict d) key bad x = inr v' ->
  (forall y, bad y = inr false -> P y = true) ->
  P x = true ->
  exists d', v' = PDict d'
    /\ field key P d' = true
    /\ (forall k, k <> key -> dict_get k d' = dict_get k d).
Proof.
  intros P d key bad x v' H Hbad Hx.
  destruct (ensure_field P _ _ _ _ _ H Hbad Hx) as (d0 & d' & E & -> & F & K).
  inversion E; subst d0. exists d'. auto.
Qed.

Definition anything (v : pyval) : bool := true.

Ltac ensure_step H P d F K :=
  let q := fresh "q" in
  let E := fresh "E" in
  apply bind_inr in H; destruct H as (q & E & H);
  apply (ensure_field_dict P) in E;
  [ destruct E as (d & -> & F & K) | | ].

Ltac keep_field d0 :=
  apply (field_preserved _ _ d0); [|assumption];
  repeat (match goal with
          | K : forall k, k <> _ -> dict_get k ?d' = dict_get k _
            |- dict_get _ ?d' = _ => rewrite K by discriminate
          end);
  reflexivity.

Lemma advanced_validate_question_repaired : forall title i q q',
  AdvancedQuizGenerator.validate_question title i q = inr q' ->
  repaired_question q' = true.
Proof.
  intros title i q q' H. unfold AdvancedQuizGenerator.validate_question in H.
  assert (D : exists d, q = PDict d).
  { apply bind_inr in H. destruct H as (q1 & E1 & _).
    apply ensure_inv in E1. destruct E1 as (d & -> & _). eauto. }
  destruct D as (d & ->).
  ensure_step H anything d1 F1 K1; [|reflexivity|reflexivity].
  ensure_step H has_len_4 d2 F2 K2; [|apply len_not_4_ok|reflexivity].
  ensure_step H (fun v => py_among v letters) d3 F3 K3;
    [|apply not_among_ok|reflexivity].
  ensure_step H anything d4 F4 K4; [|reflexivity|reflexivity].
  apply (ensure_field_dict (fun v => py_among v difficulties)) in H;
    [|apply not_among_ok|destruct (i mod 2 =? 0); reflexivity].
  destruct H as (d5 & -> & F5 & K5).
  unfold repaired_question.
  apply andb_true_intro; split; [apply andb_true_intro; split|].
  - keep_field d2.
  - keep_field d3.
  - exact F5.
Qed.

Lemma validate_question_repaired : forall i q q',
  QuizGenerator.validate_question i q = inr q' ->
  repaired_question q' = true.
Proof.
  intros i q q' H. unfold QuizGenerator.validate_question in H.
  assert (D : exists d, q = PDict d).
  { apply bind_inr in H. destruct H as (q1 & E1 & _).
    apply ensure_inv in E1. destruct E1 as (d & -> & _). eauto. }
  destruct D as (d & ->).
  ensure_step H anything d1 F1 K1; [|reflexivity|reflexivity].
  ensure_step H has_len_4 d2 F2 K2; [|apply len_not_4_ok|reflexivity].
  ensure_step H (fun v => py_among v letters) d3 F3 K3;
    [|apply not_among_ok|reflexivity].
  ensure_step H anything d4 F4 K4; [|reflexivity|reflexivity].
  apply (ensure_field_dict (fun v => py_among v difficulties)) in H;
    [|apply not_among_ok|reflexivity].
  destruct H as (d5 & -> & F5 & K5).
  unfold repaired_question.
  apply andb_true_intro; split; [apply andb_true_intro; split|].
  - keep_field d2.
  - keep_field d3.
  - exact F5.
Qed.

Lemma advanced_validate_question_str : forall title i s,
  AdvancedQuizGenerator.validate_question title i (PStr s) = inl TypeError.
Proof.
  intros. unfold AdvancedQuizGenerator.validate_question.
  rewrite ensure_str_raises. reflexivity.
Qed.

Lemma validate_question_str : forall i s,
  QuizGenerator.validate_question i (PStr s) = inl TypeError.
Proof.
  intros. unfold QuizGenerator.validate_question.
  rewrite ensure_str_raises. reflexivity.
Qed.

(** A loop that ends without an exception over something of positive
    length was a loop over a list: the characters of a string and the keys
    of a dict are strings, on which the body raises. *)
Lemma loop_on_list : forall (body : nat -> pyval -> result pyval),
  (forall i s, body i (PStr s) = inl TypeError) ->
  forall qs items items' n i,
    py_iter qs = inr items ->
    for_enumerate body i items = inr items' ->
    py_len qs = inr n -> 0 < n ->
    qs = PList items /\ List.length items = n.
Proof.
  intros body Hstr qs items items' n i It Loop Len Pos.
  destruct qs as [| | | |s|l|d]; simpl in It, Len; try discriminate;
    inversion It; subst items; inversion Len; subst n; clear It Len.
  - destruct s as [|c s]; simpl in *; [lia|].
    rewrite Hstr in Loop. discriminate.
  - split; reflexivity.
  - destruct (dict_keys d) as [|k ks]; simpl in *; [lia|].
    rewrite Hstr in Loop. discriminate.
Qed.

(** The end of both validations: the loop over the questions and the
    default of [related_topics]. *)
Lemma loop_and_topics : forall (body : nat -> pyval -> result pyval) topics d qs n v,
  (forall i x x', body i x = inr x' -> repaired_question x' = true) ->
  (forall i s, body i (PStr s) = inl TypeError) ->
  py_truthy topics = true ->
  dict_get "questions" d = Some qs -> py_len qs = inr n -> 3 <= n ->
  (questions <- py_getitem (PDict d) "questions" ;;
   items <- py_iter questions ;;
   items <- for_enumerate body 0 items ;;
   quiz_data <- py_setitem (PDict d) "questions" (store_back questions items) ;;
   ensure quiz_data "related_topics" not_truthy topics) = inr v ->
  repaired_quiz v = true.
Proof.
  intros body topics d qs n v Hbody Hstr Htop G Len N H.
  simpl in H. rewrite G in H. simpl in H.
  apply bind_inr in H. destruct H as (items & It & H).
  apply bind_inr in H. destruct H as (items' & Loop & H).
  simpl in H.
  destruct (loop_on_list body Hstr _ _ _ _ _ It Loop Len ltac:(lia)) as [-> Hn].
  destruct (for_enumerate_inv body repaired_question Hbody _ _ _ Loop) as [Hall Hlen].
  simpl in H.
  apply (ensure_field_dict py_truthy) in H; [|apply not_truthy_ok|exact Htop].
  destruct H as (d' & -> & F & K).
  unfold repaired_quiz. apply andb_true_intro; split; [|exact F].
  unfold field. rewrite K by discriminate. rewrite dict_get_set_same.
  cbv beta iota. unfold list_of.
  rewrite Hall, andb_true_r. apply Nat.leb_le. lia.
Qed.

(** [_validate_quiz_data] of quiz_generator.py: what it returns, when it
    returns, has at least 3 questions, each with 4 options, an answer
    letter and a difficulty, and related topics. *)
Lemma validate_quiz_data_repaired : forall quiz_data v,
  QuizGenerator._validate_quiz_data quiz_data = inr v -> repaired_quiz v = true.
Proof.
  intros quiz_data v H. unfold QuizGenerator._validate_quiz_data in H.
  assert (D : exists d, quiz_data = PDict d).
  { apply bind_inr in H. destruct H as (q1 & E1 & _).
    apply ensure_inv in E1. destruct E1 as (d & -> & _). eauto. }
  destruct D as (d & ->).
  ensure_step H py_truthy d1 F1 K1; [|apply not_truthy_ok|reflexivity].
  apply bind_inr in H. destruct H as (qs & G & H).
  simpl in G. destruct (dict_get "questions" d1) as [qs0|] eqn:G1; [|discriminate].
  inversion G; subst qs0; clear G.
  apply bind_inr in H. destruct H as (n & Len & H).
  apply bind_inr in H. destruct H as (qd2 & E2 & H).
  destruct (n <? 3) eqn:L.
  - apply Nat.ltb_lt in L. simpl in E2. rewrite G1 in E2. simpl in E2.
    rewrite Len in E2. simpl in E2.
    destruct qs as [| | | |s|l|dd]; simpl in E2; try discriminate.
    inversion E2; subst qd2; clear E2.
    simpl in Len. inversion Len; subst n.
    eapply (loop_and_topics QuizGenerator.validate_question); try exact H.
    + apply validate_question_repaired.
    + apply validate_question_str.
    + reflexivity.
    + apply dict_get_set_same.
    + simpl. reflexivity.
    + clear H. destruct l as [|? [|? [|? ?]]]; simpl in *; lia.
  - apply Nat.ltb_ge in L. inversion E2; subst qd2.
    eapply (loop_and_topics QuizGenerator.validate_question); try exact H; eauto.
    + apply validate_question_repaired.
    + apply validate_question_str.
Qed.

(** [_validate_quiz_structure] of main.py does not count the questions:
    with at least 3 of them on entry, what it returns has at least 3
    questions, each with 4 options, an answer letter and a difficulty, and
    related topics. *)
Lemma validate_quiz_structure_repaired : forall d qs n title v,
  dict_get "questions" d = Some qs -> py_len qs = inr n -> 3 <= n ->
  AdvancedQuizGenerator._validate_quiz_structure (PDict d) title = inr v ->
  repaired_quiz v = true.
Proof.
  intros d qs n title v G Len N H.
  unfold AdvancedQuizGenerator._validate_quiz_structure in H.
  rewrite (ensure_keep d "questions" never (PList []) qs G eq_refl) in H.
  simpl bind at 1 in H.
  eapply (loop_and_topics (AdvancedQuizGenerator.validate_question title));
    try exact H; eauto.
  - apply advanced_validate_question_repaired.
  - apply advanced_validate_question_str.
Qed.

(** ** The two [generate_quiz] *)

(** [prompt_template.format(article_text=...)] raises: after
    [{article_text}] the template shows the JSON format with single braces,
    and the first of them opens a field whose name is no argument. *)
Lemma prompt_format_raises : forall text : string,
  py_format QuizGenerator.prompt_template [("article_text", text)] = inl KeyError.
Proof.
  intros text. vm_compute. reflexivity.
Qed.

Lemma generate_quiz_is_fallback :
  forall json_loads api_key generate_content article_content,
    QuizGenerator.generate_quiz json_loads api_key generate_content article_content
    = inr QuizGenerator._create_enhanced_fallback_quiz.
Proof.
  intros. unfold QuizGenerator.generate_quiz, QuizGenerator.generate_quiz_body.
  destruct (negb (QuizGenerator.has_key api_key)); [reflexivity|].
  destruct (negb (str_nonempty article_content) || _); [reflexivity|].
  rewrite prompt_format_raises. reflexivity.
Qed.

Lemma absent_or_false : forall v key bad,
  absent_or v key bad = inr false ->
  exists d y, v = PDict d /\ dict_get key d = Some y /\ bad y = inr false.
Proof.
  intros v key bad H. unfold absent_or in H.
  destruct v as [| | | |s|l|d]; simpl in H; try discriminate.
  - destruct (str_contains key s); simpl in H; discriminate.
  - destruct (existsb _ l); simpl in H; discriminate.
  - destruct (dict_get key d) as [y|] eqn:G; simpl in H; [|discriminate].
    exists d, y. auto.
Qed.

Lemma backfill_length : forall (l fallback : list pyval),
  List.length fallback = 5 -> List.length l < 3 ->
  3 <= List.length (l ++ firstn (5 - List.length l) fallback).
Proof.
  intros l fallback H5 L. rewrite length_app, length_firstn, H5. lia.
Qed.

Lemma advanced_fallback_repaired : forall title,
  repaired_quiz (AdvancedQuizGenerator._generate_smart_fallback_quiz title) = true.
Proof.
  intros title. reflexivity.
Qed.

Lemma parse_quiz_data_repaired : forall json_loads text title v,
  AdvancedQuizGenerator._parse_quiz_data json_loads text title = inr v ->
  repaired_quiz v = true.
Proof.
  intros json_loads text title v H.
  unfold AdvancedQuizGenerator._parse_quiz_data, try_except in H.
  destruct (AdvancedQuizGenerator.parse_quiz_data_body json_loads text title)
    as [e|v0] eqn:B.
  - inversion H. apply advanced_fallback_repaired.
  - inversion H; subst v0; clear H.
    unfold AdvancedQuizGenerator.parse_quiz_data_body in B.
    apply bind_inr in B. destruct B as (qd & _ & B).
    apply bind_inr in B. destruct B as (b & Hb & B).
    destruct b; [discriminate|]. simpl bind at 1 in B.
    apply absent_or_false in Hb. destruct Hb as (d & qs & -> & G & T).
    apply bind_inr in B. destruct B as (qs' & G' & B).
    simpl in G'. rewrite G in G'. inversion G'; subst qs'; clear G'.
    apply bind_inr in B. destruct B as (n & Len & B).
    apply bind_inr in B. destruct B as (qd2 & E2 & B).
    destruct (n <? 3) eqn:L.
    + apply Nat.ltb_lt in L.
      apply bind_inr in E2. destruct E2 as (qs' & G' & E2).
      simpl in G'. rewrite G in G'. inversion G'; subst qs'; clear G'.
      apply bind_inr in E2. destruct E2 as (n' & Len' & E2).
      rewrite Len in Len'. inversion Len'; subst n'; clear Len'.
      apply bind_inr in E2. destruct E2 as (qs2 & X & E2).
      destruct qs as [| | | |s|l|dd]; try discriminate.
      simpl in Len. inversion Len; subst n.
      unfold py_extend, ret in X. inversion X; subst qs2; clear X.
      simpl in E2. inversion E2; subst qd2; clear E2.
      eapply validate_quiz_structure_repaired; [| |  |exact B].
      * apply dict_get_set_same.
      * reflexivity.
      * apply backfill_length; [reflexivity | exact L].
    + apply Nat.ltb_ge in L. inversion E2; subst qd2.
      eapply validate_quiz_structure_repaired; eauto.
Qed.

Lemma advanced_generate_quiz_cases :
  forall json_loads api_key generate_content content title,
    AdvancedQuizGenerator.generate_quiz json_loads api_key generate_content content title
    = inr (AdvancedQuizGenerator._generate_smart_fallback_quiz title)
    \/ exists text,
        AdvancedQuizGenerator.generate_quiz json_loads api_key generate_content content title
        = AdvancedQuizGenerator._parse_quiz_data json_loads text title.
Proof.
  intros json_loads api_key generate_content content title.
  unfold AdvancedQuizGenerator.generate_quiz, try_except.
  destruct (AdvancedQuizGenerator.generate_quiz_body _ _ _ _ _) as [e|v] eqn:B;
    [left; reflexivity|].
  unfold AdvancedQuizGenerator.generate_quiz_body in B.
  destruct (negb (AdvancedQuizGenerator.has_key api_key)).
  { left. symmetry. exact B. }
  destruct (negb (str_nonempty content) || _); [discriminate|].
  apply bind_inr in B. destruct B as (quiz_text & _ & B).
  apply bind_inr in B. destruct B as (quiz_data & P & B).
  apply bind_inr in B. destruct B as (qs & _ & B).
  apply bind_inr in B. destruct B as (n & _ & B).
  inversion B; subst v. right. eexists. symmetry. exact P.
Qed.

Lemma advanced_generate_quiz_repaired :
  forall json_loads api_key generate_content content title,
    exists v,
      AdvancedQuizGenerator.generate_quiz json_loads api_key generate_content
        content title = inr v
      /\ repaired_quiz v = true.
Proof.
  intros json_loads api_key generate_content content title.
  destruct (advanced_generate_quiz_cases json_loads api_key generate_content
              content title) as [F | [text P]].
  - eexists. split; [exact F | apply advanced_fallback_repaired].
  - destruct (AdvancedQuizGenerator._parse_quiz_data json_loads text title)
      as [e|v] eqn:E.
    + unfold AdvancedQuizGenerator._parse_quiz_data, try_except in E.
      destruct (AdvancedQuizGenerator.parse_quiz_data_body _ _ _); discriminate.
    + exists v. split; [exact P|]. eapply parse_quiz_data_repaired. exact E.
Qed.

(** C1. For every content, title, API key, decoder and behaviour of the
    model, both [generate_quiz] return a quiz (a dict with a list of
    questions and related topics) and raise nothing; whenever the [try]
    block raises, whatever the exception, the value is the fallback quiz;
    and when the call to the model raises, the result is the fallback
    quiz, which has 5 questions. *)
Theorem generate_quiz_never_raises :
  forall (json_loads : string -> option pyval) (api_key : option string)
         (generate_content : string -> result string) (content title : string),
    (exists v,
        AdvancedQuizGenerator.generate_quiz json_loads api_key generate_content
          content title = inr v
        /\ repaired_quiz v = true)
    /\ (exists v,
        QuizGenerator.generate_quiz json_loads api_key generate_content content
        = inr v
        /\ repaired_quiz v = true)
    /\ (forall e,
        AdvancedQuizGenerator.generate_quiz_body json_loads api_key generate_content
          content title = inl e ->
        AdvancedQuizGenerator.generate_quiz json_loads api_key generate_content
          content title
        = inr (AdvancedQuizGenerator._generate_smart_fallback_quiz title))
    /\ (forall e,
        QuizGenerator.generate_quiz_body json_loads api_key generate_content content
        = inl e ->
        QuizGenerator.generate_quiz json_loads api_key generate_content content
        = inr QuizGenerator._create_enhanced_fallback_quiz)
    /\ (forall e,
        (forall prompt, generate_content prompt = inl e) ->
        AdvancedQuizGenerator.generate_quiz json_loads api_key generate_content
          content title
        = inr (AdvancedQuizGenerator._generate_smart_fallback_quiz title)
        /\ QuizGenerator.generate_quiz json_loads api_key generate_content content
           = inr QuizGenerator._create_enhanced_fallback_quiz)
    /\ List.length (AdvancedQuizGenerator.base_questions title) = 5
    /\ List.length QuizGenerator.fallback_questions = 5.
Proof.
  intros json_loads api_key generate_content content title.
  split; [apply advanced_generate_quiz_repaired|].
  split; [eexists; split; [apply generate_quiz_is_fallback | reflexivity]|].
  repeat split.
  - intros e H. unfold AdvancedQuizGenerator.generate_quiz. rewrite H. reflexivity.
  - intros e H. unfold QuizGenerator.generate_quiz. rewrite H. reflexivity.
  - unfold AdvancedQuizGenerator.generate_quiz, AdvancedQuizGenerator.generate_quiz_body.
    destruct (negb (AdvancedQuizGenerator.has_key api_key)); [reflexivity|].
    destruct (negb (str_nonempty content) || _); [reflexivity|].
    rewrite H. reflexivity.
  - apply generate_quiz_is_fallback.
Qed.

Lemma generate_quiz_never_raises_witness :
  AdvancedQuizGenerator.generate_quiz json_loads_subset (Some "key")
    (fun _ => inl ModelError) long_content "Python"
  = inr (AdvancedQuizGenerator._generate_smart_fallback_quiz "Python").
Proof.
  apply (proj1 (proj2 (proj2 (generate_quiz_never_raises json_loads_subset
           (Some "key") (fun _ => inl ModelError) long_content "Python")))
           ModelError).
  vm_compute. reflexivity.
Defined.

(** C2 (amended). For every input and every behaviour of the model, both
    [generate_quiz] return a quiz with at least 3 questions, each with
    [options] of length 4, [correct_answer] among A, B, C, D and
    [difficulty] among easy, medium, hard, and with [related_topics] that
    is not falsy; so does [_validate_quiz_data] of quiz_generator.py and
    [_parse_quiz_data] of main.py, whenever they return. *)
Theorem generate_quiz_is_repaired :
  forall (json_loads : string -> option pyval) (api_key : option string)
         (generate_content : string -> result string) (content title : string),
    (exists v,
        AdvancedQuizGenerator.generate_quiz json_loads api_key generate_content
          content title = inr v
        /\ repaired_quiz v = true)
    /\ (exists v,
        QuizGenerator.generate_quiz json_loads api_key generate_content content
        = inr v
        /\ repaired_quiz v = true)
    /\ (forall quiz_data v,
        QuizGenerator._validate_quiz_data quiz_data = inr v ->
        repaired_quiz v = true)
    /\ (forall text v,
        AdvancedQuizGenerator._parse_quiz_data json_loads text title = inr v ->
        repaired_quiz v = true).
Proof.
  intros json_loads api_key generate_content content title.
  split; [apply advanced_generate_quiz_repaired|].
  split; [eexists; split; [apply generate_quiz_is_fallback | reflexivity]|].
  split.
  - apply validate_quiz_data_repaired.
  - intros text v H. eapply parse_quiz_data_repaired. exact H.
Qed.

Lemma generate_quiz_is_repaired_witness :
  repaired_quiz
    (mk_quiz QuizGenerator.fallback_questions ["Knowledge"; "Education"; "Research"])
  = true
  /\ repaired_quiz (AdvancedQuizGenerator._generate_smart_fallback_quiz "Python")
     = true.
Proof.
  destruct (generate_quiz_is_repaired json_loads_subset (Some "key")
              (fun _ => inr response_with_list_options) long_content "Python")
    as (_ & _ & H1 & H2).
  split.
  - apply (H1 (PDict [])). vm_compute. reflexivity.
  - apply (H2 "not json"). vm_compute. reflexivity.
Defined.

(** C2, counterexample. With an API key, an article of 120 characters and
    a model that answers one question whose options are a JSON array of 4
    strings, and the number 3 for the related topics, [generate_quiz] of
    main.py returns that question with its array, and the number: options
    that are not keyed A, B, C, D, and related topics without elements. *)
Lemma generate_quiz_keeps_list_options :
  match AdvancedQuizGenerator.generate_quiz json_loads_subset (Some "key")
          (fun _ => inr response_with_list_options) long_content "Python" with
  | inr v =>
      claimed_invariants v = false
      /\ (exists d rest,
             py_getitem v "questions" = inr (PList (PDict d :: rest))
             /\ dict_get "options" d
                = Some (PList [PStr "Guido"; PStr "Linus"; PStr "Dennis"; PStr "Bjarne"])
             /\ keyed_A_to_D
                  (PList [PStr "Guido"; PStr "Linus"; PStr "Dennis"; PStr "Bjarne"])
                = false)
      /\ py_getitem v "related_topics" = inr (PInt 3)
      /\ has_an_element (PInt 3) = false
  | inl _ => False
  end.
Proof.
  vm_compute. split; [reflexivity|]. split.
  - do 2 eexists. repeat split; reflexivity.
  - split; reflexivity.
Qed.

(** ** The fallback quiz *)

(** C9. The fallback quiz is a function of the title alone: equal titles
    give equal quizzes, and on the path without API key [generate_quiz]
    returns the same quiz whatever the decoder, the model and the content.
    It has 5 questions and 3 related topics and satisfies the invariants of
    the data model, in main.py and in quiz_generator.py. *)
Theorem fallback_is_deterministic_and_valid : forall title : string,
  (forall title' : string,
      title = title' ->
      AdvancedQuizGenerator._generate_smart_fallback_quiz title
      = AdvancedQuizGenerator._generate_smart_fallback_quiz title')
  /\ (forall json_loads json_loads' generate_content generate_content'
             content content',
         AdvancedQuizGenerator.generate_quiz json_loads None generate_content
           content title
         = AdvancedQuizGenerator.generate_quiz json_loads' None generate_content'
             content' title
         /\ QuizGenerator.generate_quiz json_loads None generate_content content
            = QuizGenerator.generate_quiz json_loads' None generate_content' content')
  /\ AdvancedQuizGenerator._generate_smart_fallback_quiz title
     = mk_quiz (AdvancedQuizGenerator.base_questions title)
               [title; "Online Encyclopedia"; "Knowledge Base"]
  /\ List.length (AdvancedQuizGenerator.base_questions title) = 5
  /\ forallb valid_question (AdvancedQuizGenerator.base_questions title) = true
  /\ valid_quiz (AdvancedQuizGenerator._generate_smart_fallback_quiz title) = true
  /\ QuizGenerator._create_enhanced_fallback_quiz
     = mk_quiz QuizGenerator.fallback_questions
               ["Online Encyclopedia"; "Collaborative Knowledge"; "Digital Education"]
  /\ List.length QuizGenerator.fallback_questions = 5
  /\ forallb valid_question QuizGenerator.fallback_questions = true
  /\ valid_quiz QuizGenerator._create_enhanced_fallback_quiz = true.
Proof.
  intros title. split; [|split].
  - intros title' E. rewrite E. reflexivity.
  - intros. split; reflexivity.
  - repeat split; reflexivity.
Qed.

Lemma fallback_is_deterministic_and_valid_witness :
  AdvancedQuizGenerator._generate_smart_fallback_quiz "Python"
  = AdvancedQuizGenerator._generate_smart_fallback_quiz "Python".
Proof.
  apply (proj1 (fallback_is_deterministic_and_valid "Python") "Python").
  reflexivity.
Defined.

(** ** Validation of a valid quiz *)

Lemma field_inv : forall key P d,
  field key P d = true -> exists y, dict_get key d = Some y /\ P y = true.
Proof.
  intros key P d H. unfold field in H.
  destruct (dict_get key d) as [y|]; [eauto | discriminate].
Qed.

Lemma nonempty_is_truthy : forall y,
  is_nonempty_str y = true -> not_truthy y = inr false.
Proof.
  intros y H. destruct y; simpl in H; try discriminate.
  unfold not_truthy. simpl. rewrite H. reflexivity.
Qed.

Lemma nonblank_is_not_blank : forall y,
  is_nonblank_str y = true -> blank y = inr false.
Proof.
  intros y H. destruct y; simpl in H; try discriminate.
  unfold blank. simpl. rewrite H. reflexivity.
Qed.

Lemma valid_options_len : forall y, valid_options y = true -> len_not_4 y = inr false.
Proof.
  intros y H. unfold valid_options, keyed_A_to_D in H.
  destruct y as [| | | | | |o]; simpl in H; try discriminate.
  apply andb_prop in H. destruct H as [H _].
  apply andb_prop in H. destruct H as [H _].
  unfold len_not_4. simpl. rewrite H. reflexivity.
Qed.

Lemma among_is_kept : forall l y, py_among y l = true -> not_among l y = inr false.
Proof.
  intros l y H. unfold not_among. rewrite H. reflexivity.
Qed.

Ltac split_fields H :=
  repeat (let H' := fresh "F" in
          apply andb_prop in H; destruct H as [H H']).

Ltac keep_step lemma F :=
  let y := fresh "y" in
  let G := fresh "G" in
  let P := fresh "P" in
  destruct (field_inv _ _ _ F) as (y & G & P);
  erewrite ensure_keep; [| exact G | apply lemma; exact P].

Lemma validate_question_id : forall i q,
  valid_question q = true -> QuizGenerator.validate_question i q = inr q.
Proof.
  intros i q H. destruct q as [| | | | | |d]; simpl in H; try discriminate.
  split_fields H. unfold QuizGenerator.validate_question.
  keep_step nonempty_is_truthy H. cbn [bind].
  keep_step valid_options_len F2. cbn [bind].
  keep_step (among_is_kept letters) F1. cbn [bind].
  keep_step nonempty_is_truthy F0. cbn [bind].
  keep_step (among_is_kept difficulties) F. reflexivity.
Qed.

Lemma advanced_validate_question_id : forall title i q,
  valid_question q = true -> nonblank_question q = true ->
  AdvancedQuizGenerator.validate_question title i q = inr q.
Proof.
  intros title i q H B. destruct q as [| | | | | |d]; simpl in H, B; try discriminate.
  split_fields H. apply andb_prop in B. destruct B as [B1 B2].
  unfold AdvancedQuizGenerator.validate_question.
  keep_step nonblank_is_not_blank B1. cbn [bind].
  keep_step valid_options_len F2. cbn [bind].
  keep_step (among_is_kept letters) F1. cbn [bind].
  keep_step nonblank_is_not_blank B2. cbn [bind].
  keep_step (among_is_kept difficulties) F. reflexivity.
Qed.

Lemma list_of_inv : forall min P y,
  list_of min P y = true ->
  exists l, y = PList l /\ min <= List.length l /\ forallb P l = true.
Proof.
  intros min P y H. destruct y as [| | | | |l|]; simpl in H; try discriminate.
  apply andb_prop in H. destruct H as [H1 H2]. apply Nat.leb_le in H1. eauto.
Qed.

(** C8 (amended). [_validate_quiz_data] of quiz_generator.py returns every
    quiz that satisfies the data model as it is. [_validate_quiz_structure]
    of main.py returns such a quiz as it is when, in addition, the question
    and explanation texts have a character that is not white space. *)
Theorem validation_keeps_valid_quiz : forall (v : pyval) (title : string),
  valid_quiz v = true ->
  QuizGenerator._validate_quiz_data v = inr v
  /\ (nonblank_quiz v = true ->
      AdvancedQuizGenerator._validate_quiz_structure v title = inr v).
Proof.
  intros v title H. destruct v as [| | | | | |d]; simpl in H; try discriminate.
  apply andb_prop in H. destruct H as [HQ HT].
  destruct (field_inv _ _ _ HQ) as (qs & GQ & PQ).
  destruct (field_inv _ _ _ HT) as (ts & GT & PT).
  apply list_of_inv in PQ. destruct PQ as (l & -> & Hlen & Hall).
  apply list_of_inv in PT. destruct PT as (t & -> & Htlen & _).
  assert (Tq : not_truthy (PList l) = inr false).
  { destruct l; simpl in Hlen; [lia | reflexivity]. }
  assert (Tt : not_truthy (PList t) = inr false).
  { destruct t; simpl in Htlen; [lia | reflexivity]. }
  assert (Hin : forall x, In x l -> valid_question x = true).
  { apply forallb_forall. exact Hall. }
  split.
  - unfold QuizGenerator._validate_quiz_data.
    rewrite (ensure_keep d "questions" not_truthy _ _ GQ Tq). cbn [bind].
    cbn [py_getitem ret bind]. rewrite GQ. cbn [bind]. cbn [py_len ret bind]. cbn [bind].
    assert (L : (List.length l <? 3) = false) by (apply Nat.ltb_ge; exact Hlen).
    rewrite L. cbn [bind]. cbn [py_getitem ret bind]. rewrite GQ.
    cbn [bind]. cbn [py_iter ret bind]. cbn [bind].
    rewrite for_enumerate_id
      by (intros j x Hx; apply validate_question_id; apply Hin; exact Hx).
    cbn [bind]. cbn [store_back py_setitem ret bind].
    rewrite (dict_set_same_value _ _ _ GQ).
    apply (ensure_keep d "related_topics" not_truthy _ _ GT Tt).
  - intros B. simpl in B.
    destruct (field_inv _ _ _ B) as (qs' & GQ' & PQ').
    rewrite GQ in GQ'. inversion GQ'; subst qs'; clear GQ'.
    apply list_of_inv in PQ'. destruct PQ' as (l' & E & _ & Hblank).
    inversion E; subst l'; clear E.
    assert (Hin' : forall x, In x l -> nonblank_question x = true).
    { apply forallb_forall. exact Hblank. }
    unfold AdvancedQuizGenerator._validate_quiz_structure.
    rewrite (ensure_keep d "questions" never _ _ GQ eq_refl). cbn [bind].
    cbn [py_getitem ret bind]. rewrite GQ. cbn [bind]. cbn [py_iter ret bind]. cbn [bind].
    rewrite for_enumerate_id
      by (intros j x Hx; apply advanced_validate_question_id;
          [apply Hin | apply Hin']; exact Hx).
    cbn [bind]. cbn [store_back py_setitem ret bind].
    rewrite (dict_set_same_value _ _ _ GQ).
    apply (ensure_keep d "related_topics" not_truthy _ _ GT Tt).
Qed.

Lemma validation_keeps_valid_quiz_witness :
  QuizGenerator._validate_quiz_data
    (AdvancedQuizGenerator._generate_smart_fallback_quiz "Python")
  = inr (AdvancedQuizGenerator._generate_smart_fallback_quiz "Python")
  /\ AdvancedQuizGenerator._validate_quiz_structure
       (AdvancedQuizGenerator._generate_smart_fallback_quiz "Python") "Python"
     = inr (AdvancedQuizGenerator._generate_smart_fallback_quiz "Python").
Proof.
  destruct (validation_keeps_valid_quiz
              (AdvancedQuizGenerator._generate_smart_fallback_quiz "Python")
              "Python" eq_refl) as [H1 H2].
  split; [exact H1 | apply H2; reflexivity].
Defined.

(** C8, counterexample. A quiz that satisfies the data model and whose
    first question text is a single space: [_validate_quiz_structure] of
    main.py writes its placeholder over that text. *)
Lemma validation_rewrites_blank_question :
  valid_quiz quiz_with_blank_question = true
  /\ AdvancedQuizGenerator._validate_quiz_structure quiz_with_blank_question "Python"
     <> inr quiz_with_blank_question.
Proof.
  split; [reflexivity|]. vm_compute. discriminate.
Qed.

(** ** Fewer than 3 questions *)

Lemma dict_set_twice : forall k v d, dict_set k v (dict_set k v d) = dict_set k v d.
Proof.
  intros k v d. apply dict_set_same_value. apply dict_get_set_same.
Qed.

Lemma ensure_topics_total : forall d x,
  exists d', ensure (PDict d) "related_topics" not_truthy x = inr (PDict d')
    /\ dict_get "questions" d' = dict_get "questions" d.
Proof.
  intros d x. unfold ensure, absent_or, not_truthy. cbn [py_in bind ret].
  destruct (dict_get "related_topics" d) as [y|] eqn:G; cbn [negb bind ret py_getitem].
  - rewrite ?G. cbn [bind ret]. destruct (py_truthy y); cbn [negb py_setitem ret].
    + eexists. split; reflexivity.
    + eexists. split; [reflexivity|]. apply dict_get_set_other. discriminate.
  - eexists. split; [reflexivity|]. apply dict_get_set_other. discriminate.
Qed.

Lemma rstrip_head : forall c s,
  py_isspace c = false -> str_nonempty (rstrip (String c s)) = true.
Proof.
  intros c s H. simpl. destruct (rstrip s); [rewrite H|]; reflexivity.
Qed.

Lemma nonblank_head : forall c s,
  py_isspace c = false -> is_nonblank_str (PStr (String c s)) = true.
Proof.
  intros c s H. unfold is_nonblank_str, py_strip. simpl lstrip. rewrite H.
  apply rstrip_head. exact H.
Qed.

Lemma base_questions_nonblank : forall title,
  forallb nonblank_question (AdvancedQuizGenerator.base_questions title) = true.
Proof.
  intros title. unfold AdvancedQuizGenerator.base_questions, mk_question.
  cbn [forallb nonblank_question field dict_get String.eqb Ascii.eqb Bool.eqb append].
  repeat rewrite nonblank_head by reflexivity. reflexivity.
Qed.

Lemma firstn_all {A : Type} (P : A -> bool) : forall n (l : list A),
  forallb P l = true -> forallb P (firstn n l) = true.
Proof.
  intros n l H. apply forallb_forall. intros x Hx.
  apply In_firstn in Hx. revert x Hx. apply forallb_forall. exact H.
Qed.

(** The repair of quiz_generator.py, given 1 or 2 questions that are valid:
    they stay as they are, in front, and fallback questions follow in
    fallback order, up to 3 questions. *)
Lemma validate_quiz_data_backfills : forall d l,
  dict_get "questions" d = Some (PList l) ->
  1 <= List.length l -> List.length l < 3 ->
  forallb valid_question l = true ->
  exists v,
    QuizGenerator._validate_quiz_data (PDict d) = inr v
    /\ py_getitem v "questions"
       = inr (PList (l ++ firstn (3 - List.length l) QuizGenerator.fallback_questions)).
Proof.
  intros d l G L1 L3 Hall.
  assert (Tq : not_truthy (PList l) = inr false).
  { destruct l; simpl in L1; [lia | reflexivity]. }
  apply Nat.ltb_lt in L3.
  unfold QuizGenerator._validate_quiz_data.
  rewrite (ensure_keep d "questions" not_truthy _ _ G Tq).
  cbn [bind py_getitem ret]. rewrite ?G.
  cbn [bind py_len ret]. rewrite L3.
  cbn [bind py_getitem ret]. rewrite ?G.
  cbn [bind py_len py_extend py_setitem py_getitem ret].
  rewrite dict_get_set_same. cbn [bind py_iter ret].
  rewrite for_enumerate_id.
  - cbn [bind store_back py_setitem ret]. rewrite dict_set_twice.
    match goal with
    | |- context [ensure (PDict ?d1) "related_topics" not_truthy ?x] =>
        destruct (ensure_topics_total d1 x) as (d' & E & K)
    end.
    rewrite E. eexists. split; [reflexivity|].
    cbn [py_getitem]. rewrite K, dict_get_set_same. reflexivity.
  - intros j x Hx. apply validate_question_id.
    apply in_app_or in Hx. destruct Hx as [Hx|Hx].
    + revert x Hx. apply forallb_forall. exact Hall.
    + revert x Hx. apply forallb_forall. apply firstn_all. reflexivity.
Qed.

(** The repair of main.py, given a decoded response with 1 or 2 questions
    that are valid and not blank: they stay as they are, in front, and
    fallback questions follow in fallback order, up to 5 questions. *)
Lemma parse_quiz_data_backfills : forall json_loads text title d l,
  json_loads text = Some (PDict d) ->
  dict_get "questions" d = Some (PList l) ->
  1 <= List.length l -> List.length l < 3 ->
  forallb valid_question l = true ->
  forallb nonblank_question l = true ->
  exists v,
    AdvancedQuizGenerator._parse_quiz_data json_loads text title = inr v
    /\ py_getitem v "questions"
       = inr (PList (l ++ firstn (5 - List.length l)
                            (AdvancedQuizGenerator.base_questions title))).
Proof.
  intros json_loads text title d l J G L1 L3 Hall Hblank.
  assert (Tq : py_truthy (PList l) = true).
  { destruct l; simpl in L1; [lia | reflexivity]. }
  apply Nat.ltb_lt in L3.
  unfold AdvancedQuizGenerator._parse_quiz_data,
    AdvancedQuizGenerator.parse_quiz_data_body.
  rewrite J. unfold absent_or, not_truthy.
  cbn [bind py_in py_getitem ret]. rewrite ?G.
  cbn [bind negb ret py_getitem]. rewrite ?G. cbn [bind ret]. rewrite Tq.
  cbn [bind negb ret py_getitem]. rewrite ?G. cbn [bind py_len ret]. rewrite L3.
  cbn [bind py_getitem ret]. rewrite ?G.
  cbn [bind py_len py_extend py_setitem ret].
  unfold AdvancedQuizGenerator._validate_quiz_structure.
  erewrite ensure_keep; [|apply dict_get_set_same|reflexivity].
  cbn [bind py_getitem ret]. rewrite dict_get_set_same. cbn [bind py_iter ret].
  rewrite for_enumerate_id.
  - cbn [bind store_back py_setitem ret]. rewrite dict_set_twice.
    match goal with
    | |- context [ensure (PDict ?d1) "related_topics" not_truthy ?x] =>
        destruct (ensure_topics_total d1 x) as (d' & E & K)
    end.
    rewrite E. cbn [try_except]. eexists. split; [reflexivity|].
    cbn [py_getitem]. rewrite K, dict_get_set_same. reflexivity.
  - intros j x Hx. apply in_app_or in Hx. destruct Hx as [Hx|Hx].
    + apply advanced_validate_question_id; revert x Hx; apply forallb_forall;
        assumption.
    + apply advanced_validate_question_id; revert x Hx; apply forallb_forall;
        apply firstn_all.
      * reflexivity.
      * apply base_questions_nonblank.
Qed.

(** ** A response with 2 questions *)

(** C7, at the failing input. Given a decoded response with 1 or 2 valid
    questions, both repairs keep them as they are, in front, and add
    fallback questions in fallback order (up to 3 in quiz_generator.py, up
    to 5 in main.py). But when the model answers valid JSON with exactly 2
    questions inside a [```json] fence, neither [generate_quiz] gets
    there. In quiz_generator.py [prompt_template.format] raises, and the
    result is the fallback quiz. In main.py [_clean_ai_response] keeps the
    text of the first question only, which has no "questions", and the
    result is the fallback quiz too. *)
Theorem two_question_response_falls_back :
  (forall d l,
      dict_get "questions" d = Some (PList l) ->
      1 <= List.length l -> List.length l < 3 ->
      forallb valid_question l = true ->
      exists v,
        QuizGenerator._validate_quiz_data (PDict d) = inr v
        /\ py_getitem v "questions"
           = inr (PList (l ++ firstn (3 - List.length l)
                                QuizGenerator.fallback_questions)))
  /\ (forall json_loads text title d l,
      json_loads text = Some (PDict d) ->
      dict_get "questions" d = Some (PList l) ->
      1 <= List.length l -> List.length l < 3 ->
      forallb valid_question l = true ->
      forallb nonblank_question l = true ->
      exists v,
        AdvancedQuizGenerator._parse_quiz_data json_loads text title = inr v
        /\ py_getitem v "questions"
           = inr (PList (l ++ firstn (5 - List.length l)
                                (AdvancedQuizGenerator.base_questions title))))
  /\ json_loads_subset two_question_json
     = Some (mk_quiz [parsed_question_1; parsed_question_2] ["Programming"])
  /\ QuizGenerator._clean_response two_question_response = two_question_json
  /\ QuizGenerator.generate_quiz json_loads_subset (Some "key")
       (fun _ => inr two_question_response) long_content
     = inr QuizGenerator._create_enhanced_fallback_quiz
  /\ AdvancedQuizGenerator._clean_ai_response two_question_response
     = model_question_1
  /\ AdvancedQuizGenerator.generate_quiz json_loads_subset (Some "key")
       (fun _ => inr two_question_response) long_content "Python"
     = inr (AdvancedQuizGenerator._generate_smart_fallback_quiz "Python")
  /\ firstn 2 (AdvancedQuizGenerator.base_questions "Python")
     <> [parsed_question_1; parsed_question_2]
  /\ firstn 2 QuizGenerator.fallback_questions
     <> [parsed_question_1; parsed_question_2].
Proof.
  split; [exact validate_quiz_data_backfills|].
  split; [exact parse_quiz_data_backfills|].
  repeat split; try (vm_compute; reflexivity); vm_compute; discriminate.
Qed.

Lemma two_question_response_falls_back_witness :
  (exists v,
      QuizGenerator._validate_quiz_data
        (mk_quiz [parsed_question_1; parsed_question_2] ["Programming"]) = inr v
      /\ py_getitem v "questions"
         = inr (PList ([parsed_question_1; parsed_question_2]
                       ++ firstn 1 QuizGenerator.fallback_questions)))
  /\ (exists v,
      AdvancedQuizGenerator._parse_quiz_data json_loads_subset two_question_json
        "Python" = inr v
      /\ py_getitem v "questions"
         = inr (PList ([parsed_question_1; parsed_question_2]
                       ++ firstn 3 (AdvancedQuizGenerator.base_questions "Python")))).
Proof.
  destruct two_question_response_falls_back as (H1 & H2 & _).
  pose (d := [("questions", PList [parsed_question_1; parsed_question_2]);
              ("related_topics", PList [PStr "Programming"])]).
  split.
  - apply (H1 d [parsed_question_1; parsed_question_2]);
      [reflexivity | simpl; lia | simpl; lia | reflexivity].
  - apply (H2 json_loads_subset two_question_json "Python" d
              [parsed_question_1; parsed_question_2]);
      [vm_compute; reflexivity | reflexivity | simpl; lia | simpl; lia
      | reflexivity | reflexivity].
Defined.

(** * Further properties *)

(** ** The scraper *)

Lemma lstrip_no_space : forall s, starts_with_space (lstrip s) = false.
Proof.
  induction s as [|c s IH]; simpl; [reflexivity|].
  destruct (py_isspace c) eqn:E; [exact IH | simpl; exact E].
Qed.

Lemma rstrip_no_space : forall s, ends_with_space (rstrip s) = false.
Proof.
  induction s as [|c s IH]; simpl; [reflexivity|].
  destruct (rstrip s) as [|c' r] eqn:R.
  - destruct (py_isspace c) eqn:E; simpl; [reflexivity | exact E].
  - simpl. simpl in IH. exact IH.
Qed.

Lemma rstrip_keeps_start : forall s,
  starts_with_space s = false -> starts_with_space (rstrip s) = false.
Proof.
  intros [|c s] H; simpl in *; [reflexivity|].
  destruct (rstrip s); [rewrite H|]; simpl; exact H.
Qed.

Lemma py_strip_trimmed : forall s, is_trimmed (py_strip s) = true.
Proof.
  intros s. unfold is_trimmed, py_strip.
  rewrite rstrip_keeps_start by apply lstrip_no_space.
  rewrite rstrip_no_space. reflexivity.
Qed.

Lemma lstrip_id : forall s, starts_with_space s = false -> lstrip s = s.
Proof.
  intros [|c s] H; simpl in *; [reflexivity | rewrite H; reflexivity].
Qed.

Lemma rstrip_id : forall s, ends_with_space s = false -> rstrip s = s.
Proof.
  induction s as [|c s IH]; intros H; simpl in *; [reflexivity|].
  destruct s as [|c' s'].
  - simpl. rewrite H. reflexivity.
  - rewrite (IH H). reflexivity.
Qed.

Lemma py_strip_id : forall s, is_trimmed s = true -> py_strip s = s.
Proof.
  intros s H. unfold is_trimmed in H. apply andb_prop in H. destruct H as [H1 H2].
  apply negb_true_iff in H1, H2. unfold py_strip.
  rewrite (lstrip_id s H1). apply rstrip_id. exact H2.
Qed.

(** X1. [scrape_article] has three outcomes: the invalid-URL error, and
    then no request is made (the result is the same whatever the session
    does); the fetch error, for a valid URL whose request fails; and, for
    a valid URL whose page is fetched, a record whose title is the
    extracted title, whose summary has at most 1000 characters, whose
    full_content has at most 8000, whose sections are at most 10 and whose
    key_entities are three empty lists. *)
Theorem scrape_article_outcomes :
  forall (session_get : string -> option soup) (url : string),
    match scrape_article session_get url with
    | inl InvalidURL =>
        _is_valid_wikipedia_url url = false
        /\ forall session_get', scrape_article session_get' url = inl InvalidURL
    | inl FetchError =>
        _is_valid_wikipedia_url url = true /\ session_get url = None
    | inr a =>
        _is_valid_wikipedia_url url = true
        /\ exists doc,
            session_get url = Some doc
            /\ title a = _extract_title doc
            /\ String.length (summary a) <= 1000
            /\ String.length (full_content a) <= 8000
            /\ List.length (sections a) <= 10
            /\ key_entities a
               = {| people := []; organizations := []; locations := [] |}
    end.
Proof.
  intros session_get url. unfold scrape_article.
  destruct (_is_valid_wikipedia_url url) eqn:V; simpl.
  - destruct (session_get url) as [doc|] eqn:F; [|split; reflexivity].
    split; [reflexivity|]. exists doc. simpl.
    repeat split.
    + unfold _extract_summary. destruct (main_content doc);
        [apply str_take_length | simpl; lia].
    + unfold _extract_full_content. destruct (main_content doc);
        [apply str_take_length | simpl; lia].
    + rewrite extract_sections_eq. apply firstn_le_length.
  - split; [reflexivity|]. intros session_get'. reflexivity.
Qed.

(** X2. The title and every section are trimmed texts: no white space in
    front, none at the end, and trimming them again changes nothing. The
    title is "Unknown Title" when the page has no [h1] of class
    [firstHeading]. *)
Theorem title_and_sections_are_trimmed : forall doc : soup,
  is_trimmed (_extract_title doc) = true
  /\ py_strip (_extract_title doc) = _extract_title doc
  /\ (forall t, In t (_extract_sections doc) ->
        is_trimmed t = true /\ py_strip t = t)
  /\ (find "h1" (has_class "firstHeading") (soup_descendants doc) = None ->
      _extract_title doc = "Unknown Title").
Proof.
  intros doc.
  assert (T : is_trimmed (_extract_title doc) = true).
  { unfold _extract_title.
    destruct (find "h1" _ _); [apply py_strip_trimmed | reflexivity]. }
  split; [exact T|]. split; [apply py_strip_id; exact T|]. split.
  - intros t H. rewrite extract_sections_eq in H.
    apply In_firstn in H. apply filter_In in H. destruct H as [H _].
    apply in_map_iff in H. destruct H as (h & <- & _).
    unfold trimmed_text. split; [apply py_strip_trimmed|].
    apply py_strip_id. apply py_strip_trimmed.
  - intros H. unfold _extract_title. rewrite H. reflexivity.
Qed.

Lemma title_and_sections_are_trimmed_witness :
  is_trimmed "History" = true /\ py_strip "History" = "History".
Proof.
  apply (proj1 (proj2 (proj2 (title_and_sections_are_trimmed
           [Elem "h2" [] [Text "  History "]]))) "History").
  vm_compute. left. reflexivity.
Defined.

Lemma decompose_all_eq : forall names t a cs,
  decompose_all names (Elem t a cs) = Elem t a (decompose_children names cs).
Proof.
  intros names t a cs. simpl. f_equal.
  induction cs as [|c cs IH]; simpl; [reflexivity|].
  destruct (is_named names c); rewrite IH; reflexivity.
Qed.

Lemma is_named_decompose : forall names n,
  is_named names (decompose_all names n) = is_named names n.
Proof.
  intros names [s|t a cs]; [reflexivity|]. rewrite decompose_all_eq. reflexivity.
Qed.

Lemma decompose_none_left : forall names n,
  none_named names (descendants (decompose_all names n)).
Proof.
  intros names n. induction n as [s|t a cs IH] using node_tree_ind.
  - intros x [].
  - rewrite decompose_all_eq. simpl.
    induction cs as [|c cs IHcs]; simpl; [intros x []|].
    inversion IH as [|? ? Hc Hcs]; subst.
    destruct (is_named names c) eqn:E; [apply IHcs; exact Hcs|].
    simpl. intros x [Hx|Hx].
    + subst x. rewrite is_named_decompose. exact E.
    + apply in_app_or in Hx. destruct Hx as [Hx|Hx];
        [apply Hc; exact Hx | apply IHcs; assumption].
Qed.

Lemma decompose_nothing : forall names n,
  none_named names (descendants n) -> decompose_all names n = n.
Proof.
  intros names n. induction n as [s|t a cs IH] using node_tree_ind; intros H.
  - reflexivity.
  - rewrite decompose_all_eq. f_equal. simpl in H.
    induction cs as [|c cs IHcs]; simpl; [reflexivity|].
    inversion IH as [|? ? Hc Hcs]; subst.
    assert (Ec : is_named names c = false) by (apply H; simpl; left; reflexivity).
    rewrite Ec. f_equal.
    + apply Hc. intros x Hx. apply H. simpl. right. apply in_or_app. left. exact Hx.
    + apply IHcs; [exact Hcs|].
      intros x Hx. apply H. simpl. right. apply in_or_app. right. exact Hx.
Qed.

(** X3. What [_extract_full_content] does to the content container: after
    the removal no tag named [table], [div.navbox] or [div.reflist] is left
    below it, so no paragraph of the result was inside a table; a container
    without such tags is left as it is, and then full_content is the joined
    text of all its paragraphs; and removing twice is removing once. *)
Theorem decompose_removes_every_table : forall (names : list string) (content : node),
  (forall x, In x (descendants (decompose_all names content)) ->
             is_named names x = false)
  /\ (none_named names (descendants content) ->
      decompose_all names content = content)
  /\ decompose_all names (decompose_all names content)
     = decompose_all names content
  /\ (forall doc,
        main_content doc = Some content ->
        none_named ["table"; "div.navbox"; "div.reflist"] (descendants content) ->
        _extract_full_content doc
        = str_take 8000
            (re_sub_empty citation_re
               (py_join " " (filter str_nonempty
                               (map trimmed_text (paragraphs_of content)))))).
Proof.
  intros names content. split; [apply decompose_none_left|].
  split; [apply decompose_nothing|]. split.
  - apply decompose_nothing. apply decompose_none_left.
  - intros doc C N. unfold _extract_full_content. rewrite C.
    rewrite (decompose_nothing _ _ N). rewrite joined_text_eq. reflexivity.
Qed.

Lemma decompose_removes_every_table_witness :
  is_named ["table"] (par "Body.") = false
  /\ decompose_all ["table"] (par "Body.") = par "Body.".
Proof.
  destruct (decompose_removes_every_table ["table"]
              (Elem "div" [] [Elem "table" [] [par "Cell."]; par "Body."]))
    as (H1 & _).
  destruct (decompose_removes_every_table ["table"] (par "Body.")) as (_ & H2 & _).
  split.
  - apply H1. vm_compute. left. reflexivity.
  - apply H2. intros x Hx. vm_compute in Hx.
    destruct Hx as [<-|[]]. reflexivity.
Defined.

(** ** Substitution and search with the patterns of the program *)

Section MatcherFacts.
Context {A : Type}.

Lemma star_loop_ext (r : regex)
  (IH : forall pos s (k k' : nat -> string -> option A),
      (forall p t, k p t = k' p t) -> rmatch r pos s k = rmatch r pos s k') :
  forall (k k' : nat -> string -> option A),
    (forall p t, k p t = k' p t) ->
    forall fuel pos s,
      star_loop (rmatch r) k fuel pos s = star_loop (rmatch r) k' fuel pos s.
Proof.
  intros k k' E. induction fuel as [|fuel IHf]; intros pos s; simpl; [apply E|].
  rewrite (IH pos s _
             (fun pos' s' => if String.length s' <? String.length s
                             then star_loop (rmatch r) k' fuel pos' s' else None)).
  - rewrite E. reflexivity.
  - intros p t. destruct (String.length t <? String.length s); [apply IHf | reflexivity].
Qed.

Lemma rmatch_ext : forall r pos s (k k' : nat -> string -> option A),
  (forall p t, k p t = k' p t) -> rmatch r pos s k = rmatch r pos s k'.
Proof.
  induction r as [| | |p|r1 IH1 r2 IH2|r1 IH1 r2 IH2|r IH];
    intros pos s k k' E; simpl; try rewrite E; try reflexivity.
  - destruct s as [|c s]; [reflexivity|]. rewrite E. reflexivity.
  - apply IH1. intros p t. apply IH2. exact E.
  - rewrite (IH1 pos s k k' E), (IH2 pos s k k' E). reflexivity.
  - apply star_loop_ext; assumption.
Qed.

(** A pattern without [^] matches the same way wherever the text stands in
    the subject: only the positions it reports move. *)
Lemma rmatch_shift : forall r, no_bol r = true ->
  forall d pos s (k : nat -> string -> option A),
    rmatch r (d + pos) s k = rmatch r pos s (fun e t => k (d + e) t).
Proof.
  induction r as [| | |p|r1 IH1 r2 IH2|r1 IH1 r2 IH2|r IH];
    intros N d pos s k; simpl in *; try reflexivity; try discriminate.
  - destruct s as [|c s]; [reflexivity|].
    rewrite Nat.add_succ_r. reflexivity.
  - apply andb_prop in N. destruct N as [N1 N2].
    rewrite (IH1 N1). apply rmatch_ext. intros p t. apply (IH2 N2).
  - apply andb_prop in N. destruct N as [N1 N2].
    rewrite (IH1 N1), (IH2 N2). reflexivity.
  - generalize (String.length s) as fuel. intros fuel. revert pos s.
    induction fuel as [|fuel IHf]; intros pos s; simpl; [reflexivity|].
    rewrite (IH N). 
    rewrite (rmatch_ext r pos s _
               (fun pos' s' => if String.length s' <? String.length s
                               then star_loop (rmatch r) (fun e t => k (d + e) t)
                                      fuel pos' s'
                               else None)).
    + reflexivity.
    + intros p t. destruct (String.length t <? String.length s);
        [apply IHf | reflexivity].
Qed.

(** The star of a character class takes all the characters of the class
    that it finds, up to one that is not in the class, when the
    continuation accepts what follows. *)
Lemma star_class_greedy : forall (p : ascii -> bool) (k : nat -> string -> option A) x u s fuel pos,
  str_forall p u = true ->
  head_is p s = false ->
  String.length (u ++ s) <= fuel ->
  k (pos + String.length u) s = Some x ->
  star_loop (rmatch (Chr p)) k fuel pos (u ++ s) = Some x.
Proof.
  intros p k x. induction u as [|c u IH]; intros s fuel pos Hu Hs Hf Hk; simpl in *.
  - rewrite Nat.add_0_r in Hk. destruct fuel as [|fuel]; simpl; [exact Hk|].
    destruct s as [|c s]; [exact Hk|].
    simpl in Hs. rewrite Hs. exact Hk.
  - apply andb_prop in Hu. destruct Hu as [Hc Hu].
    destruct fuel as [|fuel]; [lia|]. simpl. rewrite Hc.
    assert (L : (String.length (u ++ s) <? S (String.length (u ++ s))) = true)
      by (apply Nat.ltb_lt; lia).
    rewrite L. rewrite (IH s fuel (S pos) Hu Hs); [reflexivity | lia|].
    rewrite <- Hk. f_equal. lia.
Qed.

End MatcherFacts.

Lemma str_length_app : forall u v,
  String.length (u ++ v) = String.length u + String.length v.
Proof.
  induction u as [|c u IH]; intros v; simpl; [reflexivity | rewrite IH; reflexivity].
Qed.

Lemma str_app_assoc : forall u v w, (u ++ v) ++ w = u ++ (v ++ w).
Proof.
  induction u as [|c u IH]; intros v w; simpl; [reflexivity | rewrite IH; reflexivity].
Qed.

Lemma str_drop_app : forall u s, str_drop (String.length u) (u ++ s) = s.
Proof.
  induction u as [|c u IH]; intros s; simpl; [destruct s; reflexivity | apply IH].
Qed.

Lemma str_take_app : forall u s, str_take (String.length u) (u ++ s) = u.
Proof.
  induction u as [|c u IH]; intros s; simpl; [destruct s; reflexivity|].
  rewrite IH. reflexivity.
Qed.

Lemma str_drop_length : forall n s, String.length (str_drop n s) <= String.length s.
Proof.
  induction n as [|n IH]; intros s; simpl; [destruct s; simpl; lia|].
  destruct s as [|c s]; simpl; [lia|]. specialize (IH s). lia.
Qed.

Lemma rmatch_map {A B : Type} (f : A -> B) : forall r pos s (k : nat -> string -> option A),
  rmatch r pos s (fun e t => option_map f (k e t)) = option_map f (rmatch r pos s k).
Proof.
  induction r as [| | |p|r1 IH1 r2 IH2|r1 IH1 r2 IH2|r IH];
    intros pos s k; simpl; try reflexivity.
  - destruct (pos =? 0); reflexivity.
  - destruct (at_eol s); reflexivity.
  - destruct s as [|c s]; [reflexivity|]. destruct (p c); reflexivity.
  - rewrite <- IH1. apply rmatch_ext. intros p t. apply IH2.
  - rewrite IH1, IH2. destruct (rmatch r1 pos s k); reflexivity.
  - generalize (String.length s) as fuel. intros fuel. revert pos s.
    induction fuel as [|fuel IHf]; intros pos s; simpl; [reflexivity|].
    rewrite (rmatch_ext r pos s _
               (fun pos' s' =>
                  option_map f (if String.length s' <? String.length s
                                then star_loop (rmatch r) k fuel pos' s'
                                else None))).
    + rewrite IH. destruct (rmatch r pos s _); reflexivity.
    + intros p t. destruct (String.length t <? String.length s);
        [apply IHf | reflexivity].
Qed.

Lemma match_end_shift : forall r, no_bol r = true -> forall d pos s,
  rmatch r (d + pos) s (fun e _ => Some e)
  = option_map (Nat.add d) (rmatch r pos s (fun e _ => Some e)).
Proof.
  intros r N d pos s. rewrite (rmatch_shift r N).
  apply (rmatch_map (Nat.add d) r pos s (fun e _ => Some e)).
Qed.

(** [re.sub] with a pattern without [^] does not depend on where the scan
    is in the subject. *)
Lemma sub_from_shift : forall r, no_bol r = true -> forall fuel d pos s,
  sub_from r fuel (d + pos) s = sub_from r fuel pos s.
Proof.
  intros r N. induction fuel as [|fuel IH]; intros d pos s; simpl; [reflexivity|].
  destruct s as [|c s]; [reflexivity|].
  rewrite (match_end_shift r N).
  destruct (rmatch r pos (String c s) _) as [e|]; simpl.
  - replace (d + pos <? d + e) with (pos <? e)
      by (destruct (pos <? e) eqn:E1, (d + pos <? d + e) eqn:E2; try reflexivity;
          [apply Nat.ltb_lt in E1; apply Nat.ltb_ge in E2
          |apply Nat.ltb_ge in E1; apply Nat.ltb_lt in E2]; lia).
    destruct (pos <? e).
    + replace (d + e - (d + pos)) with (e - pos) by lia. apply IH.
    + f_equal. rewrite <- Nat.add_succ_r. apply IH.
  - f_equal. rewrite <- Nat.add_succ_r. apply IH.
Qed.

Lemma sub_from_fuel : forall r fuel fuel' pos s,
  String.length s <= fuel -> String.length s <= fuel' ->
  sub_from r fuel pos s = sub_from r fuel' pos s.
Proof.
  intros r. induction fuel as [|fuel IH]; intros fuel' pos s H H'.
  - destruct s; simpl in H; [|lia]. destruct fuel'; reflexivity.
  - destruct s as [|c s]; [destruct fuel'; reflexivity|].
    destruct fuel' as [|fuel']; simpl in H'; [lia|]. simpl in H. simpl.
    destruct (rmatch r pos (String c s) _) as [e|].
    + destruct (pos <? e) eqn:L.
      * apply Nat.ltb_lt in L.
        assert (D : String.length (str_drop (e - pos) (String c s)) <= String.length s).
        { destruct (e - pos) as [|n] eqn:En; [lia|]. simpl. apply str_drop_length. }
        apply IH; lia.
      * f_equal. apply IH; lia.
    + f_equal. apply IH; lia.
Qed.

Lemma sub_from_length : forall r fuel pos s,
  String.length (sub_from r fuel pos s) <= String.length s.
Proof.
  intros r. induction fuel as [|fuel IH]; intros pos s; simpl; [lia|].
  destruct s as [|c s]; [simpl; lia|].
  destruct (rmatch r pos (String c s) _) as [e|].
  - destruct (pos <? e) eqn:L.
    + etransitivity; [apply IH | apply str_drop_length].
    + simpl. specialize (IH (S pos) s). lia.
  - simpl. specialize (IH (S pos) s). lia.
Qed.

(** When the pattern does not match at the first character, [re.sub]
    copies it. *)
Lemma sub_copy : forall r, no_bol r = true -> forall c s,
  rmatch r 0 (String c s) (fun e _ => Some e) = None ->
  re_sub_empty r (String c s) = String c (re_sub_empty r s).
Proof.
  intros r N c s H. unfold re_sub_empty. simpl. rewrite H. f_equal.
  apply (sub_from_shift r N (String.length s) 1 0 s).
Qed.

(** When the pattern matches [u] at the start of [u ++ s], [u] not being
    empty, [re.sub] drops [u]. *)
Lemma sub_drop : forall r, no_bol r = true -> forall u s,
  u <> EmptyString ->
  rmatch r 0 (u ++ s) (fun e _ => Some e) = Some (String.length u) ->
  re_sub_empty r (u ++ s) = re_sub_empty r s.
Proof.
  intros r N u s Hu H. unfold re_sub_empty.
  destruct u as [|c u]; [congruence|].
  change (String c u ++ s) with (String c (u ++ s)) in *.
  cbn [String.length sub_from]. rewrite H.
  cbn [Nat.ltb Nat.leb]. rewrite Nat.sub_0_r.
  change (String c (u ++ s)) with (String c u ++ s).
  change (S (String.length u)) with (String.length (String c u)).
  rewrite str_drop_app.
  rewrite <- (Nat.add_0_r (String.length (String c u))).
  rewrite (sub_from_shift r N). apply sub_from_fuel; [|lia].
  rewrite str_length_app. lia.
Qed.

Lemma first_char_fails {A : Type} : forall c0 r c s pos (k : nat -> string -> option A),
  Ascii.eqb c0 c = false ->
  rmatch (Cat (Chr (is_char c0)) r) pos (String c s) k = None.
Proof.
  intros c0 r c s pos k H. cbn [rmatch]. unfold is_char. rewrite H. reflexivity.
Qed.

Lemma citation_at_front : forall d ds rest,
  py_isdigit d = true -> str_forall py_isdigit ds = true ->
  rmatch citation_re 0 (("[" ++ String d ds ++ "]") ++ rest) (fun e _ => Some e)
  = Some (String.length ("[" ++ String d ds ++ "]")).
Proof.
  intros d ds rest Hd Hds.
  replace (("[" ++ String d ds ++ "]") ++ rest)
    with (String "["%char (String d (ds ++ String "]"%char rest)))
    by (cbn [append]; rewrite str_app_assoc; reflexivity).
  unfold citation_re, Plus. cbn [rmatch].
  unfold is_char at 1. rewrite Ascii.eqb_refl, Hd.
  apply (star_class_greedy py_isdigit); [exact Hds | reflexivity | lia|].
  cbn [rmatch]. unfold is_char. rewrite Ascii.eqb_refl.
  cbn [append String.length]. rewrite str_length_app. simpl. f_equal. lia.
Qed.

(** X4. The removal of the citation markers ([re.sub] with [\[\d+\]]):
    the text never gets longer; a character other than ['['] is copied; a
    ['['] followed by a character that is not a digit is copied; a marker
    [[digits]] at the front is dropped; and a text without ['['] comes out
    as it is. *)
Theorem citation_removal_equations :
  (forall s, String.length (re_sub_empty citation_re s) <= String.length s)
  /\ (forall c s,
        c <> "["%char ->
        re_sub_empty citation_re (String c s)
        = String c (re_sub_empty citation_re s))
  /\ (forall s,
        head_is py_isdigit s = false ->
        re_sub_empty citation_re (String "["%char s)
        = String "["%char (re_sub_empty citation_re s))
  /\ (forall d ds rest,
        py_isdigit d = true -> str_forall py_isdigit ds = true ->
        re_sub_empty citation_re (("[" ++ String d ds ++ "]") ++ rest)
        = re_sub_empty citation_re rest)
  /\ (forall s,
        str_forall (not_char "["%char) s = true ->
        re_sub_empty citation_re s = s).
Proof.
  assert (Copy : forall c s, c <> "["%char ->
            re_sub_empty citation_re (String c s)
            = String c (re_sub_empty citation_re s)).
  { intros c s Hc. apply sub_copy; [reflexivity|].
    apply first_char_fails.
    destruct (Ascii.eqb "[" c) eqn:E; [|reflexivity].
    apply Ascii.eqb_eq in E. congruence. }
  split; [intros s; apply sub_from_length|].
  split; [exact Copy|]. split; [|split].
  - intros s H. apply sub_copy; [reflexivity|].
    unfold citation_re, Plus. cbn [rmatch]. unfold is_char at 1.
    rewrite Ascii.eqb_refl.
    destruct s as [|c s]; [reflexivity|]. simpl in H. rewrite H. reflexivity.
  - intros d ds rest Hd Hds. apply sub_drop; [reflexivity | discriminate|].
    apply citation_at_front; assumption.
  - induction s as [|c s IH]; intros H; [reflexivity|].
    simpl in H. apply andb_prop in H. destruct H as [Hc Hs].
    rewrite Copy, (IH Hs); [reflexivity|].
    intros ->. discriminate.
Qed.

Lemma citation_removal_equations_witness :
  re_sub_empty citation_re ("a" ++ (("[" ++ "12" ++ "]") ++ "b")) = "ab".
Proof.
  destruct citation_removal_equations as (_ & Copy & _ & Drop & Plain).
  change (re_sub_empty citation_re
            (String "a"%char (("[" ++ String "1"%char "2" ++ "]") ++ "b")) = "ab").
  rewrite (Copy "a"%char) by discriminate.
  rewrite (Drop "1"%char "2" "b") by reflexivity.
  rewrite (Plain "b") by reflexivity. reflexivity.
Defined.

(** ** Cleaning the response of the model *)

Lemma star_loop_step {A : Type} : forall step (k : nat -> string -> option A) fuel pos s,
  star_loop step k (S fuel) pos s
  = match step pos s
            (fun pos' s' => if String.length s' <? String.length s
                            then star_loop step k fuel pos' s' else None) with
    | Some x => Some x
    | None => k pos s
    end.
Proof. reflexivity. Qed.

Lemma rmatch_chr {A : Type} : forall p c s pos (k : nat -> string -> option A),
  rmatch (Chr p) pos (String c s) k = if p c then k (S pos) s else None.
Proof. reflexivity. Qed.

Lemma lit_first_fails {A : Type} : forall c0 w r c s pos (k : nat -> string -> option A),
  Ascii.eqb c0 c = false ->
  rmatch (Cat (lit (String c0 w)) r) pos (String c s) k = None.
Proof.
  intros c0 w r c s pos k H. cbn [rmatch lit]. rewrite H. reflexivity.
Qed.

Lemma not_char_eqb : forall c0 c, not_char c0 c = true -> Ascii.eqb c0 c = false.
Proof.
  intros c0 c H. unfold not_char in H. apply negb_true_iff in H. exact H.
Qed.

Lemma space_is_not : forall c0 c,
  py_isspace c0 = false -> py_isspace c = true -> not_char c0 c = true.
Proof.
  intros c0 c H0 H. unfold not_char. destruct (Ascii.eqb c0 c) eqn:E; [|reflexivity].
  apply Ascii.eqb_eq in E. subst c. congruence.
Qed.

Lemma spaces_are_not : forall c0 ws,
  py_isspace c0 = false -> str_forall py_isspace ws = true ->
  str_forall (not_char c0) ws = true.
Proof.
  intros c0 ws H0. induction ws as [|c ws IH]; intros H; simpl in *; [reflexivity|].
  apply andb_prop in H. destruct H as [Hc Hs].
  rewrite (space_is_not c0 c H0 Hc). apply IH. exact Hs.
Qed.

(** A text without a backtick goes through both removals of fences. *)
Lemma sub_copy_prefix : forall r c0 w r',
  r = Cat (lit (String c0 w)) r' -> no_bol r = true ->
  forall u s, str_forall (not_char c0) u = true ->
    re_sub_empty r (u ++ s) = u ++ re_sub_empty r s.
Proof.
  intros r c0 w r' -> N. induction u as [|c u IH]; intros s H; [reflexivity|].
  simpl in H. apply andb_prop in H. destruct H as [Hc Hu].
  change (String c u ++ s) with (String c (u ++ s)).
  rewrite sub_copy; [|exact N|apply lit_first_fails; apply not_char_eqb; exact Hc].
  rewrite (IH s Hu). reflexivity.
Qed.

Lemma fences_keep_plain_text : forall s,
  str_forall (not_char backtick) s = true ->
  re_sub_empty fence_json_re s = s /\ re_sub_empty fence_re s = s.
Proof.
  intros s H. split.
  - rewrite <- (str_app_nil_r s) at 1.
    rewrite (sub_copy_prefix fence_json_re backtick _ _ eq_refl eq_refl s _ H).
    apply str_app_nil_r.
  - rewrite <- (str_app_nil_r s) at 1.
    rewrite (sub_copy_prefix fence_re backtick _ _ eq_refl eq_refl s _ H).
    apply str_app_nil_r.
Qed.

(** After [.*] has run to the end of a text without ['}'], no closing
    brace is found on the way back. *)
Lemma no_close_found : forall t fuel pos,
  str_forall (not_char "}"%char) t = true ->
  star_loop (rmatch (Chr any_char))
    (fun pos' s' => rmatch (Chr (is_char "}"%char)) pos' s' (fun e _ => Some e))
    fuel pos t = None.
Proof.
  induction t as [|c t IH]; intros fuel pos H.
  - destruct fuel; reflexivity.
  - simpl in H. apply andb_prop in H. destruct H as [Hc Ht].
    apply not_char_eqb in Hc.
    destruct fuel as [|fuel].
    + cbn [star_loop]. rewrite rmatch_chr. unfold is_char. rewrite Hc. reflexivity.
    + rewrite star_loop_step, rmatch_chr. unfold any_char at 1.
      rewrite (IH fuel (S pos) Ht), rmatch_chr. unfold is_char. rewrite Hc.
      destruct (String.length t <? String.length (String c t)); reflexivity.
Qed.

(** [.*\}] ends at the last ['}']. *)
Lemma last_close_found : forall body suffix fuel pos,
  str_forall (not_char "}"%char) suffix = true ->
  String.length (body ++ String "}"%char suffix) <= fuel ->
  star_loop (rmatch (Chr any_char))
    (fun pos' s' => rmatch (Chr (is_char "}"%char)) pos' s' (fun e _ => Some e))
    fuel pos (body ++ String "}"%char suffix)
  = Some (pos + String.length body + 1).
Proof.
  induction body as [|c body IH]; intros suffix fuel pos Hs Hf.
  - cbn [append] in *. destruct fuel as [|fuel]; [simpl in Hf; lia|].
    rewrite star_loop_step, rmatch_chr. unfold any_char at 1.
    rewrite (no_close_found suffix fuel (S pos) Hs), rmatch_chr.
    unfold is_char. rewrite Ascii.eqb_refl.
    destruct (String.length suffix <? String.length (String "}"%char suffix));
      f_equal; simpl; lia.
  - cbn [append] in *. destruct fuel as [|fuel]; [simpl in Hf; lia|].
    rewrite star_loop_step, rmatch_chr. unfold any_char at 1.
    assert (L : (String.length (body ++ String "}"%char suffix)
                 <? String.length (String c (body ++ String "}"%char suffix))) = true)
      by (apply Nat.ltb_lt; simpl; lia).
    rewrite L. rewrite (IH suffix fuel (S pos) Hs) by (simpl in Hf; lia).
    f_equal. simpl. lia.
Qed.

Lemma braces_at_front : forall body suffix pos,
  str_forall (not_char "}"%char) suffix = true ->
  rmatch braces_re pos (String "{"%char (body ++ String "}"%char suffix))
    (fun e _ => Some e)
  = Some (pos + String.length body + 2).
Proof.
  intros body suffix pos Hs. unfold braces_re.
  change (rmatch (Cat (Chr (is_char "{"%char))
                      (Cat (Star (Chr any_char)) (Chr (is_char "}"%char))))
                 pos (String "{"%char (body ++ String "}"%char suffix))
                 (fun e _ => Some e))
    with (if is_char "{"%char "{"%char
          then star_loop (rmatch (Chr any_char))
                 (fun pos' s' =>
                    rmatch (Chr (is_char "}"%char)) pos' s' (fun e _ => Some e))
                 (String.length (body ++ String "}"%char suffix)) (S pos)
                 (body ++ String "}"%char suffix)
          else None).
  unfold is_char at 1. rewrite Ascii.eqb_refl.
  rewrite (last_close_found body suffix _ (S pos) Hs (Nat.le_refl _)).
  f_equal. lia.
Qed.

Lemma search_skips : forall c0 r u s pos,
  str_forall (not_char c0) u = true ->
  search_from (Cat (Chr (is_char c0)) r) pos (u ++ s)
  = search_from (Cat (Chr (is_char c0)) r) (pos + String.length u) s.
Proof.
  intros c0 r. induction u as [|c u IH]; intros s pos H.
  - simpl. rewrite Nat.add_0_r. reflexivity.
  - simpl in H. apply andb_prop in H. destruct H as [Hc Hu].
    change (String c u ++ s) with (String c (u ++ s)).
    cbn [search_from]. rewrite first_char_fails by (apply not_char_eqb; exact Hc).
    rewrite (IH s (S pos) Hu). f_equal. simpl. lia.
Qed.

Lemma search_finds_nothing : forall c0 r s pos,
  str_forall (not_char c0) s = true ->
  search_from (Cat (Chr (is_char c0)) r) pos s = None.
Proof.
  intros c0 r. induction s as [|c s IH]; intros pos H.
  - reflexivity.
  - simpl in H. apply andb_prop in H. destruct H as [Hc Hs].
    cbn [search_from]. rewrite first_char_fails by (apply not_char_eqb; exact Hc).
    apply IH. exact Hs.
Qed.

(** The widest span of braces. *)
Lemma braces_span : forall prefix body suffix,
  str_forall (not_char "{"%char) prefix = true ->
  str_forall (not_char "}"%char) suffix = true ->
  let text := prefix ++ String "{"%char (body ++ String "}"%char suffix) in
  exists m, re_search braces_re text = Some m
            /\ group text m = String "{"%char (body ++ "}").
Proof.
  intros prefix body suffix Hp Hs text. unfold re_search, text.
  unfold braces_re at 1. rewrite search_skips by exact Hp.
  fold braces_re. cbn [search_from]. rewrite braces_at_front by exact Hs.
  eexists. split; [reflexivity|]. unfold group. cbn [fst snd].
  rewrite Nat.add_0_l, str_drop_app.
  replace (String.length prefix + String.length body + 2 - String.length prefix)
    with (String.length (String "{"%char (body ++ "}")))
    by (simpl; rewrite str_length_app; simpl; lia).
  replace (String "{"%char (body ++ String "}"%char suffix))
    with (String "{"%char (body ++ "}") ++ suffix)
    by (cbn [append]; rewrite str_app_assoc; reflexivity).
  apply str_take_app.
Qed.

Lemma rmatch_lit_front {A : Type} : forall w r s pos (k : nat -> string -> option A),
  rmatch (Cat (lit w) r) pos (w ++ s) k = rmatch r (pos + String.length w) s k.
Proof.
  induction w as [|c w IH]; intros r s pos k.
  - simpl. rewrite Nat.add_0_r. reflexivity.
  - specialize (IH r s (S pos) k). cbn [rmatch lit append] in *.
    rewrite Ascii.eqb_refl. rewrite IH. f_equal. simpl. lia.
Qed.

(** A fence and the white space after it, in front of a text that does
    not start with white space, is one match of the fence pattern. *)
Lemma fence_at_front : forall w ws rest,
  str_forall py_isspace ws = true -> head_is py_isspace rest = false ->
  rmatch (Cat (lit w) (Star (Chr py_isspace))) 0 ((w ++ ws) ++ rest)
    (fun e _ => Some e)
  = Some (String.length (w ++ ws)).
Proof.
  intros w ws rest Hws Hrest. rewrite str_app_assoc, rmatch_lit_front.
  cbn [rmatch]. apply star_class_greedy; [exact Hws | exact Hrest | lia|].
  rewrite str_length_app. f_equal.
Qed.

Lemma str_forall_app_intro : forall p u v,
  str_forall p u = true -> str_forall p v = true -> str_forall p (u ++ v) = true.
Proof.
  intros p u v Hu Hv. rewrite str_forall_app, Hu, Hv. reflexivity.
Qed.

(** X5. [_clean_response] of quiz_generator.py. A text without backtick in
    which a brace opens is cut to the span from the first ['{'] to the last
    ['}'], whatever stands before and after; a text without backtick and
    without ['{'] is only trimmed; and a JSON object between a [```json]
    fence and a closing fence, with any white space after the opening fence
    and before the closing one, comes out alone. *)
Theorem clean_response_unwraps :
  (forall prefix body suffix,
      str_forall (not_char backtick) (prefix ++ String "{"%char (body ++ String "}"%char suffix)) = true ->
      str_forall (not_char "{"%char) prefix = true ->
      str_forall (not_char "}"%char) suffix = true ->
      QuizGenerator._clean_response
        (prefix ++ String "{"%char (body ++ String "}"%char suffix))
      = String "{"%char (body ++ "}"))
  /\ (forall text,
        str_forall (not_char backtick) text = true ->
        str_forall (not_char "{"%char) text = true ->
        QuizGenerator._clean_response text = py_strip text)
  /\ (forall ws1 body ws2,
        str_forall py_isspace ws1 = true ->
        str_forall py_isspace ws2 = true ->
        str_forall (not_char backtick) body = true ->
        QuizGenerator._clean_response
          (("```json" ++ ws1) ++ (String "{"%char (body ++ "}") ++ ws2) ++ "```")
        = String "{"%char (body ++ "}")).
Proof.
  split; [|split].
  - intros prefix body suffix Hb Hp Hs. unfold QuizGenerator._clean_response.
    destruct (fences_keep_plain_text _ Hb) as [-> ->].
    destruct (braces_span prefix body suffix Hp Hs) as (m & -> & G). exact G.
  - intros text Hb Hn. unfold QuizGenerator._clean_response.
    destruct (fences_keep_plain_text _ Hb) as [-> ->].
    unfold re_search, braces_re. rewrite search_finds_nothing by exact Hn.
    reflexivity.
  - intros ws1 body ws2 H1 H2 Hbody. unfold QuizGenerator._clean_response.
    assert (Hplain : str_forall (not_char backtick)
                       (String "{"%char (body ++ "}") ++ ws2) = true).
    { apply str_forall_app_intro; [|apply spaces_are_not; [reflexivity | exact H2]].
      simpl. apply str_forall_app_intro; [exact Hbody | reflexivity]. }
    rewrite (sub_drop fence_json_re eq_refl ("```json" ++ ws1));
      [|discriminate|apply fence_at_front; [exact H1 | reflexivity]].
    rewrite (sub_copy_prefix fence_json_re backtick _ _ eq_refl eq_refl _ _ Hplain).
    replace (re_sub_empty fence_json_re "```") with "```" by (vm_compute; reflexivity).
    rewrite (sub_copy_prefix fence_re backtick _ _ eq_refl eq_refl _ _ Hplain).
    replace (re_sub_empty fence_re "```") with EmptyString by (vm_compute; reflexivity).
    rewrite str_app_nil_r.
    replace (String "{"%char (body ++ "}") ++ ws2)
      with (EmptyString ++ String "{"%char (body ++ String "}"%char ws2))
      by (cbn [append]; rewrite str_app_assoc; reflexivity).
    destruct (braces_span EmptyString body ws2 eq_refl
                (spaces_are_not "}"%char ws2 eq_refl H2)) as (m & -> & G).
    exact G.
Qed.

Lemma clean_response_unwraps_witness :
  QuizGenerator._clean_response
    (("```json" ++ nl) ++ (String "{"%char ("'a': {'b': 1}" ++ "}") ++ nl) ++ "```")
  = String "{"%char ("'a': {'b': 1}" ++ "}")
  /\ QuizGenerator._clean_response "  no json here "
     = py_strip "  no json here "
  /\ QuizGenerator._clean_response
       ("Here: " ++ String "{"%char ("'a': 1" ++ String "}"%char " done"))
     = String "{"%char ("'a': 1" ++ "}").
Proof.
  destruct clean_response_unwraps as (H1 & H2 & H3).
  split; [|split].
  - apply H3; reflexivity.
  - apply H2; reflexivity.
  - apply H1; reflexivity.
Defined.

Lemma rmatch_cat {A : Type} : forall r1 r2 pos s (k : nat -> string -> option A),
  rmatch (Cat r1 r2) pos s k = rmatch r1 pos s (fun p t => rmatch r2 p t k).
Proof. reflexivity. Qed.

Lemma rmatch_star {A : Type} : forall r pos s (k : nat -> string -> option A),
  rmatch (Star r) pos s k = star_loop (rmatch r) k (String.length s) pos s.
Proof. reflexivity. Qed.

(** The star of a character class fails when the continuation refuses
    every place where the star can stop. *)
Lemma star_class_fail {A : Type} : forall (p : ascii -> bool) (k : nat -> string -> option A) u s fuel pos,
  str_forall p u = true ->
  head_is p s = false ->
  (forall u1 u2, u = u1 ++ u2 -> k (pos + String.length u1) (u2 ++ s) = None) ->
  star_loop (rmatch (Chr p)) k fuel pos (u ++ s) = None.
Proof.
  intros p k. induction u as [|c u IH]; intros s fuel pos Hu Hs Hk.
  - assert (K0 : k pos s = None).
    { specialize (Hk EmptyString EmptyString eq_refl).
      simpl in Hk. rewrite Nat.add_0_r in Hk. exact Hk. }
    cbn [append]. destruct fuel as [|fuel]; [exact K0|].
    rewrite star_loop_step. destruct s as [|c s]; [exact K0|].
    rewrite rmatch_chr. simpl in Hs. rewrite Hs. exact K0.
  - assert (K0 : k pos (String c u ++ s) = None).
    { specialize (Hk EmptyString (String c u) eq_refl).
      simpl in Hk. rewrite Nat.add_0_r in Hk. exact Hk. }
    simpl in Hu. apply andb_prop in Hu. destruct Hu as [Hc Hu].
    destruct fuel as [|fuel]; [exact K0|].
    cbn [append] in *. rewrite star_loop_step, rmatch_chr, Hc.
    rewrite (IH s fuel (S pos) Hu Hs).
    + destruct (String.length (u ++ s) <? String.length (String c (u ++ s)));
        exact K0.
    + intros u1 u2 E.
      replace (S pos + String.length u1)
        with (pos + String.length (String c u1)) by (simpl; lia).
      apply Hk. rewrite E. reflexivity.
Qed.

Lemma not_brace_open : forall c, not_brace c = true -> Ascii.eqb "{" c = false.
Proof.
  intros c H. unfold not_brace in H. apply negb_true_iff in H.
  apply orb_false_iff in H. destruct H as [H _].
  rewrite Ascii.eqb_sym. exact H.
Qed.

Lemma not_brace_close : forall c, not_brace c = true -> Ascii.eqb "}" c = false.
Proof.
  intros c H. unfold not_brace in H. apply negb_true_iff in H.
  apply orb_false_iff in H. destruct H as [_ H].
  rewrite Ascii.eqb_sym. exact H.
Qed.

Lemma brace_free_no_open : forall u,
  str_forall not_brace u = true -> str_forall (not_char "{"%char) u = true.
Proof.
  induction u as [|c u IH]; intros H; simpl in *; [reflexivity|].
  apply andb_prop in H. destruct H as [Hc Hu].
  unfold not_char at 1. rewrite (not_brace_open c Hc). apply IH. exact Hu.
Qed.

(** What is refused after a run of characters that are not braces: a
    continuation that wants the brace [want], when the run is followed by
    the other brace. *)
Lemma wrong_brace_after_run {A : Type} : forall want other u rest r pos fuel (k : nat -> string -> option A),
  str_forall not_brace u = true ->
  (forall c, not_brace c = true -> Ascii.eqb want c = false) ->
  not_brace other = false -> Ascii.eqb want other = false ->
  star_loop (rmatch (Chr not_brace))
    (fun p t => rmatch (Cat (Chr (is_char want)) r) p t k)
    fuel pos (u ++ String other rest) = None.
Proof.
  intros want other u rest r pos fuel k Hu Hwant Hother Hne.
  apply star_class_fail; [exact Hu | exact Hother|].
  intros u1 u2 E. destruct u2 as [|c u2].
  - cbn [append]. apply first_char_fails. exact Hne.
  - cbn [append]. apply first_char_fails. apply Hwant.
    rewrite E, str_forall_app in Hu. apply andb_prop in Hu. destruct Hu as [_ Hu].
    simpl in Hu. apply andb_prop in Hu. destruct Hu as [Hc _]. exact Hc.
Qed.

(** At a brace that opens an object whose first inner brace opens an
    object with a further object inside, the nested pattern does not
    match. *)
Lemma nested_fails_at_outer : forall p1 b rest pos,
  str_forall not_brace p1 = true -> str_forall not_brace b = true ->
  rmatch nested_re pos
    (String "{"%char (p1 ++ String "{"%char (b ++ String "{"%char rest)))
    (fun e _ => Some e) = None.
Proof.
  intros p1 b rest pos H1 Hb. unfold nested_re.
  rewrite rmatch_cat, rmatch_chr. unfold is_char at 1. rewrite Ascii.eqb_refl.
  rewrite rmatch_cat, rmatch_star.
  apply star_class_fail; [exact H1 | reflexivity|].
  intros u1 u2 E. destruct u2 as [|c u2]; cbn [append].
  - rewrite rmatch_cat, rmatch_chr. unfold is_char at 1. rewrite Ascii.eqb_refl.
    rewrite rmatch_cat, rmatch_star.
    apply (wrong_brace_after_run "}"%char "{"%char b rest);
      [exact Hb | exact not_brace_close | reflexivity | reflexivity].
  - apply first_char_fails. apply not_brace_open.
    rewrite E, str_forall_app in H1. apply andb_prop in H1. destruct H1 as [_ H1].
    simpl in H1. apply andb_prop in H1. destruct H1 as [Hc _]. exact Hc.
Qed.

(** An object with one object inside and no other brace is a match of the
    nested pattern. *)
Lemma nested_at_front : forall b c d rest pos,
  str_forall not_brace b = true -> str_forall not_brace c = true ->
  str_forall not_brace d = true ->
  rmatch nested_re pos
    (String "{"%char (b ++ String "{"%char (c ++ String "}"%char (d ++ String "}"%char rest))))
    (fun e _ => Some e)
  = Some (pos + String.length b + String.length c + String.length d + 4).
Proof.
  intros b c d rest pos Hb Hc Hd. unfold nested_re.
  rewrite rmatch_cat, rmatch_chr. unfold is_char at 1. rewrite Ascii.eqb_refl.
  rewrite rmatch_cat, rmatch_star.
  apply star_class_greedy; [exact Hb | reflexivity | lia|].
  rewrite rmatch_cat, rmatch_chr. unfold is_char at 1. rewrite Ascii.eqb_refl.
  rewrite rmatch_cat, rmatch_star.
  apply star_class_greedy; [exact Hc | reflexivity | lia|].
  rewrite rmatch_cat, rmatch_chr. unfold is_char at 1. rewrite Ascii.eqb_refl.
  rewrite rmatch_cat, rmatch_star.
  apply star_class_greedy; [exact Hd | reflexivity | lia|].
  rewrite rmatch_chr. unfold is_char. rewrite Ascii.eqb_refl. f_equal. lia.
Qed.

Lemma inner_object_app : forall b c d rest,
  inner_object b c d ++ rest
  = String "{"%char (b ++ String "{"%char (c ++ String "}"%char (d ++ String "}"%char rest))).
Proof.
  intros b c d rest. unfold inner_object. cbn [append].
  rewrite str_app_assoc. cbn [append]. rewrite str_app_assoc. cbn [append].
  rewrite str_app_assoc. reflexivity.
Qed.

Lemma inner_object_length : forall b c d,
  String.length (inner_object b c d)
  = String.length b + String.length c + String.length d + 4.
Proof.
  intros b c d. unfold inner_object. simpl.
  rewrite str_length_app. simpl. rewrite str_length_app. simpl.
  rewrite str_length_app. simpl. lia.
Qed.

Lemma group_of_span : forall u q rest,
  group (u ++ q ++ rest) (String.length u, String.length u + String.length q) = q.
Proof.
  intros u q rest. unfold group. cbn [fst snd].
  rewrite str_drop_app.
  replace (String.length u + String.length q - String.length u)
    with (String.length q) by lia.
  apply str_take_app.
Qed.

Lemma search_nested_inner : forall u b c d rest pos,
  str_forall (not_char "{"%char) u = true ->
  str_forall not_brace b = true -> str_forall not_brace c = true ->
  str_forall not_brace d = true ->
  search_from nested_re pos (u ++ inner_object b c d ++ rest)
  = Some (pos + String.length u,
          pos + String.length u + String.length (inner_object b c d)).
Proof.
  intros u b c d rest pos Hu Hb Hc Hd.
  unfold nested_re at 1. rewrite search_skips by exact Hu. fold nested_re.
  rewrite inner_object_app. cbn [search_from].
  rewrite nested_at_front by assumption.
  rewrite inner_object_length. f_equal. f_equal. lia.
Qed.

Lemma clean_ai_response_keeps_inner_object_lemma :
  forall p0 p1 b c d rest,
    str_forall not_brace p0 = true -> str_forall not_brace p1 = true ->
    str_forall not_brace b = true -> str_forall not_brace c = true ->
    str_forall not_brace d = true ->
    (let text := p0 ++ inner_object b c d ++ rest in
     str_forall (not_char backtick) text = true -> is_trimmed text = true ->
     AdvancedQuizGenerator._clean_ai_response text = inner_object b c d)
    /\ (let text := (p0 ++ String "{"%char p1) ++ inner_object b c d ++ rest in
        str_forall (not_char backtick) text = true -> is_trimmed text = true ->
        AdvancedQuizGenerator._clean_ai_response text = inner_object b c d).
Proof.
  intros p0 p1 b c d rest H0 H1 Hb Hc Hd. split; intros text Hbt Htrim.
  - unfold AdvancedQuizGenerator._clean_ai_response.
    destruct (fences_keep_plain_text _ Hbt) as [-> ->].
    rewrite (py_strip_id _ Htrim). unfold re_search, text.
    rewrite search_nested_inner
      by (try assumption; apply brace_free_no_open; exact H0).
    apply group_of_span.
  - unfold AdvancedQuizGenerator._clean_ai_response.
    destruct (fences_keep_plain_text _ Hbt) as [-> ->].
    rewrite (py_strip_id _ Htrim). unfold re_search, text.
    rewrite str_app_assoc.
    unfold nested_re at 1.
    rewrite search_skips by (apply brace_free_no_open; exact H0).
    fold nested_re. cbn [append search_from].
    rewrite inner_object_app.
    rewrite nested_fails_at_outer by assumption.
    rewrite <- inner_object_app.
    rewrite search_nested_inner
      by (try assumption; apply brace_free_no_open; exact H1).
    replace (p0 ++ String "{"%char (p1 ++ inner_object b c d ++ rest))
      with ((p0 ++ String "{"%char p1) ++ inner_object b c d ++ rest)
      by (rewrite str_app_assoc; reflexivity).
    replace (S (0 + String.length p0) + String.length p1)
      with (String.length (p0 ++ String "{"%char p1))
      by (rewrite str_length_app; simpl; lia).
    apply group_of_span.
Qed.

(** X6. [_clean_ai_response] of main.py, on a text without backtick that
    is trimmed: when the first brace of the text, or the first brace
    inside the object that the text opens, starts an object [{b{c}d}] with
    exactly one object inside, the result is the text of that inner
    object, whatever follows. So of [{"questions": [{... "options": {...}
    ...}, ...]}] only the first question is kept. *)
Theorem clean_ai_response_keeps_inner_object :
  forall p0 p1 b c d rest,
    str_forall not_brace p0 = true -> str_forall not_brace p1 = true ->
    str_forall not_brace b = true -> str_forall not_brace c = true ->
    str_forall not_brace d = true ->
    (let text := p0 ++ inner_object b c d ++ rest in
     str_forall (not_char backtick) text = true -> is_trimmed text = true ->
     AdvancedQuizGenerator._clean_ai_response text = inner_object b c d)
    /\ (let text := (p0 ++ String "{"%char p1) ++ inner_object b c d ++ rest in
        str_forall (not_char backtick) text = true -> is_trimmed text = true ->
        AdvancedQuizGenerator._clean_ai_response text = inner_object b c d).
Proof.
  exact clean_ai_response_keeps_inner_object_lemma.
Qed.

Lemma clean_ai_response_keeps_inner_object_witness :
  AdvancedQuizGenerator._clean_ai_response
    (("" ++ String "{"%char "'questions': [")
       ++ inner_object "'question': 'Q', 'options': " "'A': 'a'" ", 'correct_answer': 'A'"
       ++ "]}")
  = inner_object "'question': 'Q', 'options': " "'A': 'a'" ", 'correct_answer': 'A'".
Proof.
  apply (proj2 (clean_ai_response_keeps_inner_object "" "'questions': ["
                  "'question': 'Q', 'options': " "'A': 'a'" ", 'correct_answer': 'A'"
                  "]}" eq_refl eq_refl eq_refl eq_refl eq_refl));
    reflexivity.
Defined.

(** ** The gates of [generate_quiz] *)

Lemma str_take_take : forall n m s, n <= m -> str_take n (str_take m s) = str_take n s.
Proof.
  induction n as [|n IH]; intros m s H; [reflexivity|].
  destruct m as [|m]; [lia|]. destruct s as [|c s]; [reflexivity|].
  simpl. rewrite IH by lia. reflexivity.
Qed.

(** X7. In main.py, a response in the format that the prompt asks for
    never reaches the repair: when the model returns a trimmed text
    without backtick whose outer object opens on a first object
    [{b{c}d}] (a question with its options), and that inner object decodes
    to a dict without "questions" or does not decode, [generate_quiz]
    returns the fallback quiz. *)
Theorem generate_quiz_falls_back_on_nested_response :
  forall (json_loads : string -> option pyval) (api_key : option string)
         (generate_content : string -> result string) (content title : string)
         (p0 p1 b c d rest : string),
    let text := (p0 ++ String "{"%char p1) ++ inner_object b c d ++ rest in
    str_forall not_brace p0 = true -> str_forall not_brace p1 = true ->
    str_forall not_brace b = true -> str_forall not_brace c = true ->
    str_forall not_brace d = true ->
    str_forall (not_char backtick) text = true -> is_trimmed text = true ->
    generate_content
      (AdvancedQuizGenerator._create_smart_prompt (str_take 5000 content) title)
    = inr text ->
    match json_loads (inner_object b c d) with
    | Some (PDict question) => dict_get "questions" question = None
    | Some _ => False
    | None => True
    end ->
    AdvancedQuizGenerator._clean_ai_response text = inner_object b c d
    /\ AdvancedQuizGenerator._parse_quiz_data json_loads (inner_object b c d) title
       = inr (AdvancedQuizGenerator._generate_smart_fallback_quiz title)
    /\ AdvancedQuizGenerator.generate_quiz json_loads api_key generate_content
         content title
       = inr (AdvancedQuizGenerator._generate_smart_fallback_quiz title).
Proof.
  intros json_loads api_key generate_content content title p0 p1 b c d rest text
         H0 H1 Hb Hc Hd Hbt Htrim Hmodel Hjson.
  assert (Clean : AdvancedQuizGenerator._clean_ai_response text = inner_object b c d).
  { apply (proj2 (clean_ai_response_keeps_inner_object_lemma p0 p1 b c d rest
                    H0 H1 Hb Hc Hd)); assumption. }
  assert (Parse : AdvancedQuizGenerator._parse_quiz_data json_loads
                    (inner_object b c d) title
                  = inr (AdvancedQuizGenerator._generate_smart_fallback_quiz title)).
  { unfold AdvancedQuizGenerator._parse_quiz_data,
      AdvancedQuizGenerator.parse_quiz_data_body.
    destruct (json_loads (inner_object b c d)) as [[| | | | | |question]|];
      try contradiction; [|reflexivity].
    unfold absent_or. cbn [bind ret py_in]. rewrite Hjson. reflexivity. }
  split; [exact Clean|]. split; [exact Parse|].
  unfold AdvancedQuizGenerator.generate_quiz, AdvancedQuizGenerator.generate_quiz_body.
  destruct (negb (AdvancedQuizGenerator.has_key api_key)); [reflexivity|].
  destruct (negb (str_nonempty content) || _); [reflexivity|].
  rewrite Hmodel. cbn [bind]. rewrite Clean, Parse. reflexivity.
Qed.

Lemma generate_quiz_falls_back_on_nested_response_witness :
  AdvancedQuizGenerator.generate_quiz json_loads_subset (Some "key")
    (fun _ => inr (("" ++ String "{"%char (sq "'questions': ["))
                   ++ inner_object (sq "'question': 'Q?', 'options': ")
                        (sq "'A': 'a', 'B': 'b', 'C': 'c', 'D': 'd'")
                        (sq ", 'correct_answer': 'A', 'explanation': 'e', 'difficulty': 'easy'")
                   ++ sq "], 'related_topics': ['T']}"))
    long_content "Python"
  = inr (AdvancedQuizGenerator._generate_smart_fallback_quiz "Python").
Proof.
  apply (generate_quiz_falls_back_on_nested_response json_loads_subset (Some "key")
           _ long_content "Python" "" (sq "'questions': [")
           (sq "'question': 'Q?', 'options': ")
           (sq "'A': 'a', 'B': 'b', 'C': 'c', 'D': 'd'")
           (sq ", 'correct_answer': 'A', 'explanation': 'e', 'difficulty': 'easy'")
           (sq "], 'related_topics': ['T']}"));
    reflexivity.
Defined.

(** X8. [generate_quiz] of quiz_generator.py never calls the model:
    formatting the prompt raises [KeyError] for every article text, so
    with or without API key, for every content, decoder and model, the
    result is the fallback quiz. *)
Theorem quiz_generator_never_calls_model :
  (forall text : string,
      py_format QuizGenerator.prompt_template [("article_text", text)]
      = inl KeyError)
  /\ (forall json_loads api_key generate_content content,
        QuizGenerator.generate_quiz json_loads api_key generate_content content
        = inr QuizGenerator._create_enhanced_fallback_quiz)
  /\ (forall json_loads json_loads' api_key generate_content generate_content'
             content,
        QuizGenerator.generate_quiz json_loads api_key generate_content content
        = QuizGenerator.generate_quiz json_loads' api_key generate_content' content).
Proof.
  split; [exact prompt_format_raises|]. split.
  - intros. apply generate_quiz_is_fallback.
  - intros. rewrite !generate_quiz_is_fallback. reflexivity.
Qed.

(** X9. The gates of [generate_quiz] of main.py: without API key (none, or
    the empty string), with an empty content, or with a content of fewer
    than 100 characters once trimmed, the result is the fallback quiz and
    the model is not called: whatever the model would do changes nothing. *)
Theorem generate_quiz_gates :
  forall (json_loads : string -> option pyval) (api_key : option string)
         (generate_content : string -> result string) (content title : string),
    api_key = None \/ api_key = Some EmptyString
    \/ content = EmptyString \/ String.length (py_strip content) < 100 ->
    AdvancedQuizGenerator.generate_quiz json_loads api_key generate_content
      content title
    = inr (AdvancedQuizGenerator._generate_smart_fallback_quiz title)
    /\ forall generate_content',
        AdvancedQuizGenerator.generate_quiz json_loads api_key generate_content'
          content title
        = AdvancedQuizGenerator.generate_quiz json_loads api_key generate_content
            content title.
Proof.
  intros json_loads api_key generate_content content title H.
  assert (G : forall gc,
             AdvancedQuizGenerator.generate_quiz json_loads api_key gc content title
             = inr (AdvancedQuizGenerator._generate_smart_fallback_quiz title)).
  { intros gc.
    unfold AdvancedQuizGenerator.generate_quiz, AdvancedQuizGenerator.generate_quiz_body.
    destruct H as [-> | [-> | [-> | H]]]; try reflexivity.
    - destruct (negb (AdvancedQuizGenerator.has_key api_key)); reflexivity.
    - destruct (negb (AdvancedQuizGenerator.has_key api_key)); [reflexivity|].
      apply Nat.ltb_lt in H. rewrite H, orb_true_r. reflexivity. }
  split; [apply G|]. intros gc'. rewrite !G. reflexivity.
Qed.

Lemma generate_quiz_gates_witness :
  AdvancedQuizGenerator.generate_quiz json_loads_subset (Some "key")
    (fun _ => inr two_question_response) "   too short   " "Python"
  = inr (AdvancedQuizGenerator._generate_smart_fallback_quiz "Python").
Proof.
  apply (generate_quiz_gates json_loads_subset (Some "key")
           (fun _ => inr two_question_response) "   too short   " "Python").
  right. right. right. vm_compute. lia.
Defined.

(** X10. The model sees the title and the first 4000 characters of the
    content only: the cut at 5000 characters made by [generate_quiz] does
    not change the prompt, and two contents with the same first 4000
    characters give the same prompt. *)
Theorem prompt_uses_first_4000_characters : forall (content title : string),
  AdvancedQuizGenerator._create_smart_prompt (str_take 5000 content) title
  = AdvancedQuizGenerator._create_smart_prompt content title
  /\ forall content',
      str_take 4000 content = str_take 4000 content' ->
      AdvancedQuizGenerator._create_smart_prompt content title
      = AdvancedQuizGenerator._create_smart_prompt content' title.
Proof.
  intros content title. split.
  - unfold AdvancedQuizGenerator._create_smart_prompt.
    rewrite str_take_take; [reflexivity|].
    apply Nat.leb_le. vm_compute. reflexivity.
  - intros content' H. unfold AdvancedQuizGenerator._create_smart_prompt.
    rewrite H. reflexivity.
Qed.

Lemma prompt_uses_first_4000_characters_witness :
  AdvancedQuizGenerator._create_smart_prompt "abc" "Python"
  = AdvancedQuizGenerator._create_smart_prompt "abc" "Python".
Proof.
  apply (proj2 (prompt_uses_first_4000_characters "abc" "Python") "abc").
  reflexivity.
Defined.

(** ** The repair of one question *)

Lemma ensure_cases : forall d key bad x,
  ensure (PDict d) key bad x
  = match dict_get key d with
    | None => inr (PDict (dict_set key x d))
    | Some y =>
        match bad y with
        | inl e => inl e
        | inr true => inr (PDict (dict_set key x d))
        | inr false => inr (PDict d)
        end
    end.
Proof.
  intros d key bad x. unfold ensure, absent_or. cbn [py_in bind ret].
  destruct (dict_get key d) as [y|] eqn:G; cbn [negb bind ret py_getitem py_setitem].
  - rewrite G. cbn [bind ret]. destruct (bad y) as [e|[|]]; reflexivity.
  - reflexivity.
Qed.

(** One conditional assignment: the other keys keep their values; a value
    that passes the test stays; and the key has a value afterwards. *)
Lemma ensure_facts : forall (ok : pyval -> bool) d key bad x v',
  ensure (PDict d) key bad x = inr v' ->
  (forall y, ok y = true -> bad y = inr false) ->
  exists d', v' = PDict d'
    /\ (forall k, k <> key -> dict_get k d' = dict_get k d)
    /\ (forall y, dict_get key d = Some y -> ok y = true -> dict_get key d' = Some y)
    /\ (forall y, dict_get key d = Some y -> ok y = false ->
        (forall z, bad z = inr false -> ok z = true) ->
        dict_get key d' = Some x)
    /\ (dict_get key d = None -> dict_get key d' = Some x).
Proof.
  intros ok d key bad x v' H Hok. rewrite ensure_cases in H.
  destruct (dict_get key d) as [y|] eqn:G.
  - destruct (bad y) as [e|[|]] eqn:B; try discriminate; inversion H; subst v'.
    + exists (dict_set key x d). split; [reflexivity|].
      split; [intros k N; apply dict_get_set_other; exact N|].
      split; [|split].
      * intros y' E O. inversion E; subst y'. rewrite (Hok y O) in B. discriminate.
      * intros. apply dict_get_set_same.
      * discriminate.
    + exists d. split; [reflexivity|]. split; [reflexivity|].
      split; [|split].
      * intros y' E _. rewrite G. exact E.
      * intros y' E O Hback. inversion E; subst y'.
        rewrite (Hback y B) in O. discriminate.
      * discriminate.
  - inversion H; subst v'. exists (dict_set key x d). split; [reflexivity|].
    split; [intros k N; apply dict_get_set_other; exact N|].
    split; [discriminate|]. split; [discriminate|].
    intros _. apply dict_get_set_same.
Qed.

Lemma has_len_4_not_bad : forall y, has_len_4 y = true -> len_not_4 y = inr false.
Proof.
  intros y H. unfold has_len_4, len_not_4 in *.
  destruct (py_len y) as [e|n]; [discriminate|]. cbn [bind ret]. rewrite H. reflexivity.
Qed.

Lemma truthy_not_bad : forall y, py_truthy y = true -> not_truthy y = inr false.
Proof.
  intros y H. unfold not_truthy. rewrite H. reflexivity.
Qed.

Lemma not_blank_ok : forall y, blank y = inr false -> is_nonblank_str y = true.
Proof.
  intros y H. unfold blank in H. destruct y; simpl in H; try discriminate.
  inversion H. simpl. destruct (str_nonempty (py_strip s)); [reflexivity | discriminate].
Qed.

Ltac facts_step H ok lemma d F1 F2 :=
  let q := fresh "q" in
  let E := fresh "E" in
  apply bind_inr in H; destruct H as (q & E & H);
  apply (ensure_facts ok) in E; [|intros ? ?; apply lemma; assumption];
  destruct E as (d & -> & F1 & F2 & _).

Ltac other_keys :=
  repeat (match goal with
          | K : forall k, k <> _ -> dict_get k ?d' = dict_get k _
            |- context [dict_get _ ?d'] => rewrite K by (try discriminate; auto)
          end).

Lemma advanced_validate_question_fields : forall title i d q',
  AdvancedQuizGenerator.validate_question title i (PDict d) = inr q' ->
  exists d', q' = PDict d'
    /\ (forall k, ~ In k question_fields -> dict_get k d' = dict_get k d)
    /\ (forall y, dict_get "question" d = Some y -> is_nonblank_str y = true ->
                  dict_get "question" d' = Some y)
    /\ (forall y, dict_get "options" d = Some y -> has_len_4 y = true ->
                  dict_get "options" d' = Some y)
    /\ (forall y, dict_get "correct_answer" d = Some y -> py_among y letters = true ->
                  dict_get "correct_answer" d' = Some y)
    /\ (forall y, dict_get "explanation" d = Some y -> is_nonblank_str y = true ->
                  dict_get "explanation" d' = Some y)
    /\ (forall y, dict_get "difficulty" d = Some y -> py_among y difficulties = true ->
                  dict_get "difficulty" d' = Some y).
Proof.
  intros title i d q' H. unfold AdvancedQuizGenerator.validate_question in H.
  facts_step H is_nonblank_str nonblank_is_not_blank d1 K1 G1.
  facts_step H has_len_4 has_len_4_not_bad d2 K2 G2.
  facts_step H (fun v => py_among v letters) (among_is_kept letters) d3 K3 G3.
  facts_step H is_nonblank_str nonblank_is_not_blank d4 K4 G4.
  apply (ensure_facts (fun v => py_among v difficulties)) in H;
    [|intros ? ?; apply (among_is_kept difficulties); assumption].
  destruct H as (d5 & -> & K5 & G5 & _).
  exists d5. split; [reflexivity|]. split.
  - intros k N. unfold question_fields in N. simpl in N.
    assert (k <> "question" /\ k <> "options" /\ k <> "correct_answer"
            /\ k <> "explanation" /\ k <> "difficulty") as (N1 & N2 & N3 & N4 & N5).
    { repeat split; intros ->; apply N; auto 6. }
    rewrite K5, K4, K3, K2, K1 by assumption. reflexivity.
  - repeat split; intros y Hy Hok.
    + rewrite K5, K4, K3, K2 by discriminate. apply G1; assumption.
    + rewrite K5, K4, K3 by discriminate. apply G2; [|exact Hok].
      rewrite K1 by discriminate. exact Hy.
    + rewrite K5, K4 by discriminate. apply G3; [|exact Hok].
      rewrite K2, K1 by discriminate. exact Hy.
    + rewrite K5 by discriminate. apply G4; [|exact Hok].
      rewrite K3, K2, K1 by discriminate. exact Hy.
    + apply G5; [|exact Hok]. rewrite K4, K3, K2, K1 by discriminate. exact Hy.
Qed.

Lemma validate_question_fields : forall i d q',
  QuizGenerator.validate_question i (PDict d) = inr q' ->
  exists d', q' = PDict d'
    /\ (forall k, ~ In k question_fields -> dict_get k d' = dict_get k d)
    /\ (forall y, dict_get "question" d = Some y -> py_truthy y = true ->
                  dict_get "question" d' = Some y)
    /\ (forall y, dict_get "options" d = Some y -> has_len_4 y = true ->
                  dict_get "options" d' = Some y)
    /\ (forall y, dict_get "correct_answer" d = Some y -> py_among y letters = true ->
                  dict_get "correct_answer" d' = Some y)
    /\ (forall y, dict_get "explanation" d = Some y -> py_truthy y = true ->
                  dict_get "explanation" d' = Some y)
    /\ (forall y, dict_get "difficulty" d = Some y -> py_among y difficulties = true ->
                  dict_get "difficulty" d' = Some y).
Proof.
  intros i d q' H. unfold QuizGenerator.validate_question in H.
  facts_step H py_truthy truthy_not_bad d1 K1 G1.
  facts_step H has_len_4 has_len_4_not_bad d2 K2 G2.
  facts_step H (fun v => py_among v letters) (among_is_kept letters) d3 K3 G3.
  facts_step H py_truthy truthy_not_bad d4 K4 G4.
  apply (ensure_facts (fun v => py_among v difficulties)) in H;
    [|intros ? ?; apply (among_is_kept difficulties); assumption].
  destruct H as (d5 & -> & K5 & G5 & _).
  exists d5. split; [reflexivity|]. split.
  - intros k N. unfold question_fields in N. simpl in N.
    assert (k <> "question" /\ k <> "options" /\ k <> "correct_answer"
            /\ k <> "explanation" /\ k <> "difficulty") as (N1 & N2 & N3 & N4 & N5).
    { repeat split; intros ->; apply N; auto 6. }
    rewrite K5, K4, K3, K2, K1 by assumption. reflexivity.
  - repeat split; intros y Hy Hok.
    + rewrite K5, K4, K3, K2 by discriminate. apply G1; assumption.
    + rewrite K5, K4, K3 by discriminate. apply G2; [|exact Hok].
      rewrite K1 by discriminate. exact Hy.
    + rewrite K5, K4 by discriminate. apply G3; [|exact Hok].
      rewrite K2, K1 by discriminate. exact Hy.
    + rewrite K5 by discriminate. apply G4; [|exact Hok].
      rewrite K3, K2, K1 by discriminate. exact Hy.
    + apply G5; [|exact Hok]. rewrite K4, K3, K2, K1 by discriminate. exact Hy.
Qed.

(** X11. The repair of a question touches a field only when that field is
    missing or fails its own test: every other key of the question keeps
    its value, and a question text, options of length 4, an answer letter,
    an explanation or a difficulty that passes its test stays as the model
    gave it, whatever the state of the other fields; in main.py and in
    quiz_generator.py. *)
Theorem repair_leaves_good_fields :
  forall (title : string) (i : nat) (d : pydict),
    (forall q',
        AdvancedQuizGenerator.validate_question title i (PDict d) = inr q' ->
        exists d', q' = PDict d'
          /\ (forall k, ~ In k question_fields -> dict_get k d' = dict_get k d)
          /\ (forall y, dict_get "question" d = Some y -> is_nonblank_str y = true ->
                        dict_get "question" d' = Some y)
          /\ (forall y, dict_get "options" d = Some y -> has_len_4 y = true ->
                        dict_get "options" d' = Some y)
          /\ (forall y, dict_get "correct_answer" d = Some y ->
                        py_among y letters = true ->
                        dict_get "correct_answer" d' = Some y)
          /\ (forall y, dict_get "explanation" d = Some y ->
                        is_nonblank_str y = true ->
                        dict_get "explanation" d' = Some y)
          /\ (forall y, dict_get "difficulty" d = Some y ->
                        py_among y difficulties = true ->
                        dict_get "difficulty" d' = Some y))
    /\ (forall q',
        QuizGenerator.validate_question i (PDict d) = inr q' ->
        exists d', q' = PDict d'
          /\ (forall k, ~ In k question_fields -> dict_get k d' = dict_get k d)
          /\ (forall y, dict_get "question" d = Some y -> py_truthy y = true ->
                        dict_get "question" d' = Some y)
          /\ (forall y, dict_get "options" d = Some y -> has_len_4 y = true ->
                        dict_get "options" d' = Some y)
          /\ (forall y, dict_get "correct_answer" d = Some y ->
                        py_among y letters = true ->
                        dict_get "correct_answer" d' = Some y)
          /\ (forall y, dict_get "explanation" d = Some y -> py_truthy y = true ->
                        dict_get "explanation" d' = Some y)
          /\ (forall y, dict_get "difficulty" d = Some y ->
                        py_among y difficulties = true ->
                        dict_get "difficulty" d' = Some y)).
Proof.
  intros title i d. split; intros q' H.
  - apply (advanced_validate_question_fields title i d q' H).
  - apply (validate_question_fields i d q' H).
Qed.

Lemma repair_leaves_good_fields_witness :
  exists d', partial_question_repaired = PDict d'
    /\ dict_get "hint" d' = Some (PStr "A Dutch programmer")
    /\ dict_get "question" d' = Some (PStr "Who created Python?")
    /\ dict_get "correct_answer" d' = Some (PStr "C").
Proof.
  destruct (proj1 (repair_leaves_good_fields "Python" 1 partial_question)
              partial_question_repaired eq_refl)
    as (d' & E & K & Gq & _ & Ga & _).
  exists d'. split; [exact E|]. split; [|split].
  - rewrite K; [reflexivity|].
    unfold question_fields. simpl.
    intros [H|[H|[H|[H|[H|[]]]]]]; discriminate.
  - apply Gq; reflexivity.
  - apply Ga; reflexivity.
Defined.

(** ** Validating twice *)

Lemma validate_question_settles : forall i q q',
  QuizGenerator.validate_question i q = inr q' -> settled_question q' = true.
Proof.
  intros i q q' H. unfold QuizGenerator.validate_question in H.
  assert (D : exists d, q = PDict d).
  { apply bind_inr in H. destruct H as (q1 & E1 & _).
    apply ensure_inv in E1. destruct E1 as (d & -> & _). eauto. }
  destruct D as (d & ->).
  ensure_step H py_truthy d1 F1 K1; [|apply not_truthy_ok|reflexivity].
  ensure_step H has_len_4 d2 F2 K2; [|apply len_not_4_ok|reflexivity].
  ensure_step H (fun v => py_among v letters) d3 F3 K3;
    [|apply not_among_ok|reflexivity].
  ensure_step H py_truthy d4 F4 K4; [|apply not_truthy_ok|reflexivity].
  apply (ensure_field_dict (fun v => py_among v difficulties)) in H;
    [|apply not_among_ok|reflexivity].
  destruct H as (d5 & -> & F5 & K5).
  unfold settled_question.
  repeat (apply andb_true_intro; split); try exact F5.
  - keep_field d1.
  - keep_field d2.
  - keep_field d3.
  - keep_field d4.
Qed.

Lemma advanced_validate_question_settles : forall title i q q',
  AdvancedQuizGenerator.validate_question title i q = inr q' ->
  advanced_settled_question q' = true.
Proof.
  intros title i q q' H. unfold AdvancedQuizGenerator.validate_question in H.
  assert (D : exists d, q = PDict d).
  { apply bind_inr in H. destruct H as (q1 & E1 & _).
    apply ensure_inv in E1. destruct E1 as (d & -> & _). eauto. }
  destruct D as (d & ->).
  ensure_step H is_nonblank_str d1 F1 K1;
    [|apply not_blank_ok|apply nonblank_head; reflexivity].
  ensure_step H has_len_4 d2 F2 K2; [|apply len_not_4_ok|reflexivity].
  ensure_step H (fun v => py_among v letters) d3 F3 K3;
    [|apply not_among_ok|reflexivity].
  ensure_step H is_nonblank_str d4 F4 K4;
    [|apply not_blank_ok|apply nonblank_head; reflexivity].
  apply (ensure_field_dict (fun v => py_among v difficulties)) in H;
    [|apply not_among_ok|destruct (i mod 2 =? 0); reflexivity].
  destruct H as (d5 & -> & F5 & K5).
  unfold advanced_settled_question.
  repeat (apply andb_true_intro; split); try exact F5.
  - keep_field d1.
  - keep_field d2.
  - keep_field d3.
  - keep_field d4.
Qed.

Lemma settled_question_id : forall i q,
  settled_question q = true -> QuizGenerator.validate_question i q = inr q.
Proof.
  intros i q H. destruct q as [| | | | | |d]; simpl in H; try discriminate.
  split_fields H. unfold QuizGenerator.validate_question.
  keep_step truthy_not_bad H. cbn [bind].
  keep_step has_len_4_not_bad F2. cbn [bind].
  keep_step (among_is_kept letters) F1. cbn [bind].
  keep_step truthy_not_bad F0. cbn [bind].
  keep_step (among_is_kept difficulties) F. reflexivity.
Qed.

Lemma advanced_settled_question_id : forall title i q,
  advanced_settled_question q = true ->
  AdvancedQuizGenerator.validate_question title i q = inr q.
Proof.
  intros title i q H. destruct q as [| | | | | |d]; simpl in H; try discriminate.
  split_fields H. unfold AdvancedQuizGenerator.validate_question.
  keep_step nonblank_is_not_blank H. cbn [bind].
  keep_step has_len_4_not_bad F2. cbn [bind].
  keep_step (among_is_kept letters) F1. cbn [bind].
  keep_step nonblank_is_not_blank F0. cbn [bind].
  keep_step (among_is_kept difficulties) F. reflexivity.
Qed.

Lemma iter_empty_or_list : forall (body : nat -> pyval -> result pyval),
  (forall i s, body i (PStr s) = inl TypeError) ->
  forall qs items items',
    py_iter qs = inr items ->
    for_enumerate body 0 items = inr items' ->
    (exists l, qs = PList l /\ items = l)
    \/ (items = [] /\ items' = [] /\ forall l, qs <> PList l).
Proof.
  intros body Hstr qs items items' It Loop.
  destruct qs as [| | | |s|l|d]; simpl in It; try discriminate;
    inversion It; subst items; clear It.
  - right. destruct s as [|c s]; simpl in Loop.
    + inversion Loop. repeat split; discriminate.
    + rewrite Hstr in Loop. discriminate.
  - left. eauto.
  - right. destruct (dict_keys d) as [|k ks]; simpl in Loop.
    + inversion Loop. repeat split; discriminate.
    + rewrite Hstr in Loop. discriminate.
Qed.

(** The end of both validations, in full: the loop over the questions
    and the default of [related_topics]. *)
Lemma loop_result : forall (body : nat -> pyval -> result pyval) (Q : pyval -> bool)
                           topics d qs v,
  (forall i x x', body i x = inr x' -> Q x' = true) ->
  (forall i s, body i (PStr s) = inl TypeError) ->
  py_truthy topics = true ->
  dict_get "questions" d = Some qs ->
  (questions <- py_getitem (PDict d) "questions" ;;
   items <- py_iter questions ;;
   items <- for_enumerate body 0 items ;;
   quiz_data <- py_setitem (PDict d) "questions" (store_back questions items) ;;
   ensure quiz_data "related_topics" not_truthy topics) = inr v ->
  exists d' qs',
    v = PDict d'
    /\ dict_get "questions" d' = Some qs'
    /\ field "related_topics" py_truthy d' = true
    /\ (forall y, dict_get "related_topics" d = Some y -> py_truthy y = true ->
                  dict_get "related_topics" d' = Some y)
    /\ ((exists l l', qs = PList l /\ qs' = PList l'
                      /\ for_enumerate body 0 l = inr l'
                      /\ forallb Q l' = true
                      /\ List.length l' = List.length l)
        \/ (qs' = qs /\ py_iter qs = inr [] /\ forall l, qs <> PList l)).
Proof.
  intros body Q topics d qs v Hbody Hstr Htop G H.
  cbn [py_getitem] in H. rewrite G in H. cbn [bind ret] in H.
  apply bind_inr in H. destruct H as (items & It & H).
  apply bind_inr in H. destruct H as (items' & Loop & H).
  cbn [py_setitem bind ret] in H.
  pose proof H as H'.
  apply (ensure_field_dict py_truthy) in H; [|apply not_truthy_ok|exact Htop].
  destruct H as (d' & -> & F & K).
  apply (ensure_facts py_truthy) in H'; [|intros ? ?; apply truthy_not_bad; assumption].
  destruct H' as (d'' & E'' & _ & Kt & _). inversion E''; subst d''; clear E''.
  exists d', (store_back qs items'). split; [reflexivity|].
  split; [rewrite K by discriminate; apply dict_get_set_same|].
  split; [exact F|]. split.
  - intros y Gy Ty. apply Kt; [|exact Ty].
    rewrite dict_get_set_other by discriminate. exact Gy.
  - destruct (iter_empty_or_list body Hstr _ _ _ It Loop)
      as [(l & -> & ->) | (-> & -> & Hn)].
    + left. exists l, items'. repeat split; try assumption;
        apply (for_enumerate_inv body Q Hbody _ _ _ Loop).
    + right. split; [|split; [exact It | exact Hn]].
      destruct qs; try reflexivity. exfalso. eapply Hn. reflexivity.
Qed.

Lemma absent_or_cases : forall d key bad,
  absent_or (PDict d) key bad
  = match dict_get key d with
    | None => inr true
    | Some y => bad y
    end.
Proof.
  intros d key bad. unfold absent_or. cbn [py_in bind ret].
  destruct (dict_get key d) as [y|] eqn:G; cbn [negb bind ret py_getitem];
    [rewrite G|]; reflexivity.
Qed.

(** What [_validate_quiz_data] of quiz_generator.py returns, from what it
    is given. *)
Lemma validate_quiz_data_result : forall d v,
  QuizGenerator._validate_quiz_data (PDict d) = inr v ->
  exists d' l0 l',
    v = PDict d'
    /\ dict_get "questions" d' = Some (PList l')
    /\ for_enumerate QuizGenerator.validate_question 0 l0 = inr l'
    /\ forallb settled_question l' = true
    /\ List.length l' = List.length l0
    /\ 3 <= List.length l0
    /\ field "related_topics" py_truthy d' = true
    /\ (forall y, dict_get "related_topics" d = Some y -> py_truthy y = true ->
                  dict_get "related_topics" d' = Some y)
    /\ ((absent_or (PDict d) "questions" not_truthy = inr true
         /\ l0 = QuizGenerator.fallback_questions)
        \/ (exists l, dict_get "questions" d = Some (PList l) /\ l <> []
                      /\ l0 = (l ++ firstn (3 - List.length l)
                                      QuizGenerator.fallback_questions)%list)).
Proof.
  intros d v H. unfold QuizGenerator._validate_quiz_data in H.
  apply bind_inr in H. destruct H as (qd1 & E1 & H).
  assert (S1 : exists d1 qs,
             qd1 = PDict d1 /\ dict_get "questions" d1 = Some qs
             /\ dict_get "related_topics" d1 = dict_get "related_topics" d
             /\ ((absent_or (PDict d) "questions" not_truthy = inr true
                  /\ qs = PList QuizGenerator.fallback_questions)
                 \/ (dict_get "questions" d = Some qs /\ py_truthy qs = true
                     /\ d1 = d))).
  { rewrite ensure_cases in E1. rewrite absent_or_cases.
    destruct (dict_get "questions" d) as [y|] eqn:G.
    - unfold not_truthy in *. destruct (py_truthy y) eqn:T; cbn [negb ret] in *;
        inversion E1; subst qd1.
      + exists d, y. repeat split; auto.
      + eexists _, _. split; [reflexivity|].
        split; [apply dict_get_set_same|].
        split; [apply dict_get_set_other; discriminate|]. left. auto.
    - inversion E1; subst qd1. eexists _, _. split; [reflexivity|].
      split; [apply dict_get_set_same|].
      split; [apply dict_get_set_other; discriminate|]. left. auto. }
  destruct S1 as (d1 & qs & -> & G1 & T1 & Origin).
  apply bind_inr in H. destruct H as (qs' & Gq & H).
  cbn [py_getitem] in Gq. rewrite G1 in Gq. inversion Gq; subst qs'; clear Gq.
  apply bind_inr in H. destruct H as (n & Len & H).
  apply bind_inr in H. destruct H as (qd2 & E2 & H).
  assert (S2 : exists d2 l0,
             qd2 = PDict d2 /\ dict_get "questions" d2 = Some (PList l0)
             /\ 3 <= List.length l0
             /\ dict_get "related_topics" d2 = dict_get "related_topics" d
             /\ ((absent_or (PDict d) "questions" not_truthy = inr true
                  /\ l0 = QuizGenerator.fallback_questions)
                 \/ (exists l, dict_get "questions" d = Some (PList l) /\ l <> []
                               /\ l0 = (l ++ firstn (3 - List.length l)
                                               QuizGenerator.fallback_questions)%list))
             /\ (questions <- py_getitem (PDict d2) "questions" ;;
                 items <- py_iter questions ;;
                 items <- for_enumerate QuizGenerator.validate_question 0 items ;;
                 quiz_data <- py_setitem (PDict d2) "questions"
                                (store_back questions items) ;;
                 ensure quiz_data "related_topics" not_truthy
                   (PList [PStr "Knowledge"; PStr "Education"; PStr "Research"]))
                = inr v).
  { destruct (n <? 3) eqn:L.
    - apply Nat.ltb_lt in L.
      cbn [py_getitem] in E2. rewrite G1 in E2. cbn [bind ret] in E2.
      rewrite Len in E2. cbn [bind] in E2.
      destruct qs as [| | | |s|l|dd]; try discriminate.
      cbn [py_extend py_setitem bind ret] in E2. inversion E2; subst qd2; clear E2.
      cbn [py_len ret] in Len. inversion Len; subst n.
      destruct Origin as [[_ Eq] | (G0 & T0 & ->)].
      + inversion Eq; subst l. simpl in L. lia.
      + eexists _, _. split; [reflexivity|]. split; [apply dict_get_set_same|].
        split; [destruct l as [|? [|? [|? ?]]]; simpl in *; lia|].
        split; [apply dict_get_set_other; discriminate|].
        split; [|exact H].
        right. exists l. repeat split; auto.
        intros ->. discriminate.
    - apply Nat.ltb_ge in L. inversion E2; subst qd2; clear E2.
      destruct Origin as [[A Eq] | (G0 & T0 & ->)].
      + subst qs. exists d1, QuizGenerator.fallback_questions.
        repeat split; auto. simpl. lia.
      + (* a loop that ends over 3 or more items is a loop over a list *)
        pose proof H as H0.
        cbn [py_getitem] in H0. rewrite G1 in H0. cbn [bind ret] in H0.
        apply bind_inr in H0. destruct H0 as (items & It & H0).
        apply bind_inr in H0. destruct H0 as (items' & Loop & _).
        destruct (loop_on_list _ validate_question_str _ _ _ _ _ It Loop Len
                    ltac:(lia)) as [-> Hn].
        exists d, items. repeat split; auto; try lia.
        right. exists items. repeat split; auto.
        * intros ->. simpl in Hn. lia.
        * replace (3 - List.length items) with 0 by lia.
          rewrite app_nil_r. reflexivity. }
  destruct S2 as (d2 & l0 & -> & G2 & L0 & T2 & Origin2 & Tail).
  destruct (loop_result QuizGenerator.validate_question settled_question
              (PList [PStr "Knowledge"; PStr "Education"; PStr "Research"])
              d2 (PList l0) v validate_question_settles
              validate_question_str eq_refl G2 Tail)
    as (d' & qs' & -> & G' & F' & Kt & [(l & l' & E & -> & Loop & All & Len') | (_ & It & Hn)]).
  - inversion E; subst l. exists d', l0, l'. repeat split; auto.
    intros y Gy Ty. apply Kt; [|exact Ty]. rewrite T2. exact Gy.
  - exfalso. eapply Hn. reflexivity.
Qed.

Lemma settled_quiz_id : forall d l,
  dict_get "questions" d = Some (PList l) ->
  3 <= List.length l ->
  forallb settled_question l = true ->
  field "related_topics" py_truthy d = true ->
  QuizGenerator._validate_quiz_data (PDict d) = inr (PDict d).
Proof.
  intros d l G Hlen Hall HT.
  destruct (field_inv _ _ _ HT) as (ts & GT & PT).
  assert (Tq : not_truthy (PList l) = inr false).
  { destruct l; simpl in Hlen; [lia | reflexivity]. }
  assert (L : (List.length l <? 3) = false) by (apply Nat.ltb_ge; exact Hlen).
  unfold QuizGenerator._validate_quiz_data.
  rewrite (ensure_keep d "questions" not_truthy _ _ G Tq).
  cbn [bind py_getitem ret]. rewrite ?G. cbn [bind py_len ret]. rewrite L.
  cbn [bind py_getitem ret]. rewrite ?G. cbn [bind py_iter ret].
  rewrite for_enumerate_id.
  - cbn [bind store_back py_setitem ret].
    rewrite (dict_set_same_value _ _ _ G).
    apply (ensure_keep d "related_topics" not_truthy _ _ GT).
    apply truthy_not_bad. exact PT.
  - intros j x Hx. apply settled_question_id.
    revert x Hx. apply forallb_forall. exact Hall.
Qed.

(** What [_validate_quiz_structure] of main.py returns, from what it is
    given. *)
Lemma validate_quiz_structure_result : forall d title v,
  AdvancedQuizGenerator._validate_quiz_structure (PDict d) title = inr v ->
  let qs := match dict_get "questions" d with
            | Some q => q
            | None => PList []
            end in
  exists d' qs',
    v = PDict d'
    /\ dict_get "questions" d' = Some qs'
    /\ field "related_topics" py_truthy d' = true
    /\ (forall y, dict_get "related_topics" d = Some y -> py_truthy y = true ->
                  dict_get "related_topics" d' = Some y)
    /\ ((exists l l', qs = PList l /\ qs' = PList l'
                      /\ for_enumerate (AdvancedQuizGenerator.validate_question title)
                           0 l = inr l'
                      /\ forallb advanced_settled_question l' = true
                      /\ List.length l' = List.length l)
        \/ (qs' = qs /\ py_iter qs = inr [] /\ forall l, qs <> PList l)).
Proof.
  intros d title v H qs.
  unfold AdvancedQuizGenerator._validate_quiz_structure in H.
  rewrite ensure_cases in H.
  assert (S1 : exists d1,
             dict_get "questions" d1 = Some qs
             /\ dict_get "related_topics" d1 = dict_get "related_topics" d
             /\ (questions <- py_getitem (PDict d1) "questions" ;;
                 items <- py_iter questions ;;
                 items <- for_enumerate (AdvancedQuizGenerator.validate_question title)
                            0 items ;;
                 quiz_data <- py_setitem (PDict d1) "questions"
                                (store_back questions items) ;;
                 ensure quiz_data "related_topics" not_truthy
                   (PList [PStr title; PStr "Knowledge"; PStr "Research"]))
                = inr v).
  { unfold qs. destruct (dict_get "questions" d) as [y|] eqn:G.
    - exists d. repeat split; auto.
    - eexists. split; [apply dict_get_set_same|].
      split; [apply dict_get_set_other; discriminate | exact H]. }
  destruct S1 as (d1 & G1 & T1 & Tail).
  destruct (loop_result (AdvancedQuizGenerator.validate_question title)
              advanced_settled_question
              (PList [PStr title; PStr "Knowledge"; PStr "Research"])
              d1 qs v (advanced_validate_question_settles title)
              (advanced_validate_question_str title) eq_refl G1 Tail)
    as (d' & qs' & -> & G' & F' & Kt & Cases).
  exists d', qs'. repeat split; auto.
  intros y Gy Ty. apply Kt; [|exact Ty]. rewrite T1. exact Gy.
Qed.

Lemma advanced_settled_quiz_id : forall d qs title,
  dict_get "questions" d = Some qs ->
  (exists l, qs = PList l /\ forallb advanced_settled_question l = true)
  \/ py_iter qs = inr [] ->
  field "related_topics" py_truthy d = true ->
  AdvancedQuizGenerator._validate_quiz_structure (PDict d) title = inr (PDict d).
Proof.
  intros d qs title G Hqs HT.
  destruct (field_inv _ _ _ HT) as (ts & GT & PT).
  unfold AdvancedQuizGenerator._validate_quiz_structure.
  rewrite (ensure_keep d "questions" never _ _ G eq_refl).
  cbn [bind py_getitem ret]. rewrite G. cbn [bind ret].
  assert (Loop : exists items,
             py_iter qs = inr items
             /\ for_enumerate (AdvancedQuizGenerator.validate_question title) 0 items
                = inr items
             /\ store_back qs items = qs).
  { destruct Hqs as [(l & -> & Hall) | It].
    - exists l. split; [reflexivity|]. split; [|reflexivity].
      apply for_enumerate_id. intros j x Hx.
      apply advanced_settled_question_id.
      revert x Hx. apply forallb_forall. exact Hall.
    - exists []. split; [exact It|]. split; [reflexivity|].
      destruct qs; try reflexivity. simpl in It. inversion It. reflexivity. }
  destruct Loop as (items & It & Lp & Sb).
  rewrite It. cbn [bind]. rewrite Lp. cbn [bind py_setitem ret]. rewrite Sb.
  rewrite (dict_set_same_value _ _ _ G).
  apply (ensure_keep d "related_topics" not_truthy _ _ GT).
  apply truthy_not_bad. exact PT.
Qed.

(** X12. Validating twice is validating once: what [_validate_quiz_data]
    of quiz_generator.py returns, it returns as it is when given it again,
    and so does [_validate_quiz_structure] of main.py. *)
Theorem validation_is_idempotent :
  (forall v v',
      QuizGenerator._validate_quiz_data v = inr v' ->
      QuizGenerator._validate_quiz_data v' = inr v')
  /\ (forall v title v',
        AdvancedQuizGenerator._validate_quiz_structure v title = inr v' ->
        AdvancedQuizGenerator._validate_quiz_structure v' title = inr v').
Proof.
  split.
  - intros v v' H.
    assert (D : exists d, v = PDict d).
    { unfold QuizGenerator._validate_quiz_data in H.
      apply bind_inr in H. destruct H as (q1 & E1 & _).
      apply ensure_inv in E1. destruct E1 as (d & -> & _). eauto. }
    destruct D as (d & ->).
    destruct (validate_quiz_data_result d v' H)
      as (d' & l0 & l' & -> & G & _ & All & Len & L0 & F & _).
    apply (settled_quiz_id d' l' G); [lia | exact All | exact F].
  - intros v title v' H.
    assert (D : exists d, v = PDict d).
    { unfold AdvancedQuizGenerator._validate_quiz_structure in H.
      apply bind_inr in H. destruct H as (q1 & E1 & _).
      apply ensure_inv in E1. destruct E1 as (d & -> & _). eauto. }
    destruct D as (d & ->).
    destruct (validate_quiz_structure_result d title v' H)
      as (d' & qs' & -> & G & F & _ & Cases).
    apply (advanced_settled_quiz_id d' qs' title G); [|exact F].
    destruct Cases as [(l & l' & _ & -> & _ & All & _) | (-> & It & _)].
    + left. eauto.
    + right. exact It.
Qed.

Lemma validation_is_idempotent_witness :
  QuizGenerator._validate_quiz_data
    (mk_quiz QuizGenerator.fallback_questions ["Knowledge"; "Education"; "Research"])
  = inr (mk_quiz QuizGenerator.fallback_questions
           ["Knowledge"; "Education"; "Research"])
  /\ AdvancedQuizGenerator._validate_quiz_structure
       (PDict [("questions", PList []);
               ("related_topics",
                PList [PStr "Python"; PStr "Knowledge"; PStr "Research"])])
       "Python"
     = inr (PDict [("questions", PList []);
                   ("related_topics",
                    PList [PStr "Python"; PStr "Knowledge"; PStr "Research"])]).
Proof.
  destruct validation_is_idempotent as [H1 H2]. split.
  - apply (H1 (PDict [])). vm_compute. reflexivity.
  - apply (H2 (PDict []) "Python"). vm_compute. reflexivity.
Defined.

(** ** How many questions, and which *)

Lemma iter_empty_len : forall qs n, py_iter qs = inr [] -> py_len qs = inr n -> n = 0.
Proof.
  intros qs n It Len. destruct qs as [| | | |s|l|d]; simpl in *; try discriminate;
    inversion It as [E]; inversion Len; subst n.
  - destruct s; [reflexivity | discriminate].
  - rewrite E. reflexivity.
  - destruct (dict_keys d); [reflexivity | discriminate].
Qed.

(** What [_parse_quiz_data] of main.py returns: the fallback quiz, or the
    validation of the decoded response with its questions, 5 of them when
    it had fewer than 3. *)
Lemma parse_quiz_data_result : forall json_loads text title v,
  AdvancedQuizGenerator._parse_quiz_data json_loads text title = inr v ->
  v = AdvancedQuizGenerator._generate_smart_fallback_quiz title
  \/ exists d l l0 d' l',
      json_loads text = Some (PDict d)
      /\ dict_get "questions" d = Some (PList l) /\ l <> []
      /\ l0 = (if List.length l <? 3
               then (l ++ firstn (5 - List.length l)
                            (AdvancedQuizGenerator.base_questions title))%list
               else l)
      /\ v = PDict d'
      /\ dict_get "questions" d' = Some (PList l')
      /\ for_enumerate (AdvancedQuizGenerator.validate_question title) 0 l0 = inr l'
      /\ List.length l' = List.length l0.
Proof.
  intros json_loads text title v H.
  unfold AdvancedQuizGenerator._parse_quiz_data, try_except in H.
  destruct (AdvancedQuizGenerator.parse_quiz_data_body json_loads text title)
    as [e|v0] eqn:B; [left; inversion H; reflexivity|].
  inversion H; subst v0; clear H. right.
  unfold AdvancedQuizGenerator.parse_quiz_data_body in B.
  destruct (json_loads text) as [qd|] eqn:J; [|discriminate]. cbn [bind ret] in B.
  apply bind_inr in B. destruct B as (b & Hb & B).
  destruct b; [discriminate|]. cbn [bind ret] in B.
  apply absent_or_false in Hb. destruct Hb as (d & qs & -> & G & T).
  apply not_truthy_ok in T.
  cbn [py_getitem] in B. rewrite G in B. cbn [bind ret] in B.
  apply bind_inr in B. destruct B as (n & Len & B).
  apply bind_inr in B. destruct B as (qd2 & E2 & B).
  destruct (n <? 3) eqn:L.
  - rewrite Len in E2. cbn [bind] in E2.
    destruct qs as [| | | |s|l|dd]; try discriminate.
    cbn [py_extend py_setitem bind ret] in E2. inversion E2; subst qd2; clear E2.
    cbn [py_len ret] in Len. inversion Len; subst n.
    destruct (validate_quiz_structure_result _ title v B)
      as (d' & qs' & -> & G' & _ & _ & Cases).
    rewrite dict_get_set_same in Cases.
    destruct Cases as [(l1 & l' & E & -> & Loop & _ & Len') | (_ & _ & Hn)];
      [|exfalso; eapply Hn; reflexivity].
    inversion E; subst l1.
    exists d, l, (l ++ firstn (5 - List.length l)
                        (AdvancedQuizGenerator.base_questions title))%list, d', l'.
    rewrite L. repeat split; auto.
    intros ->. discriminate.
  - inversion E2; subst qd2; clear E2. apply Nat.ltb_ge in L.
    destruct (validate_quiz_structure_result _ title v B)
      as (d' & qs' & -> & G' & _ & _ & Cases).
    rewrite G in Cases.
    destruct Cases as [(l & l' & -> & -> & Loop & _ & Len') | (_ & It & _)].
    + cbn [py_len ret] in Len. inversion Len; subst n.
      exists d, l, l, d', l'.
      assert (L' : (List.length l <? 3) = false) by (apply Nat.ltb_ge; exact L).
      rewrite L'. repeat split; auto.
      intros ->. simpl in L. lia.
    + pose proof (iter_empty_len _ _ It Len). lia.
Qed.

(** X13. How many questions come out. [_validate_quiz_data] of
    quiz_generator.py returns at least 3 questions: [max 3 n] when it is
    given a list of [n >= 1] questions, and 5 when "questions" is missing
    or falsy. [_validate_quiz_structure] of main.py returns as many
    questions as it is given. [_parse_quiz_data] of main.py returns 5
    questions, or the number of questions of the decoded response when
    that had at least 3. *)
Theorem question_counts :
  (forall d v,
      QuizGenerator._validate_quiz_data (PDict d) = inr v ->
      exists l',
        py_getitem v "questions" = inr (PList l')
        /\ 3 <= List.length l'
        /\ (forall l, dict_get "questions" d = Some (PList l) -> l <> [] ->
                      List.length l' = Nat.max 3 (List.length l))
        /\ (absent_or (PDict d) "questions" not_truthy = inr true ->
            List.length l' = 5))
  /\ (forall d title v l,
        AdvancedQuizGenerator._validate_quiz_structure (PDict d) title = inr v ->
        dict_get "questions" d = Some (PList l) ->
        exists l',
          py_getitem v "questions" = inr (PList l')
          /\ List.length l' = List.length l)
  /\ (forall json_loads text title v,
        AdvancedQuizGenerator._parse_quiz_data json_loads text title = inr v ->
        exists l',
          py_getitem v "questions" = inr (PList l')
          /\ (List.length l' = 5
              \/ exists d l,
                  json_loads text = Some (PDict d)
                  /\ dict_get "questions" d = Some (PList l)
                  /\ 3 <= List.length l
                  /\ List.length l' = List.length l)).
Proof.
  split; [|split].
  - intros d v H.
    destruct (validate_quiz_data_result d v H)
      as (d' & l0 & l' & -> & G & _ & _ & Len & L0 & _ & _ & Origin).
    exists l'. split; [cbn [py_getitem]; rewrite G; reflexivity|].
    split; [lia|]. split.
    + intros l Gl Hl.
      destruct Origin as [[A _] | (l1 & G1 & _ & ->)].
      * rewrite absent_or_cases, Gl in A. unfold not_truthy in A.
        destruct l; [congruence | discriminate].
      * rewrite Gl in G1. inversion G1; subst l1.
        rewrite Len, length_app, length_firstn.
        change (List.length QuizGenerator.fallback_questions) with 5. lia.
    + intros A. destruct Origin as [[_ ->] | (l1 & G1 & Hl & _)].
      * rewrite Len. reflexivity.
      * rewrite absent_or_cases, G1 in A. unfold not_truthy in A.
        destruct l1; [congruence | discriminate].
  - intros d title v l H G.
    destruct (validate_quiz_structure_result d title v H)
      as (d' & qs' & -> & G' & _ & _ & Cases).
    rewrite G in Cases.
    destruct Cases as [(l1 & l' & E & -> & _ & _ & Len) | (_ & _ & Hn)];
      [|exfalso; eapply Hn; reflexivity].
    inversion E; subst l1. exists l'.
    split; [cbn [py_getitem]; rewrite G'; reflexivity | exact Len].
  - intros json_loads text title v H.
    destruct (parse_quiz_data_result json_loads text title v H)
      as [-> | (d & l & l0 & d' & l' & J & G & Hl & -> & -> & G' & _ & Len)].
    + eexists. split; [reflexivity|]. left. reflexivity.
    + exists l'. split; [cbn [py_getitem]; rewrite G'; reflexivity|].
      destruct (List.length l <? 3) eqn:L.
      * left. apply Nat.ltb_lt in L.
        rewrite Len, length_app, length_firstn.
        change (List.length (AdvancedQuizGenerator.base_questions title)) with 5. lia.
      * right. apply Nat.ltb_ge in L. exists d, l. auto.
Qed.

Lemma question_counts_witness :
  exists l',
    py_getitem
      (mk_quiz (parsed_question_1 :: parsed_question_2
                  :: firstn 1 QuizGenerator.fallback_questions) ["Programming"])
      "questions" = inr (PList l')
    /\ 3 <= List.length l'
    /\ (forall l,
          dict_get "questions"
            [("questions", PList [parsed_question_1; parsed_question_2]);
             ("related_topics", PList [PStr "Programming"])]
          = Some (PList l) -> l <> [] ->
          List.length l' = Nat.max 3 (List.length l))
    /\ (absent_or
          (PDict [("questions", PList [parsed_question_1; parsed_question_2]);
                  ("related_topics", PList [PStr "Programming"])])
          "questions" not_truthy = inr true ->
        List.length l' = 5).
Proof.
  apply (proj1 question_counts
           [("questions", PList [parsed_question_1; parsed_question_2]);
            ("related_topics", PList [PStr "Programming"])]).
  vm_compute. reflexivity.
Defined.

Lemma ensure_topics_result : forall d x,
  exists d',
    ensure (PDict d) "related_topics" not_truthy x = inr (PDict d')
    /\ dict_get "questions" d' = dict_get "questions" d
    /\ (forall y, dict_get "related_topics" d = Some y -> py_truthy y = true ->
                  dict_get "related_topics" d' = Some y)
    /\ (absent_or (PDict d) "related_topics" not_truthy = inr true ->
        dict_get "related_topics" d' = Some x).
Proof.
  intros d x. rewrite ensure_cases, absent_or_cases. unfold not_truthy, ret.
  destruct (dict_get "related_topics" d) as [y|] eqn:G.
  - destruct (py_truthy y) eqn:T; cbn [negb].
    + exists d. repeat split; auto.
      * intros y0 E _. rewrite G. exact E.
      * intros X. inversion X.
    + eexists. split; [reflexivity|].
      split; [apply dict_get_set_other; discriminate|]. split.
      * intros y' E T'. inversion E; subst y'. congruence.
      * intros _. apply dict_get_set_same.
  - eexists. split; [reflexivity|].
    split; [apply dict_get_set_other; discriminate|]. split.
    + discriminate.
    + intros _. apply dict_get_set_same.
Qed.

Lemma ensure_sets_when_absent : forall d key bad x,
  absent_or (PDict d) key bad = inr true ->
  ensure (PDict d) key bad x = inr (PDict (dict_set key x d)).
Proof.
  intros d key bad x H. rewrite absent_or_cases in H. rewrite ensure_cases.
  destruct (dict_get key d); [rewrite H|]; reflexivity.
Qed.

(** X14. When "questions" is missing or falsy (an empty list, [null]).
    [_validate_quiz_data] of quiz_generator.py returns the 5 fallback
    questions, and keeps the related topics of the response when they are
    not falsy (else its own three topics, which are not those of the
    fallback quiz). [_validate_quiz_structure] of main.py, by itself,
    returns an empty list of questions when the key is missing.
    [_parse_quiz_data] of main.py returns the whole fallback quiz, as it
    does when the text is not JSON. *)
Theorem missing_questions :
  (forall d,
      absent_or (PDict d) "questions" not_truthy = inr true ->
      exists v,
        QuizGenerator._validate_quiz_data (PDict d) = inr v
        /\ py_getitem v "questions" = inr (PList QuizGenerator.fallback_questions)
        /\ (forall y, dict_get "related_topics" d = Some y -> py_truthy y = true ->
                      py_getitem v "related_topics" = inr y)
        /\ (absent_or (PDict d) "related_topics" not_truthy = inr true ->
            py_getitem v "related_topics"
            = inr (PList [PStr "Knowledge"; PStr "Education"; PStr "Research"])))
  /\ (forall d title,
        dict_get "questions" d = None ->
        exists v,
          AdvancedQuizGenerator._validate_quiz_structure (PDict d) title = inr v
          /\ py_getitem v "questions" = inr (PList []))
  /\ (forall json_loads text title,
        json_loads text = None
        \/ (exists d, json_loads text = Some (PDict d)
                      /\ absent_or (PDict d) "questions" not_truthy = inr true) ->
        AdvancedQuizGenerator._parse_quiz_data json_loads text title
        = inr (AdvancedQuizGenerator._generate_smart_fallback_quiz title)).
Proof.
  split; [|split].
  - intros d A. unfold QuizGenerator._validate_quiz_data.
    rewrite (ensure_sets_when_absent _ _ _ _ A).
    cbn [bind py_getitem ret]. rewrite dict_get_set_same.
    cbn [bind py_len ret].
    change (List.length QuizGenerator.fallback_questions <? 3) with false.
    cbn [bind py_getitem ret]. rewrite dict_get_set_same.
    cbn [bind py_iter ret].
    rewrite for_enumerate_id.
    + cbn [bind store_back py_setitem ret]. rewrite dict_set_twice.
      match goal with
      | |- context [ensure (PDict ?d1) "related_topics" not_truthy ?x] =>
          destruct (ensure_topics_result d1 x) as (d' & E & Kq & Kt & Ka)
      end.
      rewrite E. eexists. split; [reflexivity|]. cbn [py_getitem].
      rewrite Kq, dict_get_set_same. split; [reflexivity|]. split.
      * intros y G T. rewrite (Kt y); [reflexivity | | exact T].
        rewrite dict_get_set_other by discriminate. exact G.
      * intros At. rewrite Ka; [reflexivity|].
        rewrite absent_or_cases in *.
        rewrite dict_get_set_other by discriminate. exact At.
    + intros j x Hx. apply validate_question_id.
      revert x Hx. apply forallb_forall. reflexivity.
  - intros d title G. unfold AdvancedQuizGenerator._validate_quiz_structure.
    rewrite ensure_cases, G.
    cbn [bind py_getitem ret]. rewrite dict_get_set_same.
    cbn [bind py_iter for_enumerate store_back py_setitem ret].
    rewrite dict_set_twice.
    match goal with
    | |- context [ensure (PDict ?d1) "related_topics" not_truthy ?x] =>
        destruct (ensure_topics_result d1 x) as (d' & E & Kq & _)
    end.
    rewrite E. eexists. split; [reflexivity|]. cbn [py_getitem].
    rewrite Kq, dict_get_set_same. reflexivity.
  - intros json_loads text title [J | (d & J & A)];
      unfold AdvancedQuizGenerator._parse_quiz_data,
        AdvancedQuizGenerator.parse_quiz_data_body; rewrite J.
    + reflexivity.
    + cbn [bind ret]. rewrite A. reflexivity.
Qed.

Lemma missing_questions_witness :
  (exists v,
      QuizGenerator._validate_quiz_data
        (PDict [("questions", PList []); ("related_topics", PList [PStr "Programming"])])
      = inr v
      /\ py_getitem v "questions" = inr (PList QuizGenerator.fallback_questions)
      /\ py_getitem v "related_topics" = inr (PList [PStr "Programming"]))
  /\ (exists v,
        AdvancedQuizGenerator._validate_quiz_structure
          (PDict [("related_topics", PList [PStr "Programming"])]) "Python" = inr v
        /\ py_getitem v "questions" = inr (PList []))
  /\ AdvancedQuizGenerator._parse_quiz_data json_loads_subset "not json" "Python"
     = inr (AdvancedQuizGenerator._generate_smart_fallback_quiz "Python").
Proof.
  destruct missing_questions as (H1 & H2 & H3). split; [|split].
  - destruct (H1 [("questions", PList []);
                  ("related_topics", PList [PStr "Programming"])] eq_refl)
      as (v & E & Q & T & _).
    exists v. split; [exact E|]. split; [exact Q|]. apply T; reflexivity.
  - apply H2. reflexivity.
  - apply H3. left. vm_compute. reflexivity.
Defined.

(** ** The placeholders *)

Lemma for_enumerate_nth : forall (body : nat -> pyval -> result pyval) items i items',
  for_enumerate body i items = inr items' ->
  forall k x, nth_error items k = Some x ->
    exists x', nth_error items' k = Some x' /\ body (i + k) x = inr x'.
Proof.
  intros body. induction items as [|a items IH]; intros i items' H k x N.
  - destruct k; discriminate.
  - simpl in H. apply bind_inr in H. destruct H as (a' & Ha & H).
    apply bind_inr in H. destruct H as (rest' & Hr & H).
    inversion H; subst items'; clear H.
    destruct k as [|k]; simpl in N.
    + inversion N; subst a. exists a'. rewrite Nat.add_0_r. auto.
    + destruct (IH (S i) rest' Hr k x N) as (x' & N' & B).
      exists x'. split; [exact N'|]. rewrite <- Nat.add_succ_comm. exact B.
Qed.

Lemma among_back : forall l z, not_among l z = inr false -> py_among z l = true.
Proof. intros l z H. apply not_among_ok. exact H. Qed.

(** X15. The placeholders of main.py go by the place of the question. In
    what [_validate_quiz_structure] returns, the question at index [k]
    (from 0) whose difficulty was missing or not one of easy, medium, hard
    has the difficulty "medium" when [k] is even and "easy" when it is
    odd; and one whose answer was missing or not one of A, B, C, D has the
    answer "A". *)
Theorem placeholders_by_index :
  forall d title v l k question,
    AdvancedQuizGenerator._validate_quiz_structure (PDict d) title = inr v ->
    dict_get "questions" d = Some (PList l) ->
    nth_error l k = Some (PDict question) ->
    exists l' question',
      py_getitem v "questions" = inr (PList l')
      /\ nth_error l' k = Some (PDict question')
      /\ (field "difficulty" (fun y => py_among y difficulties) question = false ->
          dict_get "difficulty" question'
          = Some (PStr (if k mod 2 =? 0 then "medium" else "easy")))
      /\ (field "correct_answer" (fun y => py_among y letters) question = false ->
          dict_get "correct_answer" question' = Some (PStr "A")).
Proof.
  intros d title v l k question H G N.
  destruct (validate_quiz_structure_result d title v H)
    as (d' & qs' & -> & G' & _ & _ & Cases).
  rewrite G in Cases.
  destruct Cases as [(l1 & l' & E & -> & Loop & _ & _) | (_ & _ & Hn)];
    [|exfalso; eapply Hn; reflexivity].
  inversion E; subst l1; clear E.
  destruct (for_enumerate_nth _ _ _ _ Loop k _ N) as (x' & N' & B).
  cbn [Nat.add] in B. unfold AdvancedQuizGenerator.validate_question in B.
  facts_step B is_nonblank_str nonblank_is_not_blank d1 K1 G1.
  facts_step B has_len_4 has_len_4_not_bad d2 K2 G2.
  apply bind_inr in B. destruct B as (q3 & E3 & B).
  apply (ensure_facts (fun y => py_among y letters)) in E3;
    [|intros ? ?; apply (among_is_kept letters); assumption].
  destruct E3 as (d3 & -> & K3 & _ & B3 & A3).
  facts_step B is_nonblank_str nonblank_is_not_blank d4 K4 G4.
  apply (ensure_facts (fun y => py_among y difficulties)) in B;
    [|intros ? ?; apply (among_is_kept difficulties); assumption].
  destruct B as (d5 & -> & K5 & _ & B5 & A5).
  exists l', d5. split; [cbn [py_getitem]; rewrite G'; reflexivity|].
  split; [exact N'|]. split.
  - intros F. unfold field in F.
    assert (E : dict_get "difficulty" d4 = dict_get "difficulty" question)
      by (rewrite K4, K3, K2, K1 by discriminate; reflexivity).
    destruct (dict_get "difficulty" question) as [y|] eqn:Gy.
    + apply (B5 y); [exact E | exact F | apply among_back].
    + apply A5. exact E.
  - intros F. unfold field in F.
    assert (E : dict_get "correct_answer" d2 = dict_get "correct_answer" question)
      by (rewrite K2, K1 by discriminate; reflexivity).
    rewrite K5, K4 by discriminate.
    destruct (dict_get "correct_answer" question) as [y|] eqn:Gy.
    + apply (B3 y); [exact E | exact F | apply among_back].
    + apply A3. exact E.
Qed.

Lemma placeholders_by_index_witness :
  exists l' question',
    py_getitem partial_quiz_repaired "questions" = inr (PList l')
    /\ nth_error l' 1 = Some (PDict question')
    /\ (field "difficulty" (fun y => py_among y difficulties) partial_question = false ->
        dict_get "difficulty" question' = Some (PStr "easy"))
    /\ (field "correct_answer" (fun y => py_among y letters) partial_question = false ->
        dict_get "correct_answer" question' = Some (PStr "A")).
Proof.
  apply (placeholders_by_index
           [("questions", PList [parsed_question_1; PDict partial_question])]
           "Python" partial_quiz_repaired
           [parsed_question_1; PDict partial_question] 1 partial_question);
    reflexivity.
Defined.
